(** * Flaky test detector: a shallow embedding and its verified properties

    The development follows the Python package [flaky_test_detector]:

    - [detector.py]    : [TestResult], [FlakyTest], [FlakyDetector]
    - [ci_analyzer.py] : [CITestRun], [CIFlakyTest], the two CI analyzers,
                         [get_flaky_tests]
    - [analyzer.py]    : [FlakinessType], [RootCause], [RootCauseAnalyzer]
    - [suggester.py]   : [RepairSuggestion], [RepairSuggester]

    Modelling conventions.

    - Python [int] is [Z]; [str] is [string]; [list] is [list].
    - Python [float] values that the code computes ([flakiness_score], the
      fixed confidences) are modelled by the exact rational they denote, in
      [Q], compared with [==].  The only float operations in the code are one
      division of two counters by a run total, a [min] and a doubling;
      [Detector.flakiness_score_binary64] evaluates the same expression in
      binary64 and is compared with the rational model on the sample runs.
    - A [dict] is an insertion-ordered association list ([PyDict]): the code
      iterates over [.values()] / [.items()] and stable-sorts the result, so
      insertion order is observable.
    - [sorted(..., key=k)] and [list.sort(key=k, reverse=True)] are modelled
      by a stable insertion sort ([PySort]); a stable sort is determined by
      its input ([stable_sort_unique]), so any stable sort denotes the same
      function.
    - Mutation of [self.results] is explicit state passing. *)

From Stdlib Require Import String Ascii List ZArith QArith Qminmax Bool Lia.
From Stdlib Require Import Permutation Sorted DecimalString.
From Stdlib Require Floats Uint63.
Import ListNotations.

Local Open Scope string_scope.
Local Open Scope Z_scope.

(* ------------------------------------------------------------------ *)
(** ** Python built-ins used by the package *)

Module PyStr.

(** [sep.join(parts)] with the empty separator. *)
Definition join_empty (parts : list string) : string :=
  fold_right append EmptyString parts.

(** [s.startswith(p)] *)
Definition startswith (s p : string) : bool := String.prefix p s.

(** [c in s] for a one-character string [c]. *)
Fixpoint contains_char (c : ascii) (s : string) : bool :=
  match s with
  | EmptyString => false
  | String a rest => if Ascii.eqb a c then true else contains_char c rest
  end.

(** [s.count(c)] for a one-character string [c]. *)
Fixpoint count_char (c : ascii) (s : string) : Z :=
  match s with
  | EmptyString => 0
  | String a rest =>
      (if Ascii.eqb a c then 1 else 0) + count_char c rest
  end.

(** [s.split("::")]: left-to-right, non-overlapping occurrences of the
    two-character separator; the result is never empty. *)
Fixpoint split_colons_aux (cur : string) (s : string) : list string :=
  match s with
  | EmptyString => [cur]
  | String a rest =>
      match a, rest with
      | ":"%char, String ":"%char rest' =>
          cur :: split_colons_aux EmptyString rest'
      | _, _ => split_colons_aux (cur ++ String a EmptyString) rest
      end
  end.

Definition split_colons (s : string) : list string :=
  split_colons_aux EmptyString s.

(** [s.split('\n')] *)
Fixpoint split_lines_aux (cur : string) (s : string) : list string :=
  match s with
  | EmptyString => [cur]
  | String a rest =>
      if Ascii.eqb a (ascii_of_nat 10)
      then cur :: split_lines_aux EmptyString rest
      else split_lines_aux (cur ++ String a EmptyString) rest
  end.

Definition split_lines (s : string) : list string :=
  split_lines_aux EmptyString s.

(** ASCII whitespace as [str.isspace] sees it. *)
Definition isspace (a : ascii) : bool :=
  let n := nat_of_ascii a in
  (Nat.eqb n 32 || (Nat.leb 9 n && Nat.leb n 13)
   || (Nat.leb 28 n && Nat.leb n 31))%bool.

Fixpoint lstrip (s : string) : string :=
  match s with
  | EmptyString => EmptyString
  | String a rest => if isspace a then lstrip rest else s
  end.

Fixpoint rstrip (s : string) : string :=
  match s with
  | EmptyString => EmptyString
  | String a rest =>
      match rstrip rest with
      | EmptyString => if isspace a then EmptyString
                       else String a EmptyString
      | r => String a r
      end
  end.

(** [s.strip()] *)
Definition strip (s : string) : string := rstrip (lstrip s).

End PyStr.

(** An insertion-ordered dictionary with string keys. *)
Module PyDict.

Definition dict (V : Type) : Type := list (string * V).

Definition empty {V} : dict V := [].

(** [d.get(k)] / [d[k]] *)
Fixpoint get {V} (k : string) (d : dict V) : option V :=
  match d with
  | [] => None
  | (k', v) :: rest => if String.eqb k' k then Some v else get k rest
  end.

(** [k in d] *)
Definition contains {V} (k : string) (d : dict V) : bool :=
  match get k d with Some _ => true | None => false end.

(** [d[k] = v]: an existing key keeps its position, a new key goes last. *)
Fixpoint set {V} (k : string) (v : V) (d : dict V) : dict V :=
  match d with
  | [] => [(k, v)]
  | (k', v') :: rest =>
      if String.eqb k' k then (k', v) :: rest
      else (k', v') :: set k v rest
  end.

(** [d.values()] and [d.items()], in insertion order. *)
Definition values {V} (d : dict V) : list V := map snd d.
Definition items {V} (d : dict V) : list (string * V) := d.

End PyDict.

(** [sorted] / [list.sort]: a stable sort.  [before x y] says that [x] may
  stand before [y]; among elements that may stand either way round the input
  order is kept. *)
Module PySort.

Section Sort.
Context {A : Type} (before : A -> A -> bool).

Fixpoint insert (x : A) (l : list A) : list A :=
  match l with
  | [] => [x]
  | y :: ys => if before x y then x :: y :: ys else y :: insert x ys
  end.

Definition stable_sort (l : list A) : list A :=
  fold_right insert [] l.

(** [tie a z]: [a] and [z] may stand either way round (equal keys). *)
Definition tie (a z : A) : bool := before a z && before z a.
End Sort.

(** [sorted(l, key=key)] with integer keys. *)
Definition sorted_by_int_key {A} (key : A -> Z) : list A -> list A :=
  stable_sort (fun x y => key x <=? key y).

(** [l.sort(key=key, reverse=True)] with float keys: descending, and still
    stable (equal keys keep their input order). *)
Definition sort_by_float_key_reverse {A} (key : A -> Q) : list A -> list A :=
  stable_sort (fun x y => Qle_bool (key y) (key x)).

End PySort.

(* ------------------------------------------------------------------ *)
(** ** detector.py *)

Module Detector.

(** [@dataclass class TestResult] *)
Record TestResult : Type := mkTestResult {
  r_test_id : string;
  r_outcome : string;        (* passed, failed, skipped, error *)
  r_duration : Q;
  r_error_message : string
}.

(** [@dataclass class FlakyTest] *)
Record FlakyTest : Type := mkFlakyTest {
  test_id : string;
  test_file : string;
  test_function : string;
  pass_count : Z;
  fail_count : Z;
  error_count : Z;
  skip_count : Z;
  outcomes : list string;
  error_messages : list string
}.

(** [FlakyTest(test_id=..., test_file=..., test_function=...)] *)
Definition new_FlakyTest (id file func : string) : FlakyTest :=
  mkFlakyTest id file func 0 0 0 0 [] [].

(** [len(self.outcomes)] *)
Definition total (t : FlakyTest) : Z := Z.of_nat (length (outcomes t)).

(** [FlakyTest.flakiness_score] *)
Definition flakiness_score (t : FlakyTest) : Q :=
  if total t =? 0 then 0%Q
  else
    let pass_ratio := (inject_Z (pass_count t) / inject_Z (total t))%Q in
    let fail_ratio := (inject_Z (fail_count t) / inject_Z (total t))%Q in
    (Qmin pass_ratio fail_ratio * 2)%Q.

(** The same expression evaluated in binary64, as Python evaluates it
    (valid for counters below 2^53, which convert exactly): the true
    division of two integers, [min] (the second argument only when it is
    strictly smaller) and the doubling. *)
Definition float_of_int (n : Z) : PrimFloat.float :=
  PrimFloat.of_uint63 (Uint63.of_Z n).

Definition float_min (a b : PrimFloat.float) : PrimFloat.float :=
  if PrimFloat.ltb b a then b else a.

Definition flakiness_score_binary64 (t : FlakyTest) : PrimFloat.float :=
  if total t =? 0 then PrimFloat.zero
  else
    let pass_ratio :=
      PrimFloat.div (float_of_int (pass_count t)) (float_of_int (total t)) in
    let fail_ratio :=
      PrimFloat.div (float_of_int (fail_count t)) (float_of_int (total t)) in
    PrimFloat.mul (float_min pass_ratio fail_ratio) PrimFloat.two.

(** [set(self.outcomes)] and membership in it. *)
Definition py_set (l : list string) : list string := nodup string_dec l.
Definition in_set (x : string) (s : list string) : bool :=
  existsb (String.eqb x) s.

(** [FlakyTest.is_flaky] *)
Definition is_flaky (t : FlakyTest) : bool :=
  let unique_outcomes := py_set (outcomes t) in
  let has_pass := in_set "passed" unique_outcomes in
  let has_fail := in_set "failed" unique_outcomes
                  || in_set "error" unique_outcomes in
  has_pass && has_fail.

(** ['P' if o == 'passed' else 'F'] *)
Definition pf_char (o : string) : string :=
  if String.eqb o "passed" then "P" else "F".

(** [''.join('P' if o == 'passed' else 'F' for o in self.outcomes)] *)
Definition outcomes_str (t : FlakyTest) : string :=
  PyStr.join_empty (map pf_char (outcomes t)).

(** [FlakyTest.failure_pattern] *)
Definition failure_pattern (t : FlakyTest) : string :=
  if negb (is_flaky t) then "stable"
  else
    let s := outcomes_str t in
    if PyStr.startswith s "F" && PyStr.contains_char "P" s
    then "initially_failing"
    else if PyStr.startswith s "P" && PyStr.contains_char "F" s
    then "initially_passing"
    else if PyStr.count_char "F" s <? 3
    then "rarely_failing"
    else if PyStr.count_char "P" s <? 3
    then "rarely_passing"
    else "intermittent".

(** The part of the loop body of [FlakyDetector._process_results] under
    the comment "Update test data": the outcome is appended and the matching
    counter incremented. *)
Definition update_test_data (ft : FlakyTest) (result : TestResult)
  : FlakyTest :=
  let o := r_outcome result in
  let ft1 :=
    mkFlakyTest (test_id ft) (test_file ft) (test_function ft)
                (pass_count ft) (fail_count ft) (error_count ft)
                (skip_count ft)
                (outcomes ft ++ [o]) (error_messages ft) in
  if String.eqb o "passed" then
    mkFlakyTest (test_id ft1) (test_file ft1) (test_function ft1)
                (pass_count ft1 + 1) (fail_count ft1)
                (error_count ft1) (skip_count ft1)
                (outcomes ft1) (error_messages ft1)
  else if String.eqb o "failed" then
    mkFlakyTest (test_id ft1) (test_file ft1) (test_function ft1)
                (pass_count ft1) (fail_count ft1 + 1)
                (error_count ft1) (skip_count ft1)
                (outcomes ft1)
                (error_messages ft1 ++ [r_error_message result])
  else if String.eqb o "error" then
    mkFlakyTest (test_id ft1) (test_file ft1) (test_function ft1)
                (pass_count ft1) (fail_count ft1)
                (error_count ft1 + 1) (skip_count ft1)
                (outcomes ft1)
                (error_messages ft1 ++ [r_error_message result])
  else if String.eqb o "skipped" then
    mkFlakyTest (test_id ft1) (test_file ft1) (test_function ft1)
                (pass_count ft1) (fail_count ft1)
                (error_count ft1) (skip_count ft1 + 1)
                (outcomes ft1) (error_messages ft1)
  else ft1.

(** The body of the loop of [FlakyDetector._process_results]: one
    [TestResult] is recorded into [self.results]. *)
Definition record_result (results : PyDict.dict FlakyTest)
                         (result : TestResult) : PyDict.dict FlakyTest :=
  let test_id := r_test_id result in
  let parts := PyStr.split_colons test_id in
  let test_file :=
    match parts with [] => "unknown" | p :: _ => p end in
  let test_function :=
    match parts with [] => "unknown" | _ => last parts "unknown" end in
  let results :=
    if negb (PyDict.contains test_id results)
    then PyDict.set test_id
           (new_FlakyTest test_id test_file test_function) results
    else results in
  match PyDict.get test_id results with
  | None => results          (* not reached: the key was just ensured *)
  | Some flaky_test =>
      PyDict.set test_id (update_test_data flaky_test result) results
  end.

(** [FlakyDetector._process_results] *)
Definition _process_results (results : PyDict.dict FlakyTest)
                            (rs : list TestResult) : PyDict.dict FlakyTest :=
  fold_left record_result rs results.

(** [FlakyDetector.run_detection], over the decoded reports of the
    successive runs (an unreadable report is the empty list, as
    [_execute_single_run] returns it); [self.results] starts empty. *)
Definition run_detection (reports : list (list TestResult))
  : PyDict.dict FlakyTest :=
  fold_left _process_results reports PyDict.empty.

(** [FlakyDetector.get_flaky_tests] *)
Definition get_flaky_tests (results : PyDict.dict FlakyTest)
  : list FlakyTest :=
  let flaky := filter is_flaky (PyDict.values results) in
  PySort.sort_by_float_key_reverse flakiness_score flaky.

(** [FlakyDetector.get_stable_tests] *)
Definition get_stable_tests (results : PyDict.dict FlakyTest)
  : list FlakyTest :=
  filter (fun t => negb (is_flaky t)) (PyDict.values results).

(** The JSON report [_execute_single_run] reads: a [tests] array whose
    entries carry [nodeid] and [outcome], and optionally [duration] and
    [call.longrepr]. *)
Record ReportCall : Type := mkReportCall {
  longrepr : option string
}.

Record ReportTest : Type := mkReportTest {
  nodeid : string;
  outcome : string;
  duration : option Q;
  call : option ReportCall
}.

Record Report : Type := mkReport {
  tests : option (list ReportTest)
}.

(** [test.get("call", {}).get("longrepr", "")[:200]] *)
Definition longrepr_prefix (test : ReportTest) : string :=
  let text :=
    match call test with
    | None => EmptyString
    | Some c => match longrepr c with None => EmptyString | Some l => l end
    end in
  String.substring 0 200 text.

(** The loop "Extract test results" of [_execute_single_run]. *)
Definition extract_test_results (report : Report) : list TestResult :=
  map (fun test =>
         let error_msg :=
           if existsb (String.eqb (outcome test)) ["failed"; "error"]
           then longrepr_prefix test else EmptyString in
         mkTestResult (nodeid test) (outcome test)
                      (match duration test with Some d => d | None => 0%Q end)
                      error_msg)
      (match tests report with Some ts => ts | None => [] end).

(** [FlakyDetector._execute_single_run], from what reading the report file
    gives: [None] stands for [FileNotFoundError] and [json.JSONDecodeError]. *)
Definition _execute_single_run (report_file : option Report)
  : list TestResult :=
  match report_file with
  | None => []
  | Some report => extract_test_results report
  end.

(** [run_detection] with its calls of [_execute_single_run]: one report file
    per run. *)
Definition run_detection_on (report_files : list (option Report))
  : PyDict.dict FlakyTest :=
  run_detection (map _execute_single_run report_files).

End Detector.

(* ------------------------------------------------------------------ *)
(** ** ci_analyzer.py *)

Module CIAnalyzer.

(** A [datetime], carried as the ISO text it was parsed from. *)
Definition datetime : Type := string.

(** [@dataclass class CITestRun] *)
Record CITestRun : Type := mkCITestRun {
  r_test_name : string;
  r_status : string;          (* passed, failed, skipped *)
  r_run_id : string;
  r_run_number : Z;
  r_commit_sha : string;
  r_branch : string;
  r_timestamp : datetime;
  r_duration : Q
}.

(** [@dataclass class CIFlakyTest] *)
Record CIFlakyTest : Type := mkCIFlakyTest {
  test_name : string;
  total_runs : Z;
  pass_count : Z;
  fail_count : Z;
  skip_count : Z;
  runs : list CITestRun;
  branches : list string      (* a set, kept without repetition *)
}.

(** [CIFlakyTest(test_name=..., total_runs=0)] *)
Definition new_CIFlakyTest (name : string) : CIFlakyTest :=
  mkCIFlakyTest name 0 0 0 0 [] [].

(** [CIFlakyTest.flakiness_score] *)
Definition flakiness_score (t : CIFlakyTest) : Q :=
  if total_runs t =? 0 then 0%Q
  else
    let pass_ratio := (inject_Z (pass_count t) / inject_Z (total_runs t))%Q in
    let fail_ratio := (inject_Z (fail_count t) / inject_Z (total_runs t))%Q in
    (Qmin pass_ratio fail_ratio * 2)%Q.

(** [CIFlakyTest.is_flaky] *)
Definition is_flaky (t : CIFlakyTest) : bool :=
  (0 <? pass_count t) && (0 <? fail_count t).


(** One entry of the list [parse_pytest_output] returns. *)
Record TestData : Type := mkTestData {
  d_test_name : string;
  d_test_id : string;
  d_status : string
}.

(** [needle in line] for strings. *)
Fixpoint str_in (needle line : string) : bool :=
  if String.prefix needle line then true
  else match line with
       | EmptyString => false
       | String _ rest => str_in needle rest
       end.

(** [line.split()]: the maximal runs of non-whitespace characters. *)
Fixpoint split_ws_aux (cur : string) (s : string) : list string :=
  match s with
  | EmptyString => match cur with EmptyString => [] | _ => [cur] end
  | String a rest =>
      if PyStr.isspace a
      then match cur with
           | EmptyString => split_ws_aux EmptyString rest
           | _ => cur :: split_ws_aux EmptyString rest
           end
      else split_ws_aux (cur ++ String a EmptyString) rest
  end.

Definition split_ws (s : string) : list string := split_ws_aux EmptyString s.

(** [s.lower()] on ASCII. *)
Definition lower_char (a : ascii) : ascii :=
  let n := nat_of_ascii a in
  if (Nat.leb 65 n && Nat.leb n 90)%bool then ascii_of_nat (n + 32) else a.

Fixpoint lower (s : string) : string :=
  match s with
  | EmptyString => EmptyString
  | String a rest => String (lower_char a) (lower rest)
  end.

(** [parse_pytest_output] (the same text in both analyzers). *)
Definition parse_line (line : string) : list TestData :=
  if str_in "::" line
     && existsb (fun status => str_in status line)
                ["PASSED"; "FAILED"; "SKIPPED"; "ERROR"]
  then
    match split_ws line with
    | test_id :: p1 :: _ =>
        let status := lower p1 in
        if str_in "::" test_id
        then [mkTestData (last (PyStr.split_colons test_id) test_id)
                         test_id status]
        else []
    | _ => []
    end
  else [].

Definition parse_pytest_output (logs : string) : list TestData :=
  flat_map parse_line (PyStr.split_lines logs).

(** [str(n)] for an integer. *)
Definition py_str_int (n : Z) : string :=
  DecimalString.NilZero.string_of_int (Z.to_int n).

(** [s.replace('Z', '+00:00')] *)
Fixpoint replace_Z (s : string) : string :=
  match s with
  | EmptyString => EmptyString
  | String a rest =>
      if Ascii.eqb a "Z"%char then "+00:00" ++ replace_Z rest
      else String a (replace_Z rest)
  end.

(** [s.add(x)] on a set kept as a list. *)
Definition set_add (x : string) (s : list string) : list string :=
  if existsb (String.eqb x) s then s else s ++ [x].

(** Provenance of one CI execution, as both [analyze] methods read it
    before their inner loop. *)
Record Provenance : Type := mkProvenance {
  p_run_id : Z;
  p_run_number : Z;
  p_commit_sha : string;
  p_branch : string;
  p_timestamp : datetime
}.

(** The part of the inner loop body of [analyze] that updates the
    aggregate of the test: run count, branch, run record and counters. *)
Definition update_ci_test (prov : Provenance) (tr : CIFlakyTest)
                          (name status : string) : CIFlakyTest :=
  let ci_run :=
    mkCITestRun name status (py_str_int (p_run_id prov))
                (p_run_number prov) (p_commit_sha prov) (p_branch prov)
                (p_timestamp prov) 0%Q in
  let tr1 :=
    mkCIFlakyTest (test_name tr) (total_runs tr + 1)
                  (pass_count tr) (fail_count tr) (skip_count tr)
                  (runs tr ++ [ci_run])
                  (set_add (p_branch prov) (branches tr)) in
  if String.eqb status "passed" then
    mkCIFlakyTest (test_name tr1) (total_runs tr1)
                  (pass_count tr1 + 1) (fail_count tr1) (skip_count tr1)
                  (runs tr1) (branches tr1)
  else if existsb (String.eqb status) ["failed"; "error"] then
    mkCIFlakyTest (test_name tr1) (total_runs tr1)
                  (pass_count tr1) (fail_count tr1 + 1) (skip_count tr1)
                  (runs tr1) (branches tr1)
  else if String.eqb status "skipped" then
    mkCIFlakyTest (test_name tr1) (total_runs tr1)
                  (pass_count tr1) (fail_count tr1) (skip_count tr1 + 1)
                  (runs tr1) (branches tr1)
  else tr1.

(** The body of the inner loop [for test_data in tests] of [analyze]
    (the two analyzers have the same body up to the provenance names). *)
Definition record_ci_test (prov : Provenance)
                          (test_results : PyDict.dict CIFlakyTest)
                          (test_data : TestData) : PyDict.dict CIFlakyTest :=
  let name := d_test_name test_data in
  let status := d_status test_data in
  let test_results :=
    if negb (PyDict.contains name test_results)
    then PyDict.set name (new_CIFlakyTest name) test_results
    else test_results in
  match PyDict.get name test_results with
  | None => test_results     (* not reached: the key was just ensured *)
  | Some test_result =>
      PyDict.set name (update_ci_test prov test_result name status)
                 test_results
  end.

(** A workflow run as the GitHub API lists it. *)
Record WorkflowRun : Type := mkWorkflowRun {
  id : Z;
  run_number : Z;
  head_sha : string;
  head_branch : string;
  created_at : string
}.

(** A pipeline and a job as the GitLab API lists them. *)
Record Pipeline : Type := mkPipeline {
  pl_id : Z;
  pl_sha : string;
  pl_ref : string;
  pl_created_at : string
}.

Record Job : Type := mkJob {
  job_id : Z;
  job_name : string
}.

(** [if not logs]: [None] or the empty string. *)
Definition no_logs (logs : option string) : bool :=
  match logs with
  | None => true
  | Some EmptyString => true
  | Some _ => false
  end.

Section Analyzers.

(** The network calls, as functions of their argument. *)
Variable fetch_job_logs : Z -> option string.        (* GitHub, by run id *)
Variable fetch_pipeline_jobs : Z -> list Job.        (* GitLab *)
Variable fetch_job_log : Z -> option string.         (* GitLab, by job id *)

(** [GitHubActionsAnalyzer.analyze], from the list [fetch_workflow_runs]
    returned. *)
Definition github_step (test_results : PyDict.dict CIFlakyTest)
                       (run : WorkflowRun) : PyDict.dict CIFlakyTest :=
  let prov := mkProvenance (id run) (run_number run) (head_sha run)
                           (head_branch run) (replace_Z (created_at run)) in
  let logs := fetch_job_logs (id run) in
  if no_logs logs then test_results
  else
    let tests := parse_pytest_output (match logs with
                                      | Some l => l | None => EmptyString
                                      end) in
    fold_left (record_ci_test prov) tests test_results.

Definition github_analyze (workflow_runs : list WorkflowRun)
  : PyDict.dict CIFlakyTest :=
  fold_left github_step (firstn 20 workflow_runs) PyDict.empty.

(** [GitLabCIAnalyzer.analyze], from the list [fetch_pipelines] returned. *)
Definition gitlab_step (test_results : PyDict.dict CIFlakyTest)
                       (pipeline : Pipeline) : PyDict.dict CIFlakyTest :=
  let prov := mkProvenance (pl_id pipeline) (pl_id pipeline) (pl_sha pipeline)
                           (pl_ref pipeline)
                           (replace_Z (pl_created_at pipeline)) in
  let jobs := fetch_pipeline_jobs (pl_id pipeline) in
  match find (fun j => str_in "test" (lower (job_name j))) jobs with
  | None => test_results
  | Some test_job =>
      let logs := fetch_job_log (job_id test_job) in
      if no_logs logs then test_results
      else
        let tests := parse_pytest_output (match logs with
                                          | Some l => l | None => EmptyString
                                          end) in
        fold_left (record_ci_test prov) tests test_results
  end.

Definition gitlab_analyze (pipelines : list Pipeline)
  : PyDict.dict CIFlakyTest :=
  fold_left gitlab_step (firstn 20 pipelines) PyDict.empty.

End Analyzers.

(** [get_flaky_tests(test_results, min_runs)] *)
Definition get_flaky_tests (test_results : PyDict.dict CIFlakyTest)
                           (min_runs : Z) : list CIFlakyTest :=
  let flaky_tests :=
    fold_left
      (fun (acc : list CIFlakyTest) (kv : string * CIFlakyTest) =>
         let test_data := snd kv in
         if (min_runs <=? total_runs test_data) && is_flaky test_data
         then (acc ++ [test_data])%list else acc)
      (PyDict.items test_results) [] in
  PySort.sort_by_float_key_reverse flakiness_score flaky_tests.

End CIAnalyzer.

(* ------------------------------------------------------------------ *)
(** ** analyzer.py *)

Module Analyzer.

(** [class FlakinessType(Enum)] *)
Inductive FlakinessType : Type :=
| TIME_DEPENDENT
| RANDOM_DEPENDENT
| ORDER_DEPENDENT
| CONCURRENCY
| EXTERNAL_DEPENDENCY
| FLOATING_POINT
| UNORDERED_COLLECTION
| GLOBAL_STATE
| UNKNOWN.

(** The [value] of each member. *)
Definition value (t : FlakinessType) : string :=
  match t with
  | TIME_DEPENDENT => "time_dependent"
  | RANDOM_DEPENDENT => "random_dependent"
  | ORDER_DEPENDENT => "order_dependent"
  | CONCURRENCY => "concurrency"
  | EXTERNAL_DEPENDENCY => "external_dependency"
  | FLOATING_POINT => "floating_point"
  | UNORDERED_COLLECTION => "unordered_collection"
  | GLOBAL_STATE => "global_state"
  | UNKNOWN => "unknown"
  end.

Definition FlakinessType_eqb (a b : FlakinessType) : bool :=
  String.eqb (value a) (value b).

(** [@dataclass class RootCause] *)
Record RootCause : Type := mkRootCause {
  type : FlakinessType;
  description : string;
  line_numbers : list Z;
  code_snippets : list string;
  confidence : Q
}.

(** The class-level pattern tables (Python raw strings, verbatim). *)
Definition TIME_PATTERNS : list string :=
  [ "\bdatetime\.now\(\)"; "\btime\.time\(\)"; "\btime\.sleep\(";
    "\btimestamp\b"; "\btoday\(\)"; "\butcnow\(\)" ].

Definition RANDOM_PATTERNS : list string :=
  [ "\brandom\."; "\buuid\.uuid4\(\)"; "\bgenerate_uuid\(";
    "\bgenerate_user_id\("; "\bshuffle\("; "\bshuffle_list\(";
    "\bchoice\("; "\brandint\("; "\brandrange\("; "\buuid4\(" ].

Definition CONCURRENCY_PATTERNS : list string :=
  [ "\bthreading\."; "\bThread\("; "\basyncio\."; "\basync def\b";
    "\bawait\b"; "\bmultiprocessing\."; "\bPool\(" ].

Definition ORDER_PATTERNS : list string :=
  [ "\bset\("; "\bdict\.keys\(\)"; "\bdict\.values\(\)";
    "\bdict\.items\(\)"; "\.json\(\)" ].

Definition EXTERNAL_PATTERNS : list string :=
  [ "\brequests\."; "\bhttp"; "\burl"; "\bapi"; "\bsocket\.";
    "\bopen\("; "\.read\("; "\.write\(" ].

Definition FLOAT_PATTERNS : list string :=
  [ "assert.*==.*\d+\.\d+"; "assertEqual.*\d+\.\d+" ].

Definition GLOBAL_STATE_PATTERNS : list string :=
  [ "\bglobal\b"; "\b__class__\."; "\bsys\."; "\bos\.environ" ].

(** The analyzer is written against Python's [ast] and [re] modules; they
    are the interface below. *)
Section WithPythonLibraries.

Variable ast_module : Type.         (* what [ast.parse] returns *)
Variable function_def : Type.       (* an [ast.FunctionDef] node *)

(** [ast.parse(source)]; [None] stands for [SyntaxError]. *)
Variable ast_parse : string -> option ast_module.
(** The [ast.FunctionDef] nodes among [ast.walk(tree)], in walk order. *)
Variable walk_function_defs : ast_module -> list function_def.
Variable fd_name : function_def -> string.
Variable fd_lineno : function_def -> Z.
(** [ast.get_source_segment(source, node)] *)
Variable get_source_segment : string -> function_def -> option string.
(** [re.search(pattern, line)] seen as a truth value. *)
Variable re_search : string -> string -> bool.

(** The state [RootCauseAnalyzer.__init__] leaves. *)
Record RootCauseAnalyzer : Type := mkRootCauseAnalyzer {
  source_code : string;
  tree : option ast_module
}.

(** [RootCauseAnalyzer.__init__]; [file_text] is [None] when the file does
    not exist. *)
Definition init (file_text : option string) : RootCauseAnalyzer :=
  match file_text with
  | None => mkRootCauseAnalyzer EmptyString None
  | Some text => mkRootCauseAnalyzer text (ast_parse text)
  end.

(** [RootCauseAnalyzer._find_function] *)
Definition _find_function (t : ast_module) (func_name : string)
  : option function_def :=
  find (fun node => String.eqb (fd_name node) func_name)
       (walk_function_defs t).

(** [RootCauseAnalyzer._check_pattern]: [i] is the index [enumerate]
    has reached. *)
Fixpoint _check_pattern_from (i : Z) (patterns : list string)
         (lines : list string) (start_line : Z) : list (Z * string) :=
  match lines with
  | [] => []
  | line :: rest =>
      (if existsb (fun pattern => re_search pattern line) patterns
       then [(start_line + i, PyStr.strip line)] else [])
      ++ _check_pattern_from (i + 1) patterns rest start_line
  end.

Definition _check_pattern (source : string) (patterns : list string)
           (lines : list string) (start_line : Z) : list (Z * string) :=
  _check_pattern_from 0 patterns lines start_line.

(** The shape shared by the seven [_check_*] methods. *)
Definition check_category (patterns : list string) (ty : FlakinessType)
           (descr : string) (conf : Q)
           (source : string) (lines : list string) (start_line : Z)
  : list RootCause :=
  match _check_pattern source patterns lines start_line with
  | [] => []
  | matches => [mkRootCause ty descr (map fst matches) (map snd matches) conf]
  end.

Definition _check_time_dependency :=
  check_category TIME_PATTERNS TIME_DEPENDENT
    "Test uses current time/date which changes between runs" (9 # 10).

Definition _check_random_dependency :=
  check_category RANDOM_PATTERNS RANDOM_DEPENDENT
    "Test uses random values without setting seed" (95 # 100).

Definition _check_concurrency :=
  check_category CONCURRENCY_PATTERNS CONCURRENCY
    "Test involves threading/async code with potential race conditions"
    (8 # 10).

Definition _check_order_dependency :=
  check_category ORDER_PATTERNS UNORDERED_COLLECTION
    "Test relies on ordering of sets/dicts which is not guaranteed" (7 # 10).

Definition _check_external_dependency :=
  check_category EXTERNAL_PATTERNS EXTERNAL_DEPENDENCY
    "Test depends on external resources (network, filesystem, etc.)"
    (6 # 10).

Definition _check_floating_point :=
  check_category FLOAT_PATTERNS FLOATING_POINT
    "Test uses exact floating point comparison which may fail due to rounding"
    (85 # 100).

Definition _check_global_state :=
  check_category GLOBAL_STATE_PATTERNS GLOBAL_STATE
    "Test modifies global state which may affect other tests" (75 # 100).

(** The two fallback results of [analyze]. *)
Definition could_not_parse : RootCause :=
  mkRootCause UNKNOWN "Could not parse test file" [] [] 0.

Definition no_obvious_pattern : RootCause :=
  mkRootCause UNKNOWN "No obvious flakiness pattern detected" [] [] (1 # 10).

(** All the checks of [analyze], in the order it runs them. *)
Definition run_checks (func_source : string) (func_lines : list string)
           (func_start_line : Z) : list RootCause :=
  _check_time_dependency func_source func_lines func_start_line
  ++ _check_random_dependency func_source func_lines func_start_line
  ++ _check_concurrency func_source func_lines func_start_line
  ++ _check_order_dependency func_source func_lines func_start_line
  ++ _check_external_dependency func_source func_lines func_start_line
  ++ _check_floating_point func_source func_lines func_start_line
  ++ _check_global_state func_source func_lines func_start_line.

(** [RootCauseAnalyzer.analyze] *)
Definition analyze (self : RootCauseAnalyzer) (test_function_name : string)
  : list RootCause :=
  match tree self with
  | None => [could_not_parse]
  | Some t =>
      match _find_function t test_function_name with
      | None => []
      | Some test_func =>
          match get_source_segment (source_code self) test_func with
          | None => []
          | Some EmptyString => []
          | Some func_source =>
              let func_lines := PyStr.split_lines func_source in
              let func_start_line := fd_lineno test_func in
              match run_checks func_source func_lines func_start_line with
              | [] => [no_obvious_pattern]
              | causes => causes
              end
          end
      end
  end.

End WithPythonLibraries.

Arguments mkRootCauseAnalyzer {ast_module} _ _.
Arguments source_code {ast_module} _.
Arguments tree {ast_module} _.
Arguments init {ast_module} _ _.
Arguments _find_function {ast_module function_def} _ _ _ _.
Arguments analyze {ast_module function_def} _ _ _ _ _ _ _.

(** Every pattern of the seven tables. *)
Definition all_patterns : list string :=
  TIME_PATTERNS ++ RANDOM_PATTERNS ++ CONCURRENCY_PATTERNS ++ ORDER_PATTERNS
  ++ EXTERNAL_PATTERNS ++ FLOAT_PATTERNS ++ GLOBAL_STATE_PATTERNS.

End Analyzer.

(* ------------------------------------------------------------------ *)
(** ** suggester.py *)

Module Suggester.

Import Analyzer.

(** [@dataclass class RepairSuggestion] *)
Record RepairSuggestion : Type := mkRepairSuggestion {
  title : string;
  description : string;
  code_example : string;
  priority : Z               (* 1-3, 1 = high priority *)
}.

(** The double-quote character, spliced into the example texts. *)
Definition dq : string := String (ascii_of_nat 34) EmptyString.

(** [RepairSuggester._suggest_time_fixes] *)
Definition _suggest_time_fixes : list RepairSuggestion :=
[
  mkRepairSuggestion
    "Mock datetime.now() with freezegun"
    "Use freezegun to freeze time during test execution"
    ("# Install: pip install freezegun
from freezegun import freeze_time

@freeze_time(" ++ dq ++ "2024-01-15 12:00:00" ++ dq ++ ")
def test_something():
    # Now datetime.now() always returns 2024-01-15 12:00:00
    result = my_function()
    assert result.date == datetime(2024, 1, 15)")
    1;
  mkRepairSuggestion
    "Inject time as parameter"
    "Pass time as a parameter instead of calling datetime.now() inside code"
    "# Instead of:
def process():
    now = datetime.now()
    return now.hour > 12

# Do this:
def process(current_time=None):
    if current_time is None:
        current_time = datetime.now()
    return current_time.hour > 12

# Test:
def test_process():
    test_time = datetime(2024, 1, 15, 14, 0)
    assert process(test_time) == True"
    1
].

(** [RepairSuggester._suggest_random_fixes] *)
Definition _suggest_random_fixes : list RepairSuggestion :=
[
  mkRepairSuggestion
    "Set random seed before test"
    "Fix the random seed to make tests deterministic"
    "import random

def test_something():
    random.seed(42)  # Always same sequence
    result = my_random_function()
    assert result == expected_value"
    1;
  mkRepairSuggestion
    "Use pytest fixtures for random data"
    "Generate random test data in fixtures with fixed seed"
    "import pytest
import random

@pytest.fixture
def random_data():
    random.seed(42)
    return [random.randint(1, 100) for _ in range(10)]

def test_something(random_data):
    result = process(random_data)
    assert result == expected"
    1;
  mkRepairSuggestion
    "Mock random module"
    "Mock the random module to return predetermined values"
    "from unittest.mock import patch

def test_something():
    with patch('random.randint', return_value=42):
        result = my_function()
        assert result == expected"
    2
].

(** [RepairSuggester._suggest_concurrency_fixes] *)
Definition _suggest_concurrency_fixes : list RepairSuggestion :=
[
  mkRepairSuggestion
    "Add proper synchronization"
    "Use locks, events, or other synchronization primitives"
    "import threading

lock = threading.Lock()

def test_concurrent():
    results = []

    def worker():
        with lock:
            results.append(do_work())

    threads = [threading.Thread(target=worker) for _ in range(5)]
    for t in threads:
        t.start()
    for t in threads:
        t.join()

    assert len(results) == 5"
    1;
  mkRepairSuggestion
    "Use pytest-asyncio for async tests"
    "Properly handle async tests with pytest-asyncio"
    "import pytest

@pytest.mark.asyncio
async def test_async_function():
    result = await my_async_function()
    assert result == expected"
    1;
  mkRepairSuggestion
    "Add timeouts and retries"
    "Add explicit timeouts for async operations"
    ("import asyncio

async def test_with_timeout():
    try:
        result = await asyncio.wait_for(
            my_async_function(),
            timeout=5.0
        )
        assert result == expected
    except asyncio.TimeoutError:
        pytest.fail(" ++ dq ++ "Operation timed out" ++ dq ++ ")")
    2
].

(** [RepairSuggester._suggest_order_fixes] *)
Definition _suggest_order_fixes : list RepairSuggestion :=
[
  mkRepairSuggestion
    "Sort collections before comparison"
    "Convert to sorted lists for deterministic ordering"
    "# Instead of:
assert result == {1, 2, 3}

# Do this:
assert sorted(result) == [1, 2, 3]

# Or for dicts:
assert sorted(result.items()) == sorted(expected.items())"
    1;
  mkRepairSuggestion
    "Use ordered collections"
    "Replace set/dict with list/OrderedDict when order matters"
    "from collections import OrderedDict

# Instead of:
data = {'a': 1, 'b': 2}

# Use:
data = OrderedDict([('a', 1), ('b', 2)])

# Or just use a list of tuples:
data = [('a', 1), ('b', 2)]"
    1
].

(** [RepairSuggester._suggest_external_fixes] *)
Definition _suggest_external_fixes : list RepairSuggestion :=
[
  mkRepairSuggestion
    "Mock external dependencies"
    "Use mocks instead of real external calls"
    "from unittest.mock import patch, Mock

def test_api_call():
    mock_response = Mock()
    mock_response.json.return_value = {'status': 'ok'}

    with patch('requests.get', return_value=mock_response):
        result = my_function_that_calls_api()
        assert result['status'] == 'ok'"
    1;
  mkRepairSuggestion
    "Use pytest fixtures for test files"
    "Create temporary files in fixtures"
    ("import pytest
from pathlib import Path

@pytest.fixture
def test_file(tmp_path):
    file = tmp_path / " ++ dq ++ "test.txt" ++ dq ++ "
    file.write_text(" ++ dq ++ "test content" ++ dq ++ ")
    return file

def test_read_file(test_file):
    content = read_file(test_file)
    assert content == " ++ dq ++ "test content" ++ dq ++ " ")
    1;
  mkRepairSuggestion
    "Use responses library for HTTP"
    "Mock HTTP requests with the responses library"
    "import responses
import requests

@responses.activate
def test_api():
    responses.add(
        responses.GET,
        'https://api.example.com/data',
        json={'status': 'ok'},
        status=200
    )

    result = fetch_data()
    assert result['status'] == 'ok'"
    2
].

(** [RepairSuggester._suggest_float_fixes] *)
Definition _suggest_float_fixes : list RepairSuggestion :=
[
  mkRepairSuggestion
    "Use pytest.approx for float comparison"
    "Compare floats with tolerance using pytest.approx"
    "import pytest

# Instead of:
assert result == 0.1 + 0.2  # May fail!

# Do this:
assert result == pytest.approx(0.3)

# Or with custom tolerance:
assert result == pytest.approx(0.3, abs=1e-6)"
    1;
  mkRepairSuggestion
    "Use math.isclose()"
    "Use math.isclose() for relative/absolute tolerance"
    "import math

# Instead of:
assert a == b

# Do this:
assert math.isclose(a, b, rel_tol=1e-9, abs_tol=1e-9)"
    1
].

(** [RepairSuggester._suggest_global_state_fixes] *)
Definition _suggest_global_state_fixes : list RepairSuggestion :=
[
  mkRepairSuggestion
    "Reset global state in fixtures"
    "Use pytest fixtures to reset state before/after tests"
    "import pytest

@pytest.fixture(autouse=True)
def reset_global_state():
    # Setup
    original_value = MyClass.global_var
    yield
    # Teardown
    MyClass.global_var = original_value

def test_something():
    MyClass.global_var = 'new_value'
    # Test will not affect other tests"
    1;
  mkRepairSuggestion
    "Mock environment variables"
    "Use monkeypatch to temporarily set environment variables"
    "def test_with_env_var(monkeypatch):
    monkeypatch.setenv('MY_VAR', 'test_value')
    result = my_function()
    assert result == expected
    # Environment is automatically restored"
    1;
  mkRepairSuggestion
    "Use dependency injection"
    "Pass dependencies as parameters instead of using globals"
    ("# Instead of:
CONFIG = {'debug': True}

def process():
    if CONFIG['debug']:
        print(" ++ dq ++ "Debug mode" ++ dq ++ ")

# Do this:
def process(config=None):
    config = config or {'debug': False}
    if config['debug']:
        print(" ++ dq ++ "Debug mode" ++ dq ++ ")

def test_process():
    result = process(config={'debug': True})
    assert result == expected")
    2
].

(** The [if]/[elif] chain of [suggest_repairs] on [cause.type]. *)
Definition fixes_for (ty : FlakinessType) : list RepairSuggestion :=
  if FlakinessType_eqb ty TIME_DEPENDENT then _suggest_time_fixes
  else if FlakinessType_eqb ty RANDOM_DEPENDENT then _suggest_random_fixes
  else if FlakinessType_eqb ty CONCURRENCY then _suggest_concurrency_fixes
  else if FlakinessType_eqb ty UNORDERED_COLLECTION then _suggest_order_fixes
  else if FlakinessType_eqb ty EXTERNAL_DEPENDENCY then _suggest_external_fixes
  else if FlakinessType_eqb ty FLOATING_POINT then _suggest_float_fixes
  else if FlakinessType_eqb ty GLOBAL_STATE then _suggest_global_state_fixes
  else [].

(** The first loop of [suggest_repairs]: [suggestions.extend(...)] per cause. *)
Definition collect (causes : list RootCause) : list RepairSuggestion :=
  fold_left (fun (suggestions : list RepairSuggestion) cause =>
               (suggestions ++ fixes_for (type cause))%list)
            causes [].

(** The second loop: the state is [(seen, unique_suggestions)]. *)
Definition dedup_step (st : list string * list RepairSuggestion)
                      (suggestion : RepairSuggestion)
  : list string * list RepairSuggestion :=
  let '(seen, unique_suggestions) := st in
  if negb (existsb (String.eqb (title suggestion)) seen)
  then (title suggestion :: seen, (unique_suggestions ++ [suggestion])%list)
  else (seen, unique_suggestions).

Definition remove_duplicates (suggestions : list RepairSuggestion)
  : list RepairSuggestion :=
  snd (fold_left dedup_step suggestions ([], [])).

(** [RepairSuggester.suggest_repairs] *)
Definition suggest_repairs (causes : list RootCause) : list RepairSuggestion :=
  let suggestions := collect causes in
  let unique_suggestions := remove_duplicates suggestions in
  PySort.sorted_by_int_key priority unique_suggestions.

End Suggester.

(* ------------------------------------------------------------------ *)
(** ** Specification-side vocabulary *)

Module Spec.

(** Number of occurrences of the status [s] in a sequence of outcomes. *)
Definition occurrences (s : string) (l : list string) : Z :=
  Z.of_nat (count_occ string_dec l s).

(** The four statuses a [RunOutcome] is documented to take. *)
Definition known_status (s : string) : Prop :=
  s = "passed" \/ s = "failed" \/ s = "error" \/ s = "skipped".

(** The outcomes the local detector was fed for the test [k], in run order. *)
Definition outcomes_of (k : string) (rs : list Detector.TestResult)
  : list string :=
  map Detector.r_outcome
      (filter (fun r => String.eqb (Detector.r_test_id r) k) rs).

(** The counters of an aggregate agree with its outcome sequence. *)
Definition counted (t : Detector.FlakyTest) : Prop :=
  Detector.pass_count t = occurrences "passed" (Detector.outcomes t)
  /\ Detector.fail_count t = occurrences "failed" (Detector.outcomes t)
  /\ Detector.error_count t = occurrences "error" (Detector.outcomes t)
  /\ Detector.skip_count t = occurrences "skipped" (Detector.outcomes t).

(** What the detector's dictionary holds after the results [rs]. *)
Definition tracks (d : PyDict.dict Detector.FlakyTest)
                  (rs : list Detector.TestResult) : Prop :=
  forall k,
    match PyDict.get k d with
    | None => outcomes_of k rs = []
    | Some t =>
        Detector.outcomes t = outcomes_of k rs
        /\ Detector.outcomes t <> []
        /\ Detector.test_id t = k
        /\ counted t
    end.

End Spec.

(* ------------------------------------------------------------------ *)
(** ** Specification of the failure pattern, and sample inputs *)

Module PatternSpec.

(** One letter of the pass/fail string. *)
Inductive letter : Type := P | F.

Definition letter_eqb (a b : letter) : bool :=
  match a, b with P, P | F, F => true | _, _ => false end.

(** The pass/fail sequence of an outcome sequence, in run order: a
    [passed] outcome is [P]; [failed], [error] and any other outcome is [F]. *)
Definition letter_of (o : string) : letter :=
  if String.eqb o "passed" then P else F.

Definition letters (os : list string) : list letter := map letter_of os.

Definition starts_with (a : letter) (s : list letter) : bool :=
  match s with x :: _ => letter_eqb x a | [] => false end.

Definition contains (a : letter) (s : list letter) : bool :=
  existsb (letter_eqb a) s.

Definition count (a : letter) (s : list letter) : Z :=
  Z.of_nat (length (filter (letter_eqb a) s)).

(** A decision list: the first rule whose condition holds gives the tag. *)
Fixpoint first_match {X} (rules : list ((X -> bool) * string))
         (otherwise : string) (x : X) : string :=
  match rules with
  | [] => otherwise
  | (cond, tag) :: rest =>
      if cond x then tag else first_match rest otherwise x
  end.

(** The rules of the failure pattern, in their order. *)
Definition rules : list ((list letter -> bool) * string) :=
  [ (fun s => starts_with F s && contains P s, "initially_failing");
    (fun s => starts_with P s && contains F s, "initially_passing");
    (fun s => count F s <? 3, "rarely_failing");
    (fun s => count P s <? 3, "rarely_passing") ].

Definition classify (s : list letter) : string :=
  first_match rules "intermittent" s.

End PatternSpec.

Module Samples.

(** The aggregate the local detector builds for one test from a sequence of
    outcomes, one outcome per run. *)
Definition sample_id : string := "tests/test_flaky.py::test_sample".

Definition runs_of (os : list string) : list (list Detector.TestResult) :=
  map (fun o => [Detector.mkTestResult sample_id o 0 ""]) os.

Definition local_aggregate (os : list string) : option Detector.FlakyTest :=
  PyDict.get sample_id (Detector.run_detection (runs_of os)).

End Samples.

(* ------------------------------------------------------------------ *)
(** ** Specification-side vocabulary for the CI aggregates *)

Module CISpec.

(** The statuses recorded in a CI aggregate, in run order. *)
Definition statuses (c : CIAnalyzer.CIFlakyTest) : list string :=
  map CIAnalyzer.r_status (CIAnalyzer.runs c).

(** The counters of a CI aggregate agree with its recorded runs; [error]
    runs are counted as failures. *)
Definition counted (c : CIAnalyzer.CIFlakyTest) : Prop :=
  CIAnalyzer.total_runs c = Z.of_nat (length (statuses c))
  /\ CIAnalyzer.pass_count c = Spec.occurrences "passed" (statuses c)
  /\ CIAnalyzer.fail_count c
     = Spec.occurrences "failed" (statuses c)
       + Spec.occurrences "error" (statuses c)
  /\ CIAnalyzer.skip_count c = Spec.occurrences "skipped" (statuses c).

Definition all_counted (d : PyDict.dict CIAnalyzer.CIFlakyTest) : Prop :=
  forall k c, PyDict.get k d = Some c -> counted c /\ statuses c <> [].

(** The filter of [get_flaky_tests]. *)
Definition selected (min_runs : Z) (t : CIAnalyzer.CIFlakyTest) : bool :=
  (min_runs <=? CIAnalyzer.total_runs t) && CIAnalyzer.is_flaky t.

(** Descending order of scores. *)
Definition score_ge (a b : CIAnalyzer.CIFlakyTest) : Prop :=
  (CIAnalyzer.flakiness_score b <= CIAnalyzer.flakiness_score a)%Q.

End CISpec.

Module CISamples.

(** A one-run CI history whose log reports one test twice. *)
Definition log_passed_error : string :=
  "tests/test_app.py::test_sample PASSED [ 50%]
tests/test_app.py::test_sample ERROR [100%]".

Definition log_mixed : string :=
  "tests/test_app.py::test_sample PASSED
tests/test_app.py::test_sample FAILED
tests/test_app.py::test_sample SKIPPED".

Definition one_run : list CIAnalyzer.WorkflowRun :=
  [CIAnalyzer.mkWorkflowRun 7001 12 "3f2a9c1" "main" "2024-01-15T12:00:00Z"].

Definition ci_aggregate (log : string) : option CIAnalyzer.CIFlakyTest :=
  PyDict.get "test_sample"
    (CIAnalyzer.github_analyze (fun _ => Some log) one_run).

(** Three CI aggregates for [get_flaky_tests]: flaky with four runs, flaky
    with two runs, stable with five runs. *)
Definition agg (name : string) (total pass fail skip : Z)
  : CIAnalyzer.CIFlakyTest :=
  CIAnalyzer.mkCIFlakyTest name total pass fail skip [] [].

Definition three_results : PyDict.dict CIAnalyzer.CIFlakyTest :=
  [ ("test_a", agg "test_a" 4 3 1 0);
    ("test_b", agg "test_b" 2 1 1 0);
    ("test_c", agg "test_c" 5 5 0 0);
    ("test_d", agg "test_d" 4 2 2 0) ].

End CISamples.

(* ------------------------------------------------------------------ *)
(** ** Specification-side vocabulary for the suggester *)

Module SuggestSpec.

(** The first occurrence of each title, in list order; [seen] holds the
    titles already met. *)
Fixpoint first_occurrences (seen : list string)
         (l : list Suggester.RepairSuggestion)
  : list Suggester.RepairSuggestion :=
  match l with
  | [] => []
  | s :: rest =>
      if existsb (String.eqb (Suggester.title s)) seen
      then first_occurrences seen rest
      else s :: first_occurrences (Suggester.title s :: seen) rest
  end.

Definition has_title (ti : string) (s : Suggester.RepairSuggestion) : bool :=
  String.eqb (Suggester.title s) ti.

Definition has_priority (k : Z) (s : Suggester.RepairSuggestion) : bool :=
  Suggester.priority s =? k.

Definition priority_le (a b : Suggester.RepairSuggestion) : Prop :=
  Suggester.priority a <= Suggester.priority b.

(** A root cause of the given type; only the type matters to the suggester. *)
Definition cause (ty : Analyzer.FlakinessType) : Analyzer.RootCause :=
  Analyzer.mkRootCause ty "" [] [] 0.

End SuggestSpec.

(* ------------------------------------------------------------------ *)
(** ** A small instance of the Python libraries, for sample analyses *)

Module AnalyzerSamples.

(** A parsed file is the list of its function definitions; a definition
    knows its name, its first line and its source text. *)
Record toy_def : Type := mkToyDef {
  toy_name : string;
  toy_lineno : Z;
  toy_source : string
}.

Definition toy_module : Type := list toy_def.

(** The literal text of a pattern: backslashes and word-boundary marks
    dropped. *)
Fixpoint literal_of (pattern : string) : string :=
  match pattern with
  | EmptyString => EmptyString
  | String a rest =>
      if Ascii.eqb a (ascii_of_nat 92) then
        match rest with
        | String b rest' =>
            if Ascii.eqb b "b"%char then literal_of rest' else literal_of rest
        | EmptyString => EmptyString
        end
      else String a (literal_of rest)
  end.

(** A stand-in for [re.search]: the line holds the literal text of the
    pattern. *)
Definition toy_search (pattern line : string) : bool :=
  CIAnalyzer.str_in (literal_of pattern) line.

Definition toy_segment (source : string) (f : toy_def) : option string :=
  Some (toy_source f).

Definition toy_analyze (self : Analyzer.RootCauseAnalyzer toy_module)
                       (name : string) : list Analyzer.RootCause :=
  Analyzer.analyze (fun m => m) toy_name toy_lineno toy_segment toy_search
                   self name.

Definition plain_test : toy_def :=
  mkToyDef "test_addition" 10
    "def test_addition():
    assert add(1, 2) == 3".

Definition clock_test : toy_def :=
  mkToyDef "test_clock" 20
    "def test_clock():
    start = time.time()
    assert elapsed(start) < 1".

(** A file that parsed, and a file that did not. *)
Definition parsed_file : Analyzer.RootCauseAnalyzer toy_module :=
  Analyzer.mkRootCauseAnalyzer "..." (Some [plain_test; clock_test]).

Definition unparsed_file : Analyzer.RootCauseAnalyzer toy_module :=
  Analyzer.mkRootCauseAnalyzer "def broken(:" None.

End AnalyzerSamples.

(* ------------------------------------------------------------------ *)
(** ** Further specification-side vocabulary for the local detector *)

Module DetectorSpec.

(** The distinct elements of a list, in order of first appearance. *)
Fixpoint first_seen (l : list string) : list string :=
  match l with
  | [] => []
  | x :: rest => x :: filter (fun y => negb (String.eqb y x)) (first_seen rest)
  end.

(** The error texts the detector was fed for the test [k], in run order:
    those of its [failed] and [error] results. *)
Definition messages_of (k : string) (rs : list Detector.TestResult)
  : list string :=
  map Detector.r_error_message
      (filter (fun r =>
                 String.eqb (Detector.r_test_id r) k
                 && (String.eqb (Detector.r_outcome r) "failed"
                     || String.eqb (Detector.r_outcome r) "error"))
              rs).

(** [sep.join(segs)] for the separator ["::"]. *)
Fixpoint join_colons (segs : list string) : string :=
  match segs with
  | [] => EmptyString
  | [s] => s
  | s :: rest => s ++ "::" ++ join_colons rest
  end.

Definition no_colon (s : string) : Prop :=
  PyStr.contains_char ":"%char s = false.

(** A report with two tests, the second failing with a long message. *)
Definition long_text : string :=
  PyStr.join_empty (repeat "AssertionError: value mismatch; " 10).

Definition sample_report : Detector.Report :=
  Detector.mkReport
    (Some [ Detector.mkReportTest "tests/test_app.py::test_ok" "passed"
              (Some (1 # 100)) None;
            Detector.mkReportTest "tests/test_app.py::TestApi::test_bad"
              "failed" None
              (Some (Detector.mkReportCall (Some long_text))) ]).

(** What each aggregate holds beside its outcomes, after the results
    [seen]. *)
Definition details (d : PyDict.dict Detector.FlakyTest)
                   (seen : list Detector.TestResult) : Prop :=
  forall k t, PyDict.get k d = Some t ->
    Detector.test_file t = hd "unknown" (PyStr.split_colons k)
    /\ Detector.test_function t = last (PyStr.split_colons k) "unknown"
    /\ Detector.error_messages t = messages_of k seen.

End DetectorSpec.

(* ------------------------------------------------------------------ *)
(** ** Specification-side vocabulary for log parsing and CI provenance *)

Module CIParseSpec.

(** No character of [s] is whitespace. *)
Fixpoint no_space (s : string) : bool :=
  match s with
  | EmptyString => true
  | String a rest => negb (PyStr.isspace a) && no_space rest
  end.

(** What [line.split()] returns: non-empty, whitespace-free pieces. *)
Definition token (s : string) : Prop :=
  s <> EmptyString /\ no_space s = true.



(** The provenance [github_step] builds for a workflow run. *)
Definition github_provenance (run : CIAnalyzer.WorkflowRun)
  : CIAnalyzer.Provenance :=
  CIAnalyzer.mkProvenance (CIAnalyzer.id run) (CIAnalyzer.run_number run)
    (CIAnalyzer.head_sha run) (CIAnalyzer.head_branch run)
    (CIAnalyzer.replace_Z (CIAnalyzer.created_at run)).

(** The run record [update_ci_test] appends. *)
Definition run_record (prov : CIAnalyzer.Provenance) (name status : string)
  : CIAnalyzer.CITestRun :=
  CIAnalyzer.mkCITestRun name status
    (CIAnalyzer.py_str_int (CIAnalyzer.p_run_id prov))
    (CIAnalyzer.p_run_number prov) (CIAnalyzer.p_commit_sha prov)
    (CIAnalyzer.p_branch prov) (CIAnalyzer.p_timestamp prov) 0%Q.

(** An aggregate filed under [k] whose runs all come from provenances
    satisfying [P]. *)
Definition well_recorded (P : CIAnalyzer.Provenance -> Prop)
           (k : string) (c : CIAnalyzer.CIFlakyTest) : Prop :=
  CIAnalyzer.test_name c = k
  /\ Forall (fun r => exists prov,
                 P prov /\ r = run_record prov k (CIAnalyzer.r_status r))
            (CIAnalyzer.runs c)
  /\ NoDup (CIAnalyzer.branches c)
  /\ (forall b, In b (CIAnalyzer.branches c)
                <-> In b (map CIAnalyzer.r_branch (CIAnalyzer.runs c)))
  /\ CISpec.counted c
  /\ CIAnalyzer.runs c <> [].

(** Every item of a dictionary satisfies [Q]. *)
Definition all_items {V} (Q : string -> V -> Prop) (d : PyDict.dict V) : Prop :=
  Forall (fun kv => Q (fst kv) (snd kv)) d.

(** The runs of a GitHub history that the analysis reads: among the first
    twenty, those with logs. *)
Definition has_logs (fetch_job_logs : Z -> option string)
           (run : CIAnalyzer.WorkflowRun) : bool :=
  negb (CIAnalyzer.no_logs (fetch_job_logs (CIAnalyzer.id run))).

End CIParseSpec.

Module CIHistory.

(** A dictionary either CI analyzer returned. *)
Definition analysis_result (d : PyDict.dict CIAnalyzer.CIFlakyTest) : Prop :=
  (exists fetch_job_logs workflow_runs,
      d = CIAnalyzer.github_analyze fetch_job_logs workflow_runs)
  \/ (exists fetch_pipeline_jobs fetch_job_log pipelines,
         d = CIAnalyzer.gitlab_analyze fetch_pipeline_jobs fetch_job_log
                                       pipelines).

(** Twenty-one workflow runs, ids 0 to 20: run 0 has no logs, runs 1 to 19
    report a pass of one test, run 20 reports its failure. *)
Definition run_with_id (i : nat) : CIAnalyzer.WorkflowRun :=
  CIAnalyzer.mkWorkflowRun (Z.of_nat i) (Z.of_nat i) "3f2a9c1" "main"
                           "2024-01-15T12:00:00Z".

Definition long_history : list CIAnalyzer.WorkflowRun :=
  map run_with_id (seq 0 21).

Definition long_history_logs (run_id : Z) : option string :=
  if run_id =? 0 then None
  else if run_id =? 20 then Some "tests/test_app.py::test_sample FAILED"
  else Some "tests/test_app.py::test_sample PASSED".

End CIHistory.

(* ------------------------------------------------------------------ *)
(** ** Specification-side vocabulary for the analyzer and the catalog *)

Module AnalyzerSpec.

(** The categories [analyze] checks, in the order it checks them, each with
    its pattern table, description and confidence. *)
Definition categories
  : list (list string * Analyzer.FlakinessType * string * Q) :=
  [ (Analyzer.TIME_PATTERNS, Analyzer.TIME_DEPENDENT,
     "Test uses current time/date which changes between runs", 9 # 10);
    (Analyzer.RANDOM_PATTERNS, Analyzer.RANDOM_DEPENDENT,
     "Test uses random values without setting seed", 95 # 100);
    (Analyzer.CONCURRENCY_PATTERNS, Analyzer.CONCURRENCY,
     "Test involves threading/async code with potential race conditions",
     8 # 10);
    (Analyzer.ORDER_PATTERNS, Analyzer.UNORDERED_COLLECTION,
     "Test relies on ordering of sets/dicts which is not guaranteed", 7 # 10);
    (Analyzer.EXTERNAL_PATTERNS, Analyzer.EXTERNAL_DEPENDENCY,
     "Test depends on external resources (network, filesystem, etc.)",
     6 # 10);
    (Analyzer.FLOAT_PATTERNS, Analyzer.FLOATING_POINT,
     "Test uses exact floating point comparison which may fail due to rounding",
     85 # 100);
    (Analyzer.GLOBAL_STATE_PATTERNS, Analyzer.GLOBAL_STATE,
     "Test modifies global state which may affect other tests", 75 # 100) ].

Definition category_order : list Analyzer.FlakinessType :=
  map (fun cat => snd (fst (fst cat))) categories.

(** The confidence [analyze] attaches to a category. *)
Definition confidence_of (ty : Analyzer.FlakinessType) : Q :=
  match ty with
  | Analyzer.TIME_DEPENDENT => 9 # 10
  | Analyzer.RANDOM_DEPENDENT => 95 # 100
  | Analyzer.CONCURRENCY => 8 # 10
  | Analyzer.UNORDERED_COLLECTION => 7 # 10
  | Analyzer.EXTERNAL_DEPENDENCY => 6 # 10
  | Analyzer.FLOATING_POINT => 85 # 100
  | Analyzer.GLOBAL_STATE => 75 # 100
  | _ => 0
  end.

(** The types [suggest_repairs] has nothing to say about. *)
Definition no_fix (ty : Analyzer.FlakinessType) : Prop :=
  ty = Analyzer.UNKNOWN \/ ty = Analyzer.ORDER_DEPENDENT.

(** The whole catalog of the suggester. *)
Definition catalog : list Suggester.RepairSuggestion :=
  Suggester._suggest_time_fixes ++ Suggester._suggest_random_fixes
  ++ Suggester._suggest_concurrency_fixes ++ Suggester._suggest_order_fixes
  ++ Suggester._suggest_external_fixes ++ Suggester._suggest_float_fixes
  ++ Suggester._suggest_global_state_fixes.

Definition clock_and_thread_test : AnalyzerSamples.toy_def :=
  AnalyzerSamples.mkToyDef "test_race" 30
    "def test_race():
    start = time.time()
    worker = threading.Thread(target=run)
    assert time.time() - start < 1".

Definition race_file : Analyzer.RootCauseAnalyzer AnalyzerSamples.toy_module :=
  Analyzer.mkRootCauseAnalyzer "..." (Some [clock_and_thread_test]).

End AnalyzerSpec.

(* ================================================================== *)
(** * Verified properties *)

(* ------------------------------------------------------------------ *)
(** ** Dictionaries *)

Section DictFacts.
Context {V : Type}.
Implicit Types (d : PyDict.dict V) (k : string) (v : V).

Lemma get_set_same k v d : PyDict.get k (PyDict.set k v d) = Some v.
Proof.
  induction d as [|[k' v'] d IH]; simpl.
  - now rewrite String.eqb_refl.
  - destruct (String.eqb k' k) eqn:E; simpl; rewrite E; auto.
Qed.

Lemma get_set_other k k' v d :
  k <> k' -> PyDict.get k' (PyDict.set k v d) = PyDict.get k' d.
Proof.
  intros Hne. induction d as [|[k0 v0] d IH]; simpl.
  - destruct (String.eqb_spec k k'); congruence.
  - destruct (String.eqb_spec k0 k) as [->|Hk]; simpl.
    + destruct (String.eqb_spec k k'); congruence.
    + destruct (String.eqb_spec k0 k'); auto.
Qed.

Lemma get_In k v d : PyDict.get k d = Some v -> In v (PyDict.values d).
Proof.
  induction d as [|[k0 v0] d IH]; simpl; [discriminate|].
  destruct (String.eqb k0 k); intros H.
  - left. congruence.
  - right. auto.
Qed.

End DictFacts.

(* ------------------------------------------------------------------ *)
(** ** Counting outcomes *)

Lemma occurrences_app s l1 l2 :
  Spec.occurrences s (l1 ++ l2) = Spec.occurrences s l1 + Spec.occurrences s l2.
Proof.
  unfold Spec.occurrences. rewrite count_occ_app. lia.
Qed.

Lemma occurrences_single s o :
  Spec.occurrences s [o] = if String.eqb o s then 1 else 0.
Proof.
  unfold Spec.occurrences. simpl.
  destruct (string_dec o s) as [->|Hne].
  - now rewrite String.eqb_refl.
  - destruct (String.eqb_spec o s); [congruence | reflexivity].
Qed.

Lemma occurrences_nonneg s l : 0 <= Spec.occurrences s l.
Proof. unfold Spec.occurrences. lia. Qed.

Lemma occurrences_pos_In s l : 0 < Spec.occurrences s l <-> In s l.
Proof.
  unfold Spec.occurrences.
  rewrite (count_occ_In string_dec l s). lia.
Qed.

(** The four documented statuses are pairwise distinct, so their counts
    never exceed the length; they reach it exactly on known statuses. *)
Lemma four_counts_le l :
  Spec.occurrences "passed" l + Spec.occurrences "failed" l
  + Spec.occurrences "error" l + Spec.occurrences "skipped" l
  <= Z.of_nat (length l).
Proof.
  induction l as [|o l IH]; [cbn; lia|].
  change (o :: l) with ([o] ++ l)%list.
  rewrite !occurrences_app, !occurrences_single, length_app, Nat2Z.inj_add.
  change (Z.of_nat (length [o])) with 1.
  destruct (String.eqb_spec o "passed"), (String.eqb_spec o "failed"),
    (String.eqb_spec o "error"), (String.eqb_spec o "skipped");
    subst; try discriminate; lia.
Qed.

Lemma four_counts_eq l :
  Forall Spec.known_status l <->
  Spec.occurrences "passed" l + Spec.occurrences "failed" l
  + Spec.occurrences "error" l + Spec.occurrences "skipped" l
  = Z.of_nat (length l).
Proof.
  induction l as [|o l IH]; [cbn; split; auto|].
  pose proof (four_counts_le l) as Hle.
  rewrite Forall_cons_iff, IH.
  change (o :: l) with ([o] ++ l)%list.
  rewrite !occurrences_app, !occurrences_single, length_app, Nat2Z.inj_add.
  change (Z.of_nat (length [o])) with 1.
  unfold Spec.known_status.
  destruct (String.eqb_spec o "passed"), (String.eqb_spec o "failed"),
    (String.eqb_spec o "error"), (String.eqb_spec o "skipped");
    subst; try discriminate; intuition (try lia; try congruence).
Qed.

(* ------------------------------------------------------------------ *)
(** ** The local aggregator: what [_process_results] maintains *)

Lemma update_test_data_fields ft r :
  let o := Detector.r_outcome r in
  let ft' := Detector.update_test_data ft r in
  Detector.outcomes ft' = (Detector.outcomes ft ++ [o])%list
  /\ Detector.test_id ft' = Detector.test_id ft
  /\ Detector.pass_count ft'
     = Detector.pass_count ft + (if String.eqb o "passed" then 1 else 0)
  /\ Detector.fail_count ft'
     = Detector.fail_count ft + (if String.eqb o "failed" then 1 else 0)
  /\ Detector.error_count ft'
     = Detector.error_count ft + (if String.eqb o "error" then 1 else 0)
  /\ Detector.skip_count ft'
     = Detector.skip_count ft + (if String.eqb o "skipped" then 1 else 0).
Proof.
  unfold Detector.update_test_data. cbv zeta.
  destruct (String.eqb_spec (Detector.r_outcome r) "passed") as [E|];
    [rewrite E; cbn; repeat split; lia|].
  destruct (String.eqb_spec (Detector.r_outcome r) "failed") as [E|];
    [rewrite E; cbn; repeat split; lia|].
  destruct (String.eqb_spec (Detector.r_outcome r) "error") as [E|];
    [rewrite E; cbn; repeat split; lia|].
  destruct (String.eqb_spec (Detector.r_outcome r) "skipped") as [E|];
    [rewrite E|]; cbn; repeat split; lia.
Qed.

Lemma update_test_data_counted ft r :
  Spec.counted ft -> Spec.counted (Detector.update_test_data ft r).
Proof.
  intros (Hp & Hf & He & Hs).
  destruct (update_test_data_fields ft r) as (Ho & _ & Hp' & Hf' & He' & Hs').
  unfold Spec.counted.
  rewrite Ho, Hp', Hf', He', Hs', !occurrences_app, !occurrences_single.
  repeat split; lia.
Qed.

Lemma outcomes_of_snoc k rs r :
  Spec.outcomes_of k (rs ++ [r]) =
  (Spec.outcomes_of k rs ++
   (if String.eqb (Detector.r_test_id r) k then [Detector.r_outcome r]
    else []))%list.
Proof.
  unfold Spec.outcomes_of. rewrite filter_app, map_app. simpl.
  now destruct (String.eqb (Detector.r_test_id r) k).
Qed.

Lemma new_FlakyTest_counted id f g :
  Spec.counted (Detector.new_FlakyTest id f g).
Proof. repeat split. Qed.

(** One pass of the loop body keeps the dictionary in step with the
    results seen so far. *)
Lemma record_result_tracks d rs r :
  Spec.tracks d rs -> Spec.tracks (Detector.record_result d r) (rs ++ [r]).
Proof.
  intros Hd k. unfold Detector.record_result. cbv zeta.
  set (id := Detector.r_test_id r).
  set (fresh := Detector.new_FlakyTest id _ _).
  set (d' := if negb (PyDict.contains id d) then PyDict.set id fresh d else d).
  assert (Hbase : exists base,
             PyDict.get id d' = Some base
             /\ Detector.outcomes base = Spec.outcomes_of id rs
             /\ Detector.test_id base = id /\ Spec.counted base
             /\ forall k', id <> k' -> PyDict.get k' d' = PyDict.get k' d).
  { subst d'. unfold PyDict.contains. specialize (Hd id).
    destruct (PyDict.get id d) as [t|] eqn:Eg; simpl.
    - exists t. rewrite Eg. intuition.
    - exists fresh. rewrite get_set_same. repeat split; auto.
      intros. now apply get_set_other. }
  destruct Hbase as (base & Hget & Hout & Hid & Hcnt & Hother).
  rewrite Hget, outcomes_of_snoc. fold id.
  destruct (String.eqb_spec id k) as [->|Hne].
  - rewrite get_set_same.
    destruct (update_test_data_fields base r) as (Ho & Hi & _).
    rewrite Ho, Hout, Hi. refine (conj _ (conj _ (conj _ _))); auto.
    + intros H. now apply app_eq_nil in H.
    + now apply update_test_data_counted.
  - rewrite get_set_other, Hother, app_nil_r by assumption. apply Hd.
Qed.

Lemma tracks_empty : Spec.tracks PyDict.empty [].
Proof. intros k. reflexivity. Qed.

Lemma process_results_tracks rs : forall d seen,
  Spec.tracks d seen ->
  Spec.tracks (Detector._process_results d rs) (seen ++ rs).
Proof.
  unfold Detector._process_results.
  induction rs as [|r rs IH]; intros d seen Hd; simpl.
  - now rewrite app_nil_r.
  - change (r :: rs) with ([r] ++ rs)%list. rewrite app_assoc.
    apply IH. now apply record_result_tracks.
Qed.

Lemma run_detection_tracks reports :
  Spec.tracks (Detector.run_detection reports) (concat reports).
Proof.
  unfold Detector.run_detection.
  assert (H : forall d seen, Spec.tracks d seen ->
            Spec.tracks (fold_left Detector._process_results reports d)
                        (seen ++ concat reports)).
  { induction reports as [|rs reports IH]; intros d seen Hd; simpl.
    - now rewrite app_nil_r.
    - rewrite app_assoc. apply IH. now apply process_results_tracks. }
  apply (H PyDict.empty []), tracks_empty.
Qed.

(** Every aggregate the detector holds has a non-empty outcome sequence and
    counters that count it. *)
Lemma run_detection_aggregate reports k t :
  PyDict.get k (Detector.run_detection reports) = Some t ->
  Detector.outcomes t = Spec.outcomes_of k (concat reports)
  /\ Detector.outcomes t <> [] /\ Detector.test_id t = k /\ Spec.counted t.
Proof.
  intros H. pose proof (run_detection_tracks reports k) as Ht.
  now rewrite H in Ht.
Qed.

(* ------------------------------------------------------------------ *)
(** ** The score formula [min(p / T, f / T) * 2] *)

Section ScoreFormula.
Variables p f T : Z.
Hypothesis T_pos : 0 < T.

Let score : Q :=
  (Qmin (inject_Z p / inject_Z T) (inject_Z f / inject_Z T) * 2)%Q.

Lemma score_formula_cases :
  (p <= f /\ (score == inject_Z (2 * p) / inject_Z T)%Q)
  \/ (f <= p /\ (score == inject_Z (2 * f) / inject_Z T)%Q).
Proof.
  subst score. destruct T as [|n|n]; try lia.
  rewrite <- !Qmake_Qdiv.
  destruct (Q.min_spec (p # n) (f # n)) as [[H E]|[H E]]; rewrite E;
    [left | right]; unfold Qlt, Qle, Qeq, Qmult in *;
    cbn [Qnum Qden] in *; rewrite ?Pos2Z.inj_mul; nia.
Qed.

Lemma score_formula_range :
  0 <= p -> 0 <= f -> p + f <= T -> (0 <= score /\ score <= 1)%Q.
Proof.
  intros Hp Hf Hsum.
  destruct score_formula_cases as [[H E]|[H E]]; rewrite E;
    destruct T as [|n|n]; try lia; rewrite <- Qmake_Qdiv;
    unfold Qle; cbn [Qnum Qden]; lia.
Qed.

Lemma score_formula_one :
  0 <= p -> 0 <= f -> p + f <= T ->
  (score == 1)%Q <-> (2 * p = T /\ 2 * f = T).
Proof.
  intros Hp Hf Hsum.
  destruct score_formula_cases as [[H E]|[H E]]; rewrite E;
    destruct T as [|n|n]; try lia; rewrite <- Qmake_Qdiv;
    unfold Qeq; cbn [Qnum Qden]; lia.
Qed.

Lemma score_formula_zero :
  0 <= p -> 0 <= f -> p = 0 \/ f = 0 -> (score == 0)%Q.
Proof.
  intros Hp Hf H0.
  destruct score_formula_cases as [[H E]|[H E]]; rewrite E;
    destruct T as [|n|n]; try lia; rewrite <- Qmake_Qdiv;
    unfold Qeq; cbn [Qnum Qden]; lia.
Qed.

End ScoreFormula.

(* ------------------------------------------------------------------ *)
(** ** Claims about the local aggregate *)

Lemma counted_bounds t :
  Spec.counted t ->
  0 <= Detector.pass_count t /\ 0 <= Detector.fail_count t
  /\ 0 <= Detector.error_count t /\ 0 <= Detector.skip_count t
  /\ Detector.pass_count t + Detector.fail_count t
     + Detector.error_count t + Detector.skip_count t <= Detector.total t.
Proof.
  intros (Hp & Hf & He & Hs). rewrite Hp, Hf, He, Hs. unfold Detector.total.
  pose proof (four_counts_le (Detector.outcomes t)).
  repeat split; try apply occurrences_nonneg; lia.
Qed.

Lemma total_pos t : Detector.outcomes t <> [] -> 0 < Detector.total t.
Proof.
  unfold Detector.total. destruct (Detector.outcomes t); [congruence|].
  simpl length. lia.
Qed.

Lemma flakiness_score_unfold t :
  0 < Detector.total t ->
  Detector.flakiness_score t =
  (Qmin (inject_Z (Detector.pass_count t) / inject_Z (Detector.total t))
        (inject_Z (Detector.fail_count t) / inject_Z (Detector.total t))
   * 2)%Q.
Proof.
  intros H. unfold Detector.flakiness_score.
  destruct (Z.eqb_spec (Detector.total t) 0); [lia | reflexivity].
Qed.

(** C4 as stated fails: an outcome outside the four documented statuses
    (pytest reports [xfailed], for one) is appended to [outcomes] while no
    counter moves. *)
Lemma C4_counterexample :
  exists t,
    PyDict.get "tests/test_app.py::test_known_bug"
      (Detector._process_results PyDict.empty
         [Detector.mkTestResult "tests/test_app.py::test_known_bug"
                                "xfailed" 0 ""]) = Some t
    /\ Detector.pass_count t + Detector.fail_count t
       + Detector.error_count t + Detector.skip_count t
       <> Z.of_nat (length (Detector.outcomes t)).
Proof. eexists. split; [reflexivity | cbn; lia]. Qed.

(** C4 (amended): after any sequence of calls of [_process_results], in
    every aggregate the four counters sum to the number of recorded outcomes
    whose status is one of passed / failed / error / skipped; the sum never
    exceeds [len(outcomes)] and equals it exactly when every recorded status
    is one of the four. *)
Theorem C4_counts_sum reports k t :
  PyDict.get k (Detector.run_detection reports) = Some t ->
  Detector.pass_count t + Detector.fail_count t
  + Detector.error_count t + Detector.skip_count t
  = Z.of_nat (length (filter
       (fun o => existsb (String.eqb o) ["passed"; "failed"; "error"; "skipped"])
       (Detector.outcomes t)))
  /\ Detector.pass_count t + Detector.fail_count t
     + Detector.error_count t + Detector.skip_count t
     <= Z.of_nat (length (Detector.outcomes t))
  /\ (Detector.pass_count t + Detector.fail_count t
      + Detector.error_count t + Detector.skip_count t
      = Z.of_nat (length (Detector.outcomes t))
      <-> Forall Spec.known_status (Detector.outcomes t)).
Proof.
  intros H. apply run_detection_aggregate in H.
  destruct H as (_ & _ & _ & (Hp & Hf & He & Hs)).
  rewrite Hp, Hf, He, Hs. clear. generalize (Detector.outcomes t) as os.
  intros os. split; [|split].
  - induction os as [|o l IH]; [reflexivity|].
    change (o :: l) with ([o] ++ l)%list.
    rewrite !occurrences_app, !occurrences_single, filter_app, length_app,
      Nat2Z.inj_add, <- IH.
    cbn [filter existsb].
    destruct (String.eqb_spec o "passed"), (String.eqb_spec o "failed"),
      (String.eqb_spec o "error"), (String.eqb_spec o "skipped");
      subst; try discriminate;
      cbv beta iota delta [orb length]; lia.
  - apply four_counts_le.
  - symmetry. apply four_counts_eq.
Qed.

Lemma C4_counts_sum_witness :
  exists t,
    Samples.local_aggregate ["passed"; "xfailed"; "failed"; "skipped"] = Some t
    /\ Detector.pass_count t + Detector.fail_count t
       + Detector.error_count t + Detector.skip_count t <= 4.
Proof.
  eexists. split; [reflexivity|].
  refine (proj1 (proj2 (C4_counts_sum
            (Samples.runs_of ["passed"; "xfailed"; "failed"; "skipped"])
            Samples.sample_id _ _))).
  reflexivity.
Defined.

(** C2 as stated fails: with one pass, one fail and one skip the two counts
    are equal, yet the score is 2/3, not 1: skipped and error outcomes count
    in the denominator only. *)
Lemma C2_counterexample :
  exists t,
    Samples.local_aggregate ["passed"; "failed"; "skipped"] = Some t
    /\ Detector.pass_count t = Detector.fail_count t
    /\ ~ (Detector.flakiness_score t == 1)%Q
    /\ (Detector.flakiness_score t == 2 # 3)%Q.
Proof.
  eexists. split; [reflexivity|]. split; [reflexivity|].
  split; [intros H; discriminate H | reflexivity].
Qed.

(** C2 (amended): for every aggregate the detector holds, the score lies in
    [0, 1]; it is 1 exactly when [pass_count == fail_count] and these two
    account for every recorded outcome ([pass_count + fail_count ==
    len(outcomes)]); it is 0 when [pass_count] or [fail_count] is zero. *)
Theorem C2_score_range reports k t :
  PyDict.get k (Detector.run_detection reports) = Some t ->
  (0 <= Detector.flakiness_score t /\ Detector.flakiness_score t <= 1)%Q
  /\ ((Detector.flakiness_score t == 1)%Q
      <-> Detector.pass_count t = Detector.fail_count t
          /\ Detector.pass_count t + Detector.fail_count t
             = Z.of_nat (length (Detector.outcomes t)))
  /\ (Detector.pass_count t = 0 \/ Detector.fail_count t = 0 ->
      (Detector.flakiness_score t == 0)%Q).
Proof.
  intros H. apply run_detection_aggregate in H.
  destruct H as (_ & Hne & _ & Hc).
  pose proof (total_pos t Hne) as HT.
  pose proof (counted_bounds t Hc) as (Hp & Hf & He & Hs & Hsum).
  rewrite (flakiness_score_unfold t HT). fold (Detector.total t).
  split; [|split].
  - apply score_formula_range; lia.
  - rewrite score_formula_one by lia. lia.
  - intros H0. apply score_formula_zero; auto.
Qed.

Lemma C2_score_range_witness :
  exists t,
    Samples.local_aggregate ["passed"; "failed"; "error"; "passed"] = Some t
    /\ (0 <= Detector.flakiness_score t /\ Detector.flakiness_score t <= 1)%Q.
Proof.
  eexists. split; [reflexivity|].
  refine (proj1 (C2_score_range
            (Samples.runs_of ["passed"; "failed"; "error"; "passed"])
            Samples.sample_id _ _)).
  reflexivity.
Defined.

(** C5: for every aggregate the detector holds (it has at least one recorded
    outcome), the score is [2 * min(pass_count / total, fail_count / total)],
    where [total] counts every recorded outcome of the test, skipped and
    error ones included, and the two counts are the numbers of [passed] and
    [failed] outcomes; [passed, failed, passed, failed] scores 1, ten
    [passed] score 0, nine [passed] and one [failed] score 0.2. *)
Theorem C5_score_formula :
  (forall reports k t,
      PyDict.get k (Detector.run_detection reports) = Some t ->
      let os := Spec.outcomes_of k (concat reports) in
      let total := Z.of_nat (length os) in
      0 < total
      /\ Detector.pass_count t = Spec.occurrences "passed" os
      /\ Detector.fail_count t = Spec.occurrences "failed" os
      /\ (Detector.flakiness_score t ==
          2 * Qmin (inject_Z (Detector.pass_count t) / inject_Z total)
                   (inject_Z (Detector.fail_count t) / inject_Z total))%Q)
  /\ (exists t, Samples.local_aggregate ["passed"; "failed"; "passed"; "failed"]
                = Some t /\ (Detector.flakiness_score t == 1)%Q)
  /\ (exists t, Samples.local_aggregate (repeat "passed" 10) = Some t
                /\ (Detector.flakiness_score t == 0)%Q)
  /\ (exists t, Samples.local_aggregate (repeat "passed" 9 ++ ["failed"])%list
                = Some t /\ (Detector.flakiness_score t == 2 # 10)%Q).
Proof.
  split; [|repeat split; eexists; (split; [reflexivity | reflexivity])].
  intros reports k t H os total. subst os total.
  apply run_detection_aggregate in H.
  destruct H as (Ho & Hne & _ & (Hp & Hf & _)).
  pose proof (total_pos t Hne) as HT.
  rewrite (flakiness_score_unfold t HT). unfold Detector.total in *.
  rewrite <- Ho. repeat split; auto. apply Qmult_comm.
Qed.

Lemma C5_score_formula_witness :
  exists t,
    Samples.local_aggregate ["passed"; "skipped"; "failed"; "error"] = Some t
    /\ (Detector.flakiness_score t ==
        2 * Qmin (inject_Z (Detector.pass_count t) / inject_Z 4)
                 (inject_Z (Detector.fail_count t) / inject_Z 4))%Q.
Proof.
  eexists. split; [reflexivity|].
  refine (proj2 (proj2 (proj2 (proj1 C5_score_formula
            (Samples.runs_of ["passed"; "skipped"; "failed"; "error"])
            Samples.sample_id _ _)))).
  reflexivity.
Defined.

(** On the three sample sequences the binary64 evaluation gives the floats
    [1.0], [0.0] and [0.2] (the double nearest to 1/5, which is what the
    literal [0.2] denotes), the values the rational model gives. *)
Lemma flakiness_score_binary64_samples :
  option_map Detector.flakiness_score_binary64
    (Samples.local_aggregate ["passed"; "failed"; "passed"; "failed"])
  = Some PrimFloat.one
  /\ option_map Detector.flakiness_score_binary64
       (Samples.local_aggregate (repeat "passed" 10))
     = Some PrimFloat.zero
  /\ option_map Detector.flakiness_score_binary64
       (Samples.local_aggregate (repeat "passed" 9 ++ ["failed"])%list)
     = Some (PrimFloat.div PrimFloat.one (Detector.float_of_int 5)).
Proof. repeat split; vm_compute; reflexivity. Qed.

Lemma in_set_py_set x l :
  Detector.in_set x (Detector.py_set l) = true <-> In x l.
Proof.
  unfold Detector.in_set, Detector.py_set. rewrite existsb_exists. split.
  - intros (y & Hy & E). apply String.eqb_eq in E. subst y.
    now apply nodup_In in Hy.
  - intros H. exists x. split; [now apply nodup_In | apply String.eqb_refl].
Qed.

(** [is_flaky] read on the outcome sequence. *)
Lemma is_flaky_iff t :
  Detector.is_flaky t = true <->
  In "passed" (Detector.outcomes t)
  /\ (In "failed" (Detector.outcomes t) \/ In "error" (Detector.outcomes t)).
Proof.
  unfold Detector.is_flaky. cbv zeta.
  now rewrite andb_true_iff, orb_true_iff, !in_set_py_set.
Qed.

(** C6: for every aggregate the detector holds, [is_flaky] is true iff the
    outcomes of the test contain a [passed] and a [failed] or [error], which
    is to say iff [pass_count > 0] and ([fail_count > 0] or
    [error_count > 0]); it is false when all outcomes are [passed] and when
    all are [failed]. *)
Theorem C6_is_flaky reports k t :
  PyDict.get k (Detector.run_detection reports) = Some t ->
  let os := Spec.outcomes_of k (concat reports) in
  (Detector.is_flaky t = true <->
   In "passed" os /\ (In "failed" os \/ In "error" os))
  /\ (Detector.is_flaky t = true <->
      0 < Detector.pass_count t
      /\ (0 < Detector.fail_count t \/ 0 < Detector.error_count t))
  /\ (Forall (eq "passed") os -> Detector.is_flaky t = false)
  /\ (Forall (eq "failed") os -> Detector.is_flaky t = false).
Proof.
  intros H os. subst os. apply run_detection_aggregate in H.
  destruct H as (Ho & _ & _ & (Hp & Hf & He & _)).
  rewrite <- Ho, Hp, Hf, He, !occurrences_pos_In.
  pose proof (is_flaky_iff t) as Hiff.
  split; [exact Hiff|]. split; [exact Hiff|].
  split; intros Hall; apply not_true_is_false; rewrite Hiff;
    rewrite Forall_forall in Hall; intros (Hpass & [Hfail | Herr]).
  - apply Hall in Hfail. discriminate.
  - apply Hall in Herr. discriminate.
  - apply Hall in Hpass. discriminate.
  - apply Hall in Hpass. discriminate.
Qed.

Lemma C6_is_flaky_witness :
  exists t,
    Samples.local_aggregate ["passed"; "skipped"; "error"] = Some t
    /\ (Detector.is_flaky t = true <->
        0 < Detector.pass_count t
        /\ (0 < Detector.fail_count t \/ 0 < Detector.error_count t)).
Proof.
  eexists. split; [reflexivity|].
  refine (proj1 (proj2 (C6_is_flaky
            (Samples.runs_of ["passed"; "skipped"; "error"])
            Samples.sample_id _ _))).
  reflexivity.
Defined.

(* ------------------------------------------------------------------ *)
(** ** The failure pattern *)

Section PatternRefinement.
Import PatternSpec.

Lemma join_pf_cons o os :
  PyStr.join_empty (map Detector.pf_char (o :: os)) =
  String (if String.eqb o "passed" then "P"%char else "F"%char)
         (PyStr.join_empty (map Detector.pf_char os)).
Proof.
  unfold Detector.pf_char. simpl.
  now destruct (String.eqb o "passed").
Qed.

Lemma startswith_letters a os :
  PyStr.startswith (PyStr.join_empty (map Detector.pf_char os))
                   (String (match a with P => "P" | F => "F" end)%char
                           EmptyString)
  = starts_with a (letters os).
Proof.
  destruct os as [|o os]; [now destruct a|].
  rewrite join_pf_cons. unfold PyStr.startswith, letters, letter_of.
  cbn [map starts_with String.prefix].
  assert (Hnil : forall s, String.prefix EmptyString s = true)
    by (now intros [|]).
  destruct (String.eqb o "passed"), a;
    match goal with |- context [ascii_dec ?x ?y] =>
      destruct (ascii_dec x y) as [E|E] end;
    rewrite ?Hnil; try reflexivity; try discriminate E;
    exfalso; now apply E.
Qed.

Lemma contains_letters a os :
  PyStr.contains_char (match a with P => "P" | F => "F" end)%char
                      (PyStr.join_empty (map Detector.pf_char os))
  = contains a (letters os).
Proof.
  induction os as [|o os IH]; [reflexivity|].
  rewrite join_pf_cons. unfold contains, letters, letter_of in *.
  simpl. rewrite <- IH.
  destruct (String.eqb o "passed"), a; reflexivity.
Qed.

Lemma count_letters a os :
  PyStr.count_char (match a with P => "P" | F => "F" end)%char
                   (PyStr.join_empty (map Detector.pf_char os))
  = count a (letters os).
Proof.
  induction os as [|o os IH]; [reflexivity|].
  rewrite join_pf_cons. unfold count, letters, letter_of in *.
  cbn [PyStr.count_char map filter]. rewrite IH.
  destruct (String.eqb o "passed"), a;
    repeat match goal with
      | |- context [Ascii.eqb ?x ?y] =>
          let b := eval vm_compute in (Ascii.eqb x y) in
          change (Ascii.eqb x y) with b
      end;
    cbn [letter_eqb length]; rewrite ?Nat2Z.inj_succ; lia.
Qed.

(** The code's string tests are the specification's rules on the letter
    sequence. *)
Lemma failure_pattern_classify t :
  Detector.is_flaky t = true ->
  Detector.failure_pattern t = classify (letters (Detector.outcomes t)).
Proof.
  intros Hf. unfold Detector.failure_pattern. rewrite Hf. cbv zeta.
  unfold Detector.outcomes_str, classify, rules. cbn [negb first_match].
  rewrite (startswith_letters F), (startswith_letters P),
    (contains_letters P), (contains_letters F),
    (count_letters F), (count_letters P).
  reflexivity.
Qed.

End PatternRefinement.

(** C7: a non-flaky aggregate is tagged [stable]; for a flaky one the tag is
    the first matching rule, in the stated order, on the pass/fail letters of
    the outcomes in run order, [error] counting as [F]. *)
Theorem C7_failure_pattern :
  (forall t, Detector.is_flaky t = false ->
             Detector.failure_pattern t = "stable")
  /\ (forall t, Detector.is_flaky t = true ->
                Detector.failure_pattern t
                = PatternSpec.classify
                    (PatternSpec.letters (Detector.outcomes t)))
  /\ (PatternSpec.letter_of "passed" = PatternSpec.P
      /\ PatternSpec.letter_of "failed" = PatternSpec.F
      /\ PatternSpec.letter_of "error" = PatternSpec.F)
  /\ (exists t, Samples.local_aggregate ["failed"; "passed"; "passed"] = Some t
                /\ Detector.failure_pattern t = "initially_failing")
  /\ (exists t, Samples.local_aggregate ["passed"; "failed"; "passed"] = Some t
                /\ Detector.failure_pattern t = "initially_passing").
Proof.
  split; [|split; [exact failure_pattern_classify|]].
  - intros t H. unfold Detector.failure_pattern. now rewrite H.
  - repeat split; eexists; (split; reflexivity).
Qed.

Lemma C7_failure_pattern_witness :
  exists t,
    Samples.local_aggregate ["passed"; "passed"; "error"; "failed"] = Some t
    /\ Detector.failure_pattern t
       = PatternSpec.classify
           [PatternSpec.P; PatternSpec.P; PatternSpec.F; PatternSpec.F].
Proof.
  eexists. split; [reflexivity|].
  refine (proj1 (proj2 C7_failure_pattern) _ _). reflexivity.
Defined.

(** A consequence the rules do not show at first sight: the letter sequence
    of a flaky aggregate holds both letters, so one of the first two rules
    always fires and the three later tags are never produced. *)
Lemma failure_pattern_flaky_tags t :
  Detector.is_flaky t = true ->
  Detector.failure_pattern t = "initially_failing"
  \/ Detector.failure_pattern t = "initially_passing".
Proof.
  intros Hf. rewrite (failure_pattern_classify t Hf).
  apply is_flaky_iff in Hf. destruct Hf as (Hp & Hfe).
  assert (HP : PatternSpec.contains PatternSpec.P
                 (PatternSpec.letters (Detector.outcomes t)) = true).
  { apply existsb_exists. exists PatternSpec.P. split; [|reflexivity].
    apply in_map_iff. now exists "passed". }
  assert (HF : PatternSpec.contains PatternSpec.F
                 (PatternSpec.letters (Detector.outcomes t)) = true).
  { apply existsb_exists. exists PatternSpec.F. split; [|reflexivity].
    apply in_map_iff. destruct Hfe; [now exists "failed" | now exists "error"]. }
  unfold PatternSpec.classify, PatternSpec.rules.
  cbn [PatternSpec.first_match]. rewrite HP, HF.
  destruct (PatternSpec.letters (Detector.outcomes t)) as [|[|] s];
    [discriminate HP | right | left]; reflexivity.
Qed.

(** C10: every outcome other than [passed], [skipped] included, becomes [F]
    in the pattern string; so a flaky aggregate whose outcomes begin with
    [skipped] is tagged [initially_failing]. *)
Theorem C10_skipped_is_F :
  (forall o, o <> "passed" -> Detector.pf_char o = "F")
  /\ Detector.pf_char "skipped" = "F"
  /\ (forall t rest,
         Detector.is_flaky t = true ->
         Detector.outcomes t = "skipped" :: rest ->
         Detector.failure_pattern t = "initially_failing").
Proof.
  split; [|split; [reflexivity|]].
  - intros o Ho. unfold Detector.pf_char.
    destruct (String.eqb_spec o "passed"); congruence.
  - intros t rest Hf Ho. rewrite (failure_pattern_classify t Hf).
    apply is_flaky_iff in Hf. destruct Hf as (Hp & _).
    rewrite Ho in *. destruct Hp as [Hp | Hp]; [discriminate|].
    unfold PatternSpec.classify, PatternSpec.rules.
    cbn [PatternSpec.first_match PatternSpec.letters map].
    change (PatternSpec.letter_of "skipped") with PatternSpec.F.
    cbn [PatternSpec.starts_with PatternSpec.letter_eqb andb].
    replace (PatternSpec.contains PatternSpec.P _) with true; [reflexivity|].
    symmetry. apply existsb_exists. exists PatternSpec.P.
    split; [|reflexivity]. right. apply in_map_iff. now exists "passed".
Qed.

Lemma C10_skipped_is_F_witness :
  exists t,
    Samples.local_aggregate ["skipped"; "passed"; "failed"] = Some t
    /\ Detector.failure_pattern t = "initially_failing".
Proof.
  eexists. split; [reflexivity|].
  refine (proj2 (proj2 C10_skipped_is_F) _ ["passed"; "failed"] _ _);
    reflexivity.
Defined.

(* ------------------------------------------------------------------ *)
(** ** The CI aggregator: what the inner loop of [analyze] maintains *)

Lemma update_ci_test_counted prov c name status :
  CISpec.counted c ->
  CISpec.counted (CIAnalyzer.update_ci_test prov c name status)
  /\ CISpec.statuses (CIAnalyzer.update_ci_test prov c name status)
     = (CISpec.statuses c ++ [status])%list.
Proof.
  intros (Ht & Hp & Hf & Hs).
  unfold CIAnalyzer.update_ci_test. cbv zeta. cbn [existsb].
  destruct (String.eqb_spec status "passed") as [E1|E1];
    [|destruct (String.eqb_spec status "failed") as [E2|E2];
      [|destruct (String.eqb_spec status "error") as [E3|E3];
        [|destruct (String.eqb_spec status "skipped") as [E4|E4]]]];
    cbn [orb]; unfold CISpec.counted, CISpec.statuses in *;
    cbn [CIAnalyzer.total_runs CIAnalyzer.pass_count CIAnalyzer.fail_count
         CIAnalyzer.skip_count CIAnalyzer.runs];
    rewrite map_app; cbn [map CIAnalyzer.r_status];
    rewrite length_app, Nat2Z.inj_add, !occurrences_app,
      !occurrences_single; cbn [length];
    repeat match goal with
      | |- context [String.eqb status ?s] =>
          destruct (String.eqb_spec status s); try congruence
      end;
    subst; try discriminate; (split; [repeat split; lia | reflexivity]).
Qed.

Lemma new_CIFlakyTest_counted name :
  CISpec.counted (CIAnalyzer.new_CIFlakyTest name).
Proof. repeat split. Qed.

Lemma record_ci_test_counted prov d td :
  CISpec.all_counted d ->
  CISpec.all_counted (CIAnalyzer.record_ci_test prov d td).
Proof.
  intros Hd k c. unfold CIAnalyzer.record_ci_test. cbv zeta.
  set (name := CIAnalyzer.d_test_name td).
  set (d' := if negb (PyDict.contains name d)
             then PyDict.set name (CIAnalyzer.new_CIFlakyTest name) d else d).
  assert (Hbase : exists base,
             PyDict.get name d' = Some base /\ CISpec.counted base
             /\ forall k', name <> k' -> PyDict.get k' d' = PyDict.get k' d).
  { subst d'. unfold PyDict.contains.
    destruct (PyDict.get name d) as [t|] eqn:Eg; simpl.
    - exists t. rewrite Eg. split; [reflexivity|].
      split; [now apply (Hd name) | auto].
    - eexists. rewrite get_set_same. split; [reflexivity|].
      split; [apply new_CIFlakyTest_counted|].
      intros. now apply get_set_other. }
  destruct Hbase as (base & Hget & Hcnt & Hother). rewrite Hget.
  destruct (String.eqb_spec name k) as [->|Hne].
  - rewrite get_set_same. intros E. injection E as <-.
    destruct (update_ci_test_counted prov base k (CIAnalyzer.d_status td) Hcnt)
      as (Hc & Hs).
    split; [exact Hc|]. rewrite Hs. intros H. now apply app_eq_nil in H.
  - rewrite get_set_other, Hother by assumption. apply Hd.
Qed.

Lemma record_ci_tests_counted prov tests : forall d,
  CISpec.all_counted d ->
  CISpec.all_counted (fold_left (CIAnalyzer.record_ci_test prov) tests d).
Proof.
  induction tests as [|td tests IH]; intros d Hd; simpl; auto.
  apply IH. now apply record_ci_test_counted.
Qed.

Lemma all_counted_empty : CISpec.all_counted PyDict.empty.
Proof. intros k c H. discriminate H. Qed.

Lemma github_analyze_counted fetch_job_logs workflow_runs :
  CISpec.all_counted (CIAnalyzer.github_analyze fetch_job_logs workflow_runs).
Proof.
  unfold CIAnalyzer.github_analyze.
  generalize (firstn 20 workflow_runs) as rs.
  assert (H : forall rs d, CISpec.all_counted d ->
            CISpec.all_counted
              (fold_left (CIAnalyzer.github_step fetch_job_logs) rs d)).
  { induction rs as [|r rs IH]; intros d Hd; simpl; auto.
    apply IH. unfold CIAnalyzer.github_step. cbv zeta.
    destruct (CIAnalyzer.no_logs _); auto.
    now apply record_ci_tests_counted. }
  intros rs. apply H, all_counted_empty.
Qed.

Lemma gitlab_analyze_counted fetch_pipeline_jobs fetch_job_log pipelines :
  CISpec.all_counted
    (CIAnalyzer.gitlab_analyze fetch_pipeline_jobs fetch_job_log pipelines).
Proof.
  unfold CIAnalyzer.gitlab_analyze.
  generalize (firstn 20 pipelines) as ps.
  assert (H : forall ps d, CISpec.all_counted d ->
            CISpec.all_counted
              (fold_left (CIAnalyzer.gitlab_step fetch_pipeline_jobs
                                                 fetch_job_log) ps d)).
  { induction ps as [|p ps IH]; intros d Hd; simpl; auto.
    apply IH. unfold CIAnalyzer.gitlab_step. cbv zeta.
    destruct (find _ _); auto.
    destruct (CIAnalyzer.no_logs _); auto.
    now apply record_ci_tests_counted. }
  intros ps. apply H, all_counted_empty.
Qed.

(* ------------------------------------------------------------------ *)
(** ** The CI aggregate against the local aggregate *)

Lemma ci_is_flaky_iff c :
  CISpec.counted c ->
  CIAnalyzer.is_flaky c = true <->
  In "passed" (CISpec.statuses c)
  /\ (In "failed" (CISpec.statuses c) \/ In "error" (CISpec.statuses c)).
Proof.
  intros (_ & Hp & Hf & _). unfold CIAnalyzer.is_flaky.
  rewrite andb_true_iff, !Z.ltb_lt, Hp, Hf, <- !occurrences_pos_In.
  pose proof (occurrences_nonneg "failed" (CISpec.statuses c)).
  pose proof (occurrences_nonneg "error" (CISpec.statuses c)).
  lia.
Qed.

(** Over the same outcome sequence the two [is_flaky] agree, and the two
    scores agree as soon as no outcome is [error]. *)
Lemma ci_matches_local t c :
  Spec.counted t -> CISpec.counted c ->
  CISpec.statuses c = Detector.outcomes t ->
  CIAnalyzer.is_flaky c = Detector.is_flaky t
  /\ (~ In "error" (Detector.outcomes t) ->
      (CIAnalyzer.flakiness_score c == Detector.flakiness_score t)%Q).
Proof.
  intros Ht Hc Hs. split.
  - apply eq_true_iff_eq.
    rewrite (ci_is_flaky_iff c Hc), is_flaky_iff, Hs. reflexivity.
  - intros Herr. destruct Ht as (Hp & Hf & _), Hc as (Ht' & Hp' & Hf' & _).
    rewrite Hs in *.
    assert (He : Spec.occurrences "error" (Detector.outcomes t) = 0).
    { pose proof (occurrences_pos_In "error" (Detector.outcomes t)).
      pose proof (occurrences_nonneg "error" (Detector.outcomes t)).
      destruct (Z.eq_dec (Spec.occurrences "error" (Detector.outcomes t)) 0);
        [assumption | exfalso; apply Herr; apply H; lia]. }
    unfold CIAnalyzer.flakiness_score, Detector.flakiness_score, Detector.total.
    rewrite Ht', Hp', Hf', Hp, Hf, He, Z.add_0_r. reflexivity.
Qed.

(** C1 as stated fails: over the outcomes [passed, error] the local
    aggregate scores 0 (the error goes to [error_count], which the score does
    not read) while the CI aggregate scores 1 (the error goes to
    [fail_count]). *)
Lemma C1_counterexample :
  exists t c,
    Samples.local_aggregate ["passed"; "error"] = Some t
    /\ CISamples.ci_aggregate CISamples.log_passed_error = Some c
    /\ CISpec.statuses c = Detector.outcomes t
    /\ (Detector.flakiness_score t == 0)%Q
    /\ (CIAnalyzer.flakiness_score c == 1)%Q
    /\ ~ (CIAnalyzer.flakiness_score c == Detector.flakiness_score t)%Q.
Proof.
  do 2 eexists. do 5 (split; [reflexivity|]).
  intros H. discriminate H.
Qed.

(** C1 (amended): for an aggregate of the local detector and an aggregate of
    either CI analyzer that recorded the same outcome sequence, [is_flaky] is
    the same, and [flakiness_score] is the same whenever the sequence holds
    no [error] outcome. *)
Theorem C1_ci_matches_local :
  forall reports k t,
    PyDict.get k (Detector.run_detection reports) = Some t ->
    (forall fetch_job_logs workflow_runs n c,
        PyDict.get n (CIAnalyzer.github_analyze fetch_job_logs workflow_runs)
        = Some c ->
        CISpec.statuses c = Detector.outcomes t ->
        CIAnalyzer.is_flaky c = Detector.is_flaky t
        /\ (~ In "error" (Detector.outcomes t) ->
            (CIAnalyzer.flakiness_score c == Detector.flakiness_score t)%Q))
    /\ (forall fetch_pipeline_jobs fetch_job_log pipelines n c,
        PyDict.get n (CIAnalyzer.gitlab_analyze fetch_pipeline_jobs
                                                fetch_job_log pipelines)
        = Some c ->
        CISpec.statuses c = Detector.outcomes t ->
        CIAnalyzer.is_flaky c = Detector.is_flaky t
        /\ (~ In "error" (Detector.outcomes t) ->
            (CIAnalyzer.flakiness_score c == Detector.flakiness_score t)%Q)).
Proof.
  intros reports k t Ht. apply run_detection_aggregate in Ht.
  destruct Ht as (_ & _ & _ & Hcnt). split.
  - intros fetch wr n c Hc Hs.
    apply github_analyze_counted in Hc. now apply ci_matches_local.
  - intros fj fl ps n c Hc Hs.
    apply gitlab_analyze_counted in Hc. now apply ci_matches_local.
Qed.

Lemma C1_ci_matches_local_witness :
  exists t c,
    Samples.local_aggregate ["passed"; "failed"; "skipped"] = Some t
    /\ CISamples.ci_aggregate CISamples.log_mixed = Some c
    /\ CIAnalyzer.is_flaky c = Detector.is_flaky t
    /\ (CIAnalyzer.flakiness_score c == Detector.flakiness_score t)%Q.
Proof.
  do 2 eexists. split; [reflexivity|]. split; [reflexivity|].
  pose proof (proj1 (C1_ci_matches_local
                (Samples.runs_of ["passed"; "failed"; "skipped"])
                Samples.sample_id _ eq_refl)
              (fun _ => Some CISamples.log_mixed) CISamples.one_run
              "test_sample" _ eq_refl eq_refl) as [H1 H2].
  split; [exact H1|]. apply H2.
  intros [H|[H|[H|[]]]]; discriminate H.
Defined.

(* ------------------------------------------------------------------ *)
(** ** The stable sort *)

Section SortFacts.
Context {A : Type} (before : A -> A -> bool).

Let R (x y : A) : Prop := before x y = true.

Lemma insert_perm x l : Permutation (PySort.insert before x l) (x :: l).
Proof.
  induction l as [|y l IH]; simpl; [reflexivity|].
  destruct (before x y); [reflexivity|].
  rewrite IH. apply perm_swap.
Qed.

Lemma stable_sort_perm l : Permutation (PySort.stable_sort before l) l.
Proof.
  induction l as [|x l IH]; simpl; [reflexivity|].
  rewrite insert_perm. now constructor.
Qed.

Lemma stable_sort_In x l : In x (PySort.stable_sort before l) <-> In x l.
Proof.
  split; apply Permutation_in;
    [|symmetry]; apply stable_sort_perm.
Qed.

Hypothesis before_total : forall x y, before x y = false -> before y x = true.
Hypothesis before_trans :
  forall x y z, before x y = true -> before y z = true -> before x z = true.

Lemma insert_sorted x l :
  StronglySorted R l -> StronglySorted R (PySort.insert before x l).
Proof.
  induction 1 as [|y l Hs IH Hall]; simpl.
  - repeat constructor.
  - destruct (before x y) eqn:E.
    + constructor; [now constructor|].
      constructor; [exact E|].
      eapply Forall_impl; [|exact Hall]. intros z Hz.
      now apply (before_trans x y z).
    + constructor; [exact IH|].
      rewrite Forall_forall. intros z Hz.
      apply (Permutation_in _ (insert_perm x l)) in Hz.
      destruct Hz as [<-|Hz]; [now apply before_total|].
      rewrite Forall_forall in Hall. now apply Hall.
Qed.

Lemma stable_sort_sorted l : StronglySorted R (PySort.stable_sort before l).
Proof.
  induction l as [|x l IH]; simpl; [constructor | now apply insert_sorted].
Qed.

End SortFacts.

(** Stability: a class of elements any two of which may stand either way
    round comes out in its input order. *)
Section SortStable.
Context {A : Type} (before : A -> A -> bool) (p : A -> bool).

Lemma insert_filter x l :
  (p x = true -> forall y, In y l -> p y = true -> before x y = true) ->
  filter p (PySort.insert before x l) = filter p (x :: l).
Proof.
  induction l as [|y l IH]; intros H; [reflexivity|].
  cbn [PySort.insert]. destruct (before x y) eqn:E; [reflexivity|].
  cbn [filter]. rewrite IH by (intros; apply H; simpl; auto).
  cbn [filter]. destruct (p x) eqn:Px; [|reflexivity].
  destruct (p y) eqn:Py; [|reflexivity].
  rewrite (H eq_refl y (or_introl eq_refl) Py) in E. discriminate.
Qed.

Lemma stable_sort_filter l :
  (forall x y, In x l -> In y l -> p x = true -> p y = true ->
               before x y = true) ->
  filter p (PySort.stable_sort before l) = filter p l.
Proof.
  induction l as [|x l IH]; intros H; [reflexivity|].
  cbn [PySort.stable_sort fold_right].
  change (fold_right (PySort.insert before) [] l)
    with (PySort.stable_sort before l).
  rewrite insert_filter.
  - cbn [filter]. rewrite IH; [reflexivity|].
    intros; apply H; simpl; auto.
  - intros Px y Hy Py. apply stable_sort_In in Hy.
    apply H; simpl; auto.
Qed.

End SortStable.

(* ------------------------------------------------------------------ *)
(** ** Why an insertion sort may stand for Python's sort

    Python documents [sorted] and [list.sort] as stable sorts.  For a total
    preorder, the sorted and stable rearrangement of a list is unique, so
    every stable sort computes [PySort.stable_sort]. *)

Section SortUnique.
Context {A : Type} (before : A -> A -> bool).
Hypothesis before_total : forall x y, before x y = false -> before y x = true.
Hypothesis before_trans :
  forall x y z, before x y = true -> before y z = true -> before x z = true.

Let R (x y : A) : Prop := before x y = true.

Let tie := PySort.tie before.

Lemma before_refl x : before x x = true.
Proof.
  destruct (before x x) eqn:E; [reflexivity|].
  pose proof (before_total x x E). congruence.
Qed.

Lemma stable_sort_ties a l :
  filter (tie a) (PySort.stable_sort before l) = filter (tie a) l.
Proof.
  apply stable_sort_filter. intros x y _ _ Hx Hy.
  subst tie. unfold PySort.tie in *.
  apply andb_true_iff in Hx, Hy. destruct Hx as [_ Hxa], Hy as [Hay _].
  now apply (before_trans x a y).
Qed.

Lemma sorted_stable_unique l1 : forall l2,
  Permutation l1 l2 ->
  StronglySorted R l1 -> StronglySorted R l2 ->
  (forall a, filter (tie a) l1 = filter (tie a) l2) ->
  l1 = l2.
Proof.
  induction l1 as [|x r1 IH]; intros l2 Hperm Hs1 Hs2 Hties.
  - apply Permutation_nil in Hperm. now subst.
  - destruct l2 as [|y r2];
      [symmetry in Hperm; now apply Permutation_nil in Hperm|].
    apply StronglySorted_inv in Hs1, Hs2.
    destruct Hs1 as [Hs1 Hx], Hs2 as [Hs2 Hy].
    rewrite Forall_forall in Hx, Hy.
    assert (Hxy : R x y).
    { assert (Hin : In y (x :: r1))
        by (eapply Permutation_in; [symmetry; exact Hperm | now left]).
      destruct Hin as [<-|Hin]; [apply before_refl | now apply Hx]. }
    assert (Hyx : R y x).
    { assert (Hin : In x (y :: r2))
        by (eapply Permutation_in; [exact Hperm | now left]).
      destruct Hin as [<-|Hin]; [apply before_refl | now apply Hy]. }
    assert (E : x = y).
    { specialize (Hties x). cbn [filter] in Hties.
      assert (T1 : tie x x = true)
        by (subst tie; unfold PySort.tie; now rewrite before_refl).
      assert (T2 : tie x y = true)
        by (subst tie; unfold PySort.tie; now rewrite Hxy, Hyx).
      rewrite T1, T2 in Hties. congruence. }
    subst y. f_equal. apply IH; auto.
    + now apply Permutation_cons_inv in Hperm.
    + intros a. specialize (Hties a). cbn [filter] in Hties.
      destruct (tie a x); congruence.
Qed.

Theorem stable_sort_unique l l' :
  Permutation l' l ->
  StronglySorted R l' ->
  (forall a, filter (tie a) l' = filter (tie a) l) ->
  l' = PySort.stable_sort before l.
Proof.
  intros Hperm Hs Hties. apply sorted_stable_unique; auto.
  - rewrite Hperm. symmetry. apply stable_sort_perm.
  - now apply stable_sort_sorted.
  - intros a. now rewrite stable_sort_ties.
Qed.

End SortUnique.

Lemma StronglySorted_weaken {A} (R R' : A -> A -> Prop) l :
  (forall a b, R a b -> R' a b) -> StronglySorted R l -> StronglySorted R' l.
Proof.
  intros HR. induction 1 as [|x l Hs IH Hall]; constructor; auto.
  eapply Forall_impl; [|exact Hall]. auto.
Qed.

Lemma Qle_bool_total x y : Qle_bool x y = false -> Qle_bool y x = true.
Proof.
  intros H. apply Qle_bool_iff.
  destruct (Qlt_le_dec y x) as [Hlt|Hle]; [now apply Qlt_le_weak|].
  apply Qle_bool_iff in Hle. congruence.
Qed.

Lemma Qle_bool_trans x y z :
  Qle_bool x y = true -> Qle_bool y z = true -> Qle_bool x z = true.
Proof.
  rewrite !Qle_bool_iff. apply Qle_trans.
Qed.

Lemma sort_by_float_key_reverse_sorted {A} (key : A -> Q) l :
  StronglySorted (fun a b => (key b <= key a)%Q)
                 (PySort.sort_by_float_key_reverse key l).
Proof.
  unfold PySort.sort_by_float_key_reverse.
  eapply StronglySorted_weaken;
    [|apply (stable_sort_sorted (fun x y => Qle_bool (key y) (key x)))].
  - intros a b H. now apply Qle_bool_iff.
  - intros x y H. now apply Qle_bool_total.
  - intros x y z H1 H2. now apply (Qle_bool_trans _ (key y)).
Qed.

Lemma sorted_by_int_key_sorted {A} (key : A -> Z) l :
  StronglySorted (fun a b => key a <= key b)
                 (PySort.sorted_by_int_key key l).
Proof.
  unfold PySort.sorted_by_int_key.
  eapply StronglySorted_weaken;
    [|apply (stable_sort_sorted (fun x y => key x <=? key y))].
  - intros a b H. now apply Z.leb_le.
  - intros x y H. apply Z.leb_le. apply Z.leb_gt in H. lia.
  - intros x y z H1 H2. apply Z.leb_le. apply Z.leb_le in H1, H2. lia.
Qed.

(* ------------------------------------------------------------------ *)
(** ** [get_flaky_tests] on CI aggregates *)

Lemma collect_loop_is_filter {K V} (keep : V -> bool) (items : list (K * V)) :
  forall acc,
    fold_left (fun (acc : list V) (kv : K * V) =>
                 if keep (snd kv) then (acc ++ [snd kv])%list else acc)
              items acc
    = (acc ++ filter keep (map snd items))%list.
Proof.
  induction items as [|[k v] items IH]; intros acc; simpl.
  - now rewrite app_nil_r.
  - rewrite IH. destruct (keep v); [now rewrite <- app_assoc | reflexivity].
Qed.

Lemma get_flaky_tests_unfold test_results min_runs :
  CIAnalyzer.get_flaky_tests test_results min_runs
  = PySort.sort_by_float_key_reverse CIAnalyzer.flakiness_score
      (filter (CISpec.selected min_runs) (PyDict.values test_results)).
Proof.
  unfold CIAnalyzer.get_flaky_tests, PyDict.items. cbv zeta. f_equal.
  exact (collect_loop_is_filter (CISpec.selected min_runs) test_results []).
Qed.

(** C8: [get_flaky_tests(results, min_runs)] returns exactly the aggregates
    of [results] with [total_runs >= min_runs] and [is_flaky], each as often
    as it occurs, in descending order of [flakiness_score]; with
    [min_runs = 3] no aggregate with [total_runs < 3] is returned. *)
Theorem C8_get_flaky_tests :
  forall test_results min_runs,
    let out := CIAnalyzer.get_flaky_tests test_results min_runs in
    Permutation out
      (filter (CISpec.selected min_runs) (PyDict.values test_results))
    /\ (forall t, In t out <->
                  In t (PyDict.values test_results)
                  /\ min_runs <= CIAnalyzer.total_runs t
                  /\ CIAnalyzer.is_flaky t = true)
    /\ StronglySorted CISpec.score_ge out
    /\ (forall t, CIAnalyzer.total_runs t < 3 ->
                  ~ In t (CIAnalyzer.get_flaky_tests test_results 3)).
Proof.
  intros test_results min_runs out. subst out.
  assert (Hin : forall m t,
             In t (CIAnalyzer.get_flaky_tests test_results m) <->
             In t (PyDict.values test_results)
             /\ m <= CIAnalyzer.total_runs t
             /\ CIAnalyzer.is_flaky t = true).
  { intros m t. rewrite get_flaky_tests_unfold.
    unfold PySort.sort_by_float_key_reverse.
    rewrite stable_sort_In, filter_In. unfold CISpec.selected.
    now rewrite andb_true_iff, Z.leb_le. }
  split; [|split; [apply Hin | split]].
  - rewrite get_flaky_tests_unfold. apply stable_sort_perm.
  - rewrite get_flaky_tests_unfold.
    apply (sort_by_float_key_reverse_sorted CIAnalyzer.flakiness_score).
  - intros t Hlt Ht. apply Hin in Ht. lia.
Qed.

Lemma C8_get_flaky_tests_witness :
  ~ In (CISamples.agg "test_b" 2 1 1 0)
       (CIAnalyzer.get_flaky_tests CISamples.three_results 3)
  /\ CIAnalyzer.is_flaky (CISamples.agg "test_b" 2 1 1 0) = true
  /\ map CIAnalyzer.test_name
         (CIAnalyzer.get_flaky_tests CISamples.three_results 3)
     = ["test_d"; "test_a"].
Proof.
  split; [|split; reflexivity].
  apply (proj2 (proj2 (proj2
           (C8_get_flaky_tests CISamples.three_results 3)))).
  reflexivity.
Defined.

(** Ties keep the order of the dictionary: the sort is stable. *)
Lemma get_flaky_tests_stable test_results min_runs (q : Q) :
  let tie t := Qeq_bool (CIAnalyzer.flakiness_score t) q in
  filter tie (CIAnalyzer.get_flaky_tests test_results min_runs)
  = filter tie (filter (CISpec.selected min_runs)
                       (PyDict.values test_results)).
Proof.
  intros tie. rewrite get_flaky_tests_unfold.
  apply stable_sort_filter. intros x y _ _ Hx Hy.
  apply Qeq_bool_iff in Hx, Hy. apply Qle_bool_iff.
  rewrite Hx, Hy. apply Qle_refl.
Qed.

(* ------------------------------------------------------------------ *)
(** ** The repair suggester *)

Lemma mem_string_iff x l : existsb (String.eqb x) l = true <-> In x l.
Proof.
  rewrite existsb_exists. split.
  - intros (y & Hy & E). apply String.eqb_eq in E. now subst.
  - intros H. exists x. split; [assumption | apply String.eqb_refl].
Qed.

(** The loop over [suggestions] computes the first occurrences. *)
Lemma dedup_loop l : forall seen acc,
  snd (fold_left Suggester.dedup_step l (seen, acc))
  = (acc ++ SuggestSpec.first_occurrences seen l)%list.
Proof.
  induction l as [|s l IH]; intros seen acc; simpl.
  - now rewrite app_nil_r.
  - destruct (existsb (String.eqb (Suggester.title s)) seen); simpl.
    + apply IH.
    + rewrite IH, <- app_assoc. reflexivity.
Qed.

Lemma remove_duplicates_first_occurrences l :
  Suggester.remove_duplicates l = SuggestSpec.first_occurrences [] l.
Proof. unfold Suggester.remove_duplicates. now rewrite dedup_loop. Qed.

Lemma first_occurrences_fresh l : forall seen s,
  In s (SuggestSpec.first_occurrences seen l) ->
  ~ In (Suggester.title s) seen /\ In s l.
Proof.
  induction l as [|x l IH]; intros seen s; simpl; [tauto|].
  destruct (existsb _ seen) eqn:E.
  - intros H. apply IH in H. tauto.
  - intros [<-|H].
    + split; [|auto]. rewrite <- mem_string_iff. congruence.
    + apply IH in H. simpl in H. tauto.
Qed.

Lemma first_occurrences_NoDup l : forall seen,
  NoDup (map Suggester.title (SuggestSpec.first_occurrences seen l)).
Proof.
  induction l as [|x l IH]; intros seen; simpl; [constructor|].
  destruct (existsb _ seen); [apply IH|].
  simpl. constructor; [|apply IH].
  rewrite in_map_iff. intros (s & Hs & Hin).
  apply first_occurrences_fresh in Hin. destruct Hin as [Hn _].
  apply Hn. rewrite Hs. now left.
Qed.

Lemma first_occurrences_find ti l : forall seen,
  find (SuggestSpec.has_title ti) (SuggestSpec.first_occurrences seen l)
  = if existsb (String.eqb ti) seen then None
    else find (SuggestSpec.has_title ti) l.
Proof.
  induction l as [|x l IH]; intros seen;
    cbn [SuggestSpec.first_occurrences find].
  - now destruct (existsb _ seen).
  - destruct (existsb (String.eqb (Suggester.title x)) seen) eqn:Ex.
    + rewrite IH. destruct (existsb (String.eqb ti) seen) eqn:Et; auto.
      unfold SuggestSpec.has_title at 2.
      destruct (String.eqb_spec (Suggester.title x) ti) as [E|]; auto.
      rewrite E in Ex. congruence.
    + cbn [find]. unfold SuggestSpec.has_title at 1 3.
      destruct (String.eqb_spec (Suggester.title x) ti) as [E|Hne].
      * rewrite <- E, Ex. reflexivity.
      * rewrite IH. cbn [existsb].
        destruct (String.eqb_spec ti (Suggester.title x)); [congruence|].
        reflexivity.
Qed.

Lemma find_hd_filter {A} (p : A -> bool) l :
  find p l = hd_error (filter p l).
Proof.
  induction l as [|x l IH]; simpl; [reflexivity|].
  now destruct (p x).
Qed.

Lemma NoDup_map_inj {A B} (f : A -> B) l x y :
  NoDup (map f l) -> In x l -> In y l -> f x = f y -> x = y.
Proof.
  induction l as [|a l IH]; simpl; [tauto|].
  intros Hnd. apply NoDup_cons_iff in Hnd. destruct Hnd as [Hn Hnd].
  intros [<-|Hx] [<-|Hy] E; auto.
  - exfalso. apply Hn. rewrite E. now apply in_map.
  - exfalso. apply Hn. rewrite <- E. now apply in_map.
Qed.

(** Sorting a list with distinct titles does not change which suggestion a
    title denotes. *)
Lemma sorted_find_title ti l :
  NoDup (map Suggester.title l) ->
  find (SuggestSpec.has_title ti)
       (PySort.sorted_by_int_key Suggester.priority l)
  = find (SuggestSpec.has_title ti) l.
Proof.
  intros Hnd. rewrite !find_hd_filter. f_equal.
  apply stable_sort_filter. intros x y Hx Hy Px Py.
  unfold SuggestSpec.has_title in *.
  apply String.eqb_eq in Px, Py.
  rewrite (NoDup_map_inj Suggester.title l x y Hnd Hx Hy) by congruence.
  apply Z.leb_refl.
Qed.

(** C9: [suggest_repairs] never returns two suggestions with one title; of
    the candidates with a given title it returns the first; its priorities
    are non-decreasing; and the suggestions of any one priority stand in the
    order of their first occurrences among the candidates. *)
Theorem C9_suggest_repairs :
  forall causes,
    let out := Suggester.suggest_repairs causes in
    let candidates := Suggester.collect causes in
    NoDup (map Suggester.title out)
    /\ (forall ti, find (SuggestSpec.has_title ti) out
                   = find (SuggestSpec.has_title ti) candidates)
    /\ StronglySorted SuggestSpec.priority_le out
    /\ (forall k, filter (SuggestSpec.has_priority k) out
                  = filter (SuggestSpec.has_priority k)
                           (SuggestSpec.first_occurrences [] candidates)).
Proof.
  intros causes out candidates. subst out. unfold Suggester.suggest_repairs.
  cbv zeta. fold candidates. rewrite remove_duplicates_first_occurrences.
  pose proof (first_occurrences_NoDup candidates []) as Hnd.
  split; [|split; [|split]].
  - eapply Permutation_NoDup; [|exact Hnd].
    apply Permutation_map. symmetry. apply stable_sort_perm.
  - intros ti. rewrite (sorted_find_title ti _ Hnd).
    now rewrite first_occurrences_find.
  - apply (sorted_by_int_key_sorted Suggester.priority).
  - intros k. apply stable_sort_filter. intros x y _ _ Hx Hy.
    unfold SuggestSpec.has_priority in *. apply Z.eqb_eq in Hx, Hy.
    apply Z.leb_le. lia.
Qed.

Example suggest_repairs_sample :
  map Suggester.title
      (Suggester.suggest_repairs
         (map SuggestSpec.cause
              [Analyzer.RANDOM_DEPENDENT; Analyzer.TIME_DEPENDENT;
               Analyzer.RANDOM_DEPENDENT; Analyzer.UNKNOWN]))
  = [ "Set random seed before test"; "Use pytest fixtures for random data";
      "Mock datetime.now() with freezegun"; "Inject time as parameter";
      "Mock random module" ].
Proof. reflexivity. Qed.

(* ------------------------------------------------------------------ *)
(** ** The root-cause analyzer *)

Section AnalyzerFacts.
Context {ast_module function_def : Type}.
Variable walk_function_defs : ast_module -> list function_def.
Variable fd_name : function_def -> string.
Variable fd_lineno : function_def -> Z.
Variable get_source_segment : string -> function_def -> option string.
Variable re_search : string -> string -> bool.

Let analyze :=
  Analyzer.analyze walk_function_defs fd_name fd_lineno get_source_segment
                   re_search.
Let find_function := Analyzer._find_function walk_function_defs fd_name.

Lemma check_pattern_from_nil patterns lines start : forall i,
  (forall pattern line, In pattern patterns -> In line lines ->
                        re_search pattern line = false) ->
  Analyzer._check_pattern_from re_search i patterns lines start = [].
Proof.
  induction lines as [|line lines IH]; intros i H; simpl; [reflexivity|].
  rewrite IH by (intros; apply H; simpl; auto).
  replace (existsb _ patterns) with false; [reflexivity|].
  symmetry. apply not_true_is_false. rewrite existsb_exists.
  intros (pattern & Hin & Hm). rewrite H in Hm; simpl; auto. discriminate.
Qed.

Lemma check_category_nil patterns ty descr conf source lines start :
  (forall pattern line, In pattern patterns -> In line lines ->
                        re_search pattern line = false) ->
  Analyzer.check_category re_search patterns ty descr conf source lines start
  = [].
Proof.
  intros H. unfold Analyzer.check_category, Analyzer._check_pattern.
  now rewrite check_pattern_from_nil.
Qed.

Lemma run_checks_nil source lines start :
  (forall pattern line, In pattern Analyzer.all_patterns -> In line lines ->
                        re_search pattern line = false) ->
  Analyzer.run_checks re_search source lines start = [].
Proof.
  intros H. unfold Analyzer.run_checks, Analyzer._check_time_dependency,
    Analyzer._check_random_dependency, Analyzer._check_concurrency,
    Analyzer._check_order_dependency, Analyzer._check_external_dependency,
    Analyzer._check_floating_point, Analyzer._check_global_state.
  rewrite !check_category_nil; [reflexivity| ..];
    intros pattern line Hp Hl; apply H; auto;
    unfold Analyzer.all_patterns; rewrite !in_app_iff; tauto.
Qed.

(** C3 (amended): [analyze] always returns a list.  A file that could not
    be parsed gives exactly one [unknown] cause, confidence 0.0, no evidence.
    A function that is not found, or whose source text is missing, gives the
    empty list.  A resolved span never gives the empty list, and gives exactly
    one [unknown] cause, confidence 0.1, no evidence, when no pattern of any
    category matches any of its lines. *)
Theorem C3_analyze (self : Analyzer.RootCauseAnalyzer ast_module)
        (name : string) :
  (Analyzer.tree self = None ->
   analyze self name = [Analyzer.could_not_parse])
  /\ (forall t, Analyzer.tree self = Some t ->
                find_function t name = None ->
                analyze self name = [])
  /\ (forall t f, Analyzer.tree self = Some t ->
                  find_function t name = Some f ->
                  get_source_segment (Analyzer.source_code self) f = None
                  \/ get_source_segment (Analyzer.source_code self) f
                     = Some EmptyString ->
                  analyze self name = [])
  /\ (forall t f src,
         Analyzer.tree self = Some t ->
         find_function t name = Some f ->
         get_source_segment (Analyzer.source_code self) f = Some src ->
         src <> EmptyString ->
         analyze self name <> []
         /\ ((forall pattern line,
                 In pattern Analyzer.all_patterns ->
                 In line (PyStr.split_lines src) ->
                 re_search pattern line = false) ->
             analyze self name = [Analyzer.no_obvious_pattern]))
  /\ (Analyzer.type Analyzer.could_not_parse = Analyzer.UNKNOWN
      /\ (Analyzer.confidence Analyzer.could_not_parse == 0)%Q
      /\ Analyzer.line_numbers Analyzer.could_not_parse = []
      /\ Analyzer.code_snippets Analyzer.could_not_parse = [])
  /\ (Analyzer.type Analyzer.no_obvious_pattern = Analyzer.UNKNOWN
      /\ (Analyzer.confidence Analyzer.no_obvious_pattern == 1 # 10)%Q
      /\ Analyzer.line_numbers Analyzer.no_obvious_pattern = []
      /\ Analyzer.code_snippets Analyzer.no_obvious_pattern = []).
Proof.
  subst analyze find_function. unfold Analyzer.analyze.
  split; [|split; [|split; [|split; [|split]]]].
  - intros ->. reflexivity.
  - intros t -> ->. reflexivity.
  - intros t f -> -> [-> | ->]; reflexivity.
  - intros t f src -> -> -> Hsrc.
    destruct src as [|a src]; [congruence|]. cbv zeta. split.
    + destruct (Analyzer.run_checks _ _ _ _); discriminate.
    + intros H. now rewrite run_checks_nil.
  - repeat split.
  - repeat split.
Qed.

End AnalyzerFacts.

(** C3 as stated fails: for a file that parses and a function name it does
    not define, [analyze] returns the empty list, not an [unknown] cause. *)
Lemma C3_counterexample :
  Analyzer.tree AnalyzerSamples.parsed_file <> None
  /\ Analyzer._find_function (fun m => m) AnalyzerSamples.toy_name
       [AnalyzerSamples.plain_test; AnalyzerSamples.clock_test] "test_missing"
     = None
  /\ AnalyzerSamples.toy_analyze AnalyzerSamples.parsed_file "test_missing"
     = []
  /\ AnalyzerSamples.toy_analyze AnalyzerSamples.parsed_file "test_missing"
     <> [Analyzer.no_obvious_pattern].
Proof. repeat split; discriminate. Qed.

Lemma C3_analyze_witness :
  AnalyzerSamples.toy_analyze AnalyzerSamples.unparsed_file "test_clock"
  = [Analyzer.could_not_parse]
  /\ AnalyzerSamples.toy_analyze AnalyzerSamples.parsed_file "test_addition"
     = [Analyzer.no_obvious_pattern].
Proof.
  split.
  - apply (proj1 (C3_analyze (fun m => m) AnalyzerSamples.toy_name
                    AnalyzerSamples.toy_lineno AnalyzerSamples.toy_segment
                    AnalyzerSamples.toy_search
                    AnalyzerSamples.unparsed_file "test_clock")).
    reflexivity.
  - refine (proj2 (proj1 (proj2 (proj2 (proj2
             (C3_analyze (fun m => m) AnalyzerSamples.toy_name
                AnalyzerSamples.toy_lineno AnalyzerSamples.toy_segment
                AnalyzerSamples.toy_search
                AnalyzerSamples.parsed_file "test_addition"))))
             _ AnalyzerSamples.plain_test _ eq_refl eq_refl eq_refl _) _).
    + discriminate.
    + intros pattern line Hp Hl.
      assert (Hall : forallb (fun l => forallb (fun p =>
                       negb (AnalyzerSamples.toy_search p l))
                       Analyzer.all_patterns)
                     (PyStr.split_lines
                        (AnalyzerSamples.toy_source AnalyzerSamples.plain_test))
                     = true) by reflexivity.
      rewrite forallb_forall in Hall. specialize (Hall line Hl).
      rewrite forallb_forall in Hall. specialize (Hall pattern Hp).
      now apply negb_true_iff in Hall.
Defined.

(* ================================================================== *)
(** * Further properties of the code *)

(* ------------------------------------------------------------------ *)
(** ** The detection loop *)

Lemma fold_process_results reports : forall d,
  fold_left Detector._process_results reports d
  = Detector._process_results d (concat reports).
Proof.
  induction reports as [|rs reports IH]; intros d; simpl; [reflexivity|].
  rewrite IH. unfold Detector._process_results. now rewrite fold_left_app.
Qed.

Lemma run_detection_concat reports :
  Detector.run_detection reports
  = Detector._process_results PyDict.empty (concat reports).
Proof. apply fold_process_results. Qed.

(** X1: a run whose report file is missing or malformed changes nothing:
    detection over the report files equals detection over the readable ones,
    and is one pass of [_process_results] over all decoded results in run
    order. *)
Theorem X1_unreadable_report_is_skipped :
  forall files1 files2,
    Detector.run_detection_on (files1 ++ None :: files2)
    = Detector.run_detection_on (files1 ++ files2)
    /\ Detector.run_detection_on (files1 ++ files2)
       = Detector._process_results PyDict.empty
           (concat (map Detector._execute_single_run (files1 ++ files2))).
Proof.
  intros files1 files2. unfold Detector.run_detection_on.
  rewrite !run_detection_concat, !map_app, !concat_app. simpl.
  split; reflexivity.
Qed.

(* ------------------------------------------------------------------ *)
(** ** The keys of the detector's dictionary *)

Section DictKeys.
Context {V : Type}.
Implicit Types (d : PyDict.dict V) (k : string) (v : V).

Lemma get_None_keys k d : PyDict.get k d = None <-> ~ In k (map fst d).
Proof.
  induction d as [|[k0 v0] d IH]; simpl; [tauto|].
  destruct (String.eqb_spec k0 k) as [->|Hne].
  - split; [discriminate | intros H; exfalso; apply H; now left].
  - rewrite IH. tauto.
Qed.

Lemma contains_keys k d : PyDict.contains k d = true <-> In k (map fst d).
Proof.
  unfold PyDict.contains. pose proof (get_None_keys k d) as H.
  destruct (PyDict.get k d).
  - split; [intros _ | reflexivity].
    destruct (in_dec string_dec k (map fst d)) as [Hin|Hn]; [exact Hin|].
    apply H in Hn. discriminate.
  - split; [discriminate | intros Hin]. exfalso. now apply (proj1 H).
Qed.

Lemma keys_set k v d :
  map fst (PyDict.set k v d)
  = if PyDict.contains k d then map fst d else (map fst d ++ [k])%list.
Proof.
  unfold PyDict.contains.
  induction d as [|[k0 v0] d IH]; simpl; [reflexivity|].
  destruct (String.eqb_spec k0 k) as [->|Hne]; simpl; [reflexivity|].
  rewrite IH. now destruct (PyDict.get k d).
Qed.

End DictKeys.

Lemma keys_record_result d r :
  map fst (Detector.record_result d r)
  = if PyDict.contains (Detector.r_test_id r) d then map fst d
    else (map fst d ++ [Detector.r_test_id r])%list.
Proof.
  unfold Detector.record_result. cbv zeta.
  set (id := Detector.r_test_id r). set (fresh := Detector.new_FlakyTest _ _ _).
  destruct (PyDict.contains id d) eqn:Ec; cbn [negb].
  - unfold PyDict.contains in Ec.
    destruct (PyDict.get id d) as [t|] eqn:Eg; [|discriminate].
    rewrite keys_set. unfold PyDict.contains. now rewrite Eg.
  - rewrite get_set_same, keys_set, keys_set, Ec.
    replace (PyDict.contains id (PyDict.set id fresh d)) with true;
      [reflexivity|].
    unfold PyDict.contains. now rewrite get_set_same.
Qed.

Lemma mem_keys_false k (keys : list string) :
  existsb (String.eqb k) keys = false <-> ~ In k keys.
Proof.
  rewrite <- mem_string_iff. destruct (existsb _ keys); split; congruence.
Qed.

Lemma filter_filter {A} (p q : A -> bool) l :
  filter p (filter q l) = filter (fun x => q x && p x) l.
Proof.
  induction l as [|x l IH]; simpl; [reflexivity|].
  destruct (q x); simpl; [destruct (p x)|]; now rewrite IH.
Qed.

Lemma keys_process_results rs : forall d,
  map fst (Detector._process_results d rs)
  = (map fst d
     ++ filter (fun y => negb (existsb (String.eqb y) (map fst d)))
          (DetectorSpec.first_seen (map Detector.r_test_id rs)))%list.
Proof.
  unfold Detector._process_results.
  induction rs as [|r rs IH]; intros d; simpl; [now rewrite app_nil_r|].
  rewrite IH, keys_record_result. set (i := Detector.r_test_id r).
  set (L := DetectorSpec.first_seen _).
  destruct (PyDict.contains i d) eqn:Ec.
  - apply contains_keys in Ec. f_equal.
    replace (existsb (String.eqb i) (map fst d)) with true
      by (symmetry; now apply mem_string_iff).
    cbn [negb]. rewrite filter_filter. apply filter_ext. intros y.
    destruct (String.eqb_spec y i) as [->|Hne]; cbn [negb andb]; auto.
    replace (existsb (String.eqb i) (map fst d)) with true
      by (symmetry; now apply mem_string_iff).
    reflexivity.
  - assert (Hn : ~ In i (map fst d)).
    { intros Hin. apply contains_keys in Hin. congruence. }
    replace (existsb (String.eqb i) (map fst d)) with false
      by (symmetry; now apply mem_keys_false).
    cbn [negb]. rewrite <- app_assoc. f_equal. cbn [app]. f_equal.
    rewrite filter_filter. apply filter_ext. intros y.
    rewrite existsb_app. cbn [existsb]. rewrite orb_false_r.
    destruct (String.eqb y i); cbn [negb andb];
      destruct (existsb (String.eqb y) (map fst d)); reflexivity.
Qed.

Lemma first_seen_In x l : In x (DetectorSpec.first_seen l) <-> In x l.
Proof.
  induction l as [|a l IH]; simpl; [tauto|].
  rewrite filter_In, IH.
  destruct (String.eqb_spec x a) as [->|Hne]; cbn [negb].
  - split; auto.
  - split; [intros [H|[H _]]; auto | intros [H|H]; auto].
Qed.

Lemma NoDup_filter_keep {A} (p : A -> bool) l : NoDup l -> NoDup (filter p l).
Proof.
  induction 1 as [|x l Hx Hnd IH]; simpl; [constructor|].
  destruct (p x); [|exact IH]. constructor; [|exact IH].
  rewrite filter_In. tauto.
Qed.

Lemma first_seen_NoDup l : NoDup (DetectorSpec.first_seen l).
Proof.
  induction l as [|a l IH]; simpl; constructor.
  - rewrite filter_In. intros [_ H]. now rewrite String.eqb_refl in H.
  - now apply NoDup_filter_keep.
Qed.

(** X2: the detector's dictionary lists each test once, in the order in
    which the tests first appeared over all runs, and files each aggregate
    under its own [test_id]. *)
Theorem X2_dictionary_keys :
  forall reports,
    let ids := map Detector.r_test_id (concat reports) in
    map fst (Detector.run_detection reports) = DetectorSpec.first_seen ids
    /\ NoDup (map fst (Detector.run_detection reports))
    /\ (forall k, PyDict.contains k (Detector.run_detection reports) = true
                  <-> In k ids)
    /\ (forall k t, In (k, t) (Detector.run_detection reports) ->
                    Detector.test_id t = k).
Proof.
  intros reports ids. subst ids.
  assert (Hk : map fst (Detector.run_detection reports)
               = DetectorSpec.first_seen
                   (map Detector.r_test_id (concat reports))).
  { rewrite run_detection_concat, keys_process_results. simpl.
    induction (DetectorSpec.first_seen _) as [|x l IH]; simpl; congruence. }
  split; [exact Hk|]. split; [rewrite Hk; apply first_seen_NoDup|].
  split.
  - intros k. now rewrite contains_keys, Hk, first_seen_In.
  - intros k t Hin.
    assert (Hnd : NoDup (map fst (Detector.run_detection reports)))
      by (rewrite Hk; apply first_seen_NoDup).
    assert (Hget : PyDict.get k (Detector.run_detection reports) = Some t).
    { revert Hnd Hin. generalize (Detector.run_detection reports) as d.
      induction d as [|[k0 v0] d IH]; simpl; [tauto|].
      intros Hnd Hin. apply NoDup_cons_iff in Hnd. destruct Hnd as [Hn Hnd].
      destruct Hin as [E|Hin].
      - injection E as -> ->. now rewrite String.eqb_refl.
      - destruct (String.eqb_spec k0 k) as [->|Hne]; [|now apply IH].
        exfalso. apply Hn. apply in_map_iff. now exists (k, t). }
    now apply run_detection_aggregate in Hget.
Qed.

(* ------------------------------------------------------------------ *)
(** ** What one recorded result changes *)

Lemma split_colons_aux_nonempty s : forall cur,
  PyStr.split_colons_aux cur s <> [].
Proof.
  induction s as [|a s IH]; intros cur; simpl; [discriminate|].
  destruct a as [[] [] [] [] [] [] [] []]; try apply IH;
    destruct s; try apply IH; try discriminate.
  destruct a as [[] [] [] [] [] [] [] []]; try apply IH; discriminate.
Qed.

(** The aggregate a first result for [id] starts from. *)
Lemma record_result_get d r k :
  let id := Detector.r_test_id r in
  let parts := PyStr.split_colons id in
  let base :=
    match PyDict.get id d with
    | Some t => t
    | None => Detector.new_FlakyTest id (hd "unknown" parts)
                                     (last parts "unknown")
    end in
  PyDict.get k (Detector.record_result d r)
  = if String.eqb id k then Some (Detector.update_test_data base r)
    else PyDict.get k d.
Proof.
  intros id parts base. unfold Detector.record_result. cbv zeta.
  fold id. fold parts.
  assert (Hp : parts <> []) by apply split_colons_aux_nonempty.
  replace (match parts with [] => "unknown" | p :: _ => p end)
    with (hd "unknown" parts) by now destruct parts.
  replace (match parts with [] => "unknown" | _ :: _ => last parts "unknown" end)
    with (last parts "unknown") by now destruct parts.
  unfold PyDict.contains. subst base.
  destruct (PyDict.get id d) as [t|] eqn:Eg; cbn [negb].
  - rewrite Eg. destruct (String.eqb_spec id k) as [->|Hne].
    + apply get_set_same.
    + now apply get_set_other.
  - rewrite get_set_same. destruct (String.eqb_spec id k) as [->|Hne].
    + apply get_set_same.
    + rewrite !get_set_other by assumption. reflexivity.
Qed.

Lemma update_test_data_more ft r :
  let o := Detector.r_outcome r in
  let ft' := Detector.update_test_data ft r in
  Detector.test_file ft' = Detector.test_file ft
  /\ Detector.test_function ft' = Detector.test_function ft
  /\ Detector.error_messages ft'
     = (Detector.error_messages ft
        ++ (if String.eqb o "failed" || String.eqb o "error"
            then [Detector.r_error_message r] else []))%list.
Proof.
  unfold Detector.update_test_data. cbv zeta.
  destruct (String.eqb_spec (Detector.r_outcome r) "passed") as [E|];
    [rewrite E; cbn; now rewrite app_nil_r|].
  destruct (String.eqb_spec (Detector.r_outcome r) "failed") as [E|];
    [cbn; auto|].
  destruct (String.eqb_spec (Detector.r_outcome r) "error") as [E|];
    [cbn; auto|].
  destruct (String.eqb_spec (Detector.r_outcome r) "skipped") as [E|];
    cbn; now rewrite app_nil_r.
Qed.

Lemma messages_of_nil k seen :
  Spec.outcomes_of k seen = [] -> DetectorSpec.messages_of k seen = [].
Proof.
  unfold Spec.outcomes_of, DetectorSpec.messages_of.
  induction seen as [|r seen IH]; simpl; [reflexivity|].
  destruct (String.eqb (Detector.r_test_id r) k); simpl;
    [discriminate | exact IH].
Qed.

(** Beside the outcomes, each aggregate keeps the file and function parts of
    its identifier and the error texts of its failures. *)
Lemma record_result_details d seen r :
  Spec.tracks d seen -> DetectorSpec.details d seen ->
  DetectorSpec.details (Detector.record_result d r) (seen ++ [r]).
Proof.
  intros Htr Hd k t. rewrite record_result_get. cbv zeta.
  unfold DetectorSpec.messages_of. rewrite filter_app, map_app.
  cbn [filter]. destruct (String.eqb_spec (Detector.r_test_id r) k) as [E|Hne].
  - intros H. injection H as <-.
    match goal with |- context [Detector.update_test_data ?b r] =>
      destruct (update_test_data_more b r) as (Hf & Hg & Hm) end.
    rewrite Hf, Hg, Hm. cbn [andb]. specialize (Htr k). rewrite E in *.
    destruct (PyDict.get k d) as [t0|] eqn:Eg.
    + destruct (Hd k t0 Eg) as (H1 & H2 & H3).
      rewrite H1, H2, H3. repeat split.
      unfold DetectorSpec.messages_of. f_equal.
      now destruct (_ || _)%bool.
    + cbn [Detector.test_file Detector.test_function Detector.error_messages
           Detector.new_FlakyTest].
      apply messages_of_nil in Htr. unfold DetectorSpec.messages_of in Htr.
      rewrite Htr. repeat split. cbn [app]. now destruct (_ || _)%bool.
  - intros H. destruct (Hd k t H) as (H1 & H2 & H3).
    cbn [andb map]. rewrite app_nil_r. auto.
Qed.

Lemma process_results_details rs : forall d seen,
  Spec.tracks d seen -> DetectorSpec.details d seen ->
  DetectorSpec.details (Detector._process_results d rs) (seen ++ rs).
Proof.
  unfold Detector._process_results.
  induction rs as [|r rs IH]; intros d seen Htr Hd; simpl.
  - now rewrite app_nil_r.
  - change (r :: rs) with ([r] ++ rs)%list. rewrite app_assoc.
    apply IH; [now apply record_result_tracks | now apply record_result_details].
Qed.

Lemma run_detection_details reports :
  DetectorSpec.details (Detector.run_detection reports) (concat reports).
Proof.
  rewrite run_detection_concat.
  apply (process_results_details (concat reports) PyDict.empty []).
  - apply tracks_empty.
  - intros k t H. discriminate H.
Qed.

Lemma outcomes_of_app k a b :
  Spec.outcomes_of k (a ++ b)
  = (Spec.outcomes_of k a ++ Spec.outcomes_of k b)%list.
Proof. unfold Spec.outcomes_of. now rewrite filter_app, map_app. Qed.

Lemma messages_of_app k a b :
  DetectorSpec.messages_of k (a ++ b)
  = (DetectorSpec.messages_of k a ++ DetectorSpec.messages_of k b)%list.
Proof. unfold DetectorSpec.messages_of. now rewrite filter_app, map_app. Qed.

(** X3: history is append-only.  Whatever runs follow, the aggregate of a
    test keeps its outcomes and error texts as a prefix of the later ones, no
    counter decreases, and its file and function names stay. *)
Theorem X3_history_append_only reports more k t :
  PyDict.get k (Detector.run_detection reports) = Some t ->
  exists t',
    PyDict.get k (Detector.run_detection (reports ++ more)) = Some t'
    /\ Detector.outcomes t'
       = (Detector.outcomes t ++ Spec.outcomes_of k (concat more))%list
    /\ Detector.error_messages t'
       = (Detector.error_messages t
          ++ DetectorSpec.messages_of k (concat more))%list
    /\ Detector.pass_count t <= Detector.pass_count t'
    /\ Detector.fail_count t <= Detector.fail_count t'
    /\ Detector.error_count t <= Detector.error_count t'
    /\ Detector.skip_count t <= Detector.skip_count t'
    /\ Detector.test_file t' = Detector.test_file t
    /\ Detector.test_function t' = Detector.test_function t.
Proof.
  intros H.
  pose proof (run_detection_details reports k t H) as (Hf & Hg & Hm).
  apply run_detection_aggregate in H.
  destruct H as (Ho & Hne & _ & (Hp & Hfc & He & Hs)).
  pose proof (run_detection_tracks (reports ++ more) k) as Ht'.
  destruct (PyDict.get k (Detector.run_detection (reports ++ more)))
    as [t'|] eqn:Eg.
  - exists t'. split; [reflexivity|].
    pose proof (run_detection_details (reports ++ more) k t' Eg)
      as (Hf' & Hg' & Hm').
    destruct Ht' as (Ho' & _ & _ & (Hp' & Hfc' & He' & Hs')).
    rewrite concat_app in Ho', Hm'.
    rewrite outcomes_of_app, <- Ho in Ho'.
    rewrite messages_of_app, <- Hm in Hm'.
    rewrite Hp, Hfc, He, Hs, Hp', Hfc', He', Hs', Ho', !occurrences_app.
    pose proof (occurrences_nonneg "passed" (Spec.outcomes_of k (concat more))).
    pose proof (occurrences_nonneg "failed" (Spec.outcomes_of k (concat more))).
    pose proof (occurrences_nonneg "error" (Spec.outcomes_of k (concat more))).
    pose proof (occurrences_nonneg "skipped" (Spec.outcomes_of k (concat more))).
    repeat split; try lia; congruence.
  - exfalso. rewrite concat_app, outcomes_of_app, <- Ho in Ht'.
    apply app_eq_nil in Ht'. now destruct Ht'.
Qed.

Lemma X3_history_append_only_witness :
  exists t',
    Samples.local_aggregate ["passed"; "failed"; "error"] = Some t'
    /\ Detector.outcomes t' = ["passed"; "failed"; "error"]
    /\ Detector.error_messages t' = [""; ""].
Proof.
  destruct (X3_history_append_only
              (Samples.runs_of ["passed"; "failed"])
              (Samples.runs_of ["error"])
              Samples.sample_id _ eq_refl) as (t' & Hg & Ho & Hm & _).
  exists t'. split; [exact Hg|]. split; [exact Ho | exact Hm].
Defined.

Lemma messages_of_length k rs :
  Z.of_nat (length (DetectorSpec.messages_of k rs))
  = Spec.occurrences "failed" (Spec.outcomes_of k rs)
    + Spec.occurrences "error" (Spec.outcomes_of k rs).
Proof.
  induction rs as [|r rs IH]; [reflexivity|].
  change (r :: rs) with ([r] ++ rs)%list.
  rewrite messages_of_app, outcomes_of_app, length_app, Nat2Z.inj_add,
    !occurrences_app, IH.
  unfold DetectorSpec.messages_of, Spec.outcomes_of. cbn [filter].
  destruct (String.eqb (Detector.r_test_id r) k); cbn [andb map length];
    [|unfold Spec.occurrences; cbn; lia].
  rewrite !occurrences_single.
  destruct (String.eqb_spec (Detector.r_outcome r) "failed") as [E|];
    destruct (String.eqb_spec (Detector.r_outcome r) "error") as [E'|];
    cbn [orb map length]; try lia.
  rewrite E in E'. discriminate.
Qed.

(** X4: an aggregate holds one error text per [failed] or [error] outcome:
    [len(error_messages) == fail_count + error_count], the texts being those
    of these results in run order. *)
Theorem X4_error_messages reports k t :
  PyDict.get k (Detector.run_detection reports) = Some t ->
  Detector.error_messages t = DetectorSpec.messages_of k (concat reports)
  /\ Z.of_nat (length (Detector.error_messages t))
     = Detector.fail_count t + Detector.error_count t.
Proof.
  intros H.
  pose proof (run_detection_details reports k t H) as (_ & _ & Hm).
  apply run_detection_aggregate in H.
  destruct H as (Ho & _ & _ & (_ & Hf & He & _)).
  split; [exact Hm|].
  now rewrite Hm, Hf, He, Ho, messages_of_length.
Qed.

Lemma X4_error_messages_witness :
  exists t,
    Samples.local_aggregate ["failed"; "passed"; "error"; "skipped"] = Some t
    /\ Z.of_nat (length (Detector.error_messages t))
       = Detector.fail_count t + Detector.error_count t.
Proof.
  eexists. split; [reflexivity|].
  refine (proj2 (X4_error_messages
            (Samples.runs_of ["failed"; "passed"; "error"; "skipped"])
            Samples.sample_id _ _)).
  reflexivity.
Defined.

(* ------------------------------------------------------------------ *)
(** ** Splitting a test identifier *)

Lemma string_app_assoc (a b c : string) : ((a ++ b) ++ c = a ++ (b ++ c))%string.
Proof. induction a as [|x a IH]; simpl; [reflexivity | now rewrite IH]. Qed.

Lemma string_app_nil_r (a : string) : (a ++ "")%string = a.
Proof. induction a as [|x a IH]; simpl; [reflexivity | now rewrite IH]. Qed.

Lemma split_colons_aux_char a rest cur :
  Ascii.eqb a ":"%char = false ->
  PyStr.split_colons_aux cur (String a rest)
  = PyStr.split_colons_aux (cur ++ String a EmptyString) rest.
Proof.
  intros H.
  destruct a as [[] [] [] [] [] [] [] []]; try reflexivity; discriminate H.
Qed.

Lemma split_colons_aux_segment seg : forall cur rest,
  DetectorSpec.no_colon seg ->
  PyStr.split_colons_aux cur (seg ++ rest)
  = PyStr.split_colons_aux (cur ++ seg) rest.
Proof.
  unfold DetectorSpec.no_colon.
  induction seg as [|a seg IH]; intros cur rest H.
  - now rewrite string_app_nil_r.
  - cbn [PyStr.contains_char] in H.
    destruct (Ascii.eqb a ":"%char) eqn:Ea; [discriminate|].
    cbn [append]. rewrite split_colons_aux_char by assumption.
    rewrite IH by assumption. now rewrite string_app_assoc.
Qed.

(** [split("::")] undoes ["::".join] on segments free of colons. *)
Lemma split_colons_join segs :
  segs <> [] -> Forall DetectorSpec.no_colon segs ->
  PyStr.split_colons (DetectorSpec.join_colons segs) = segs.
Proof.
  unfold PyStr.split_colons. intros Hne Hall.
  induction Hall as [|s rest Hs Hall IH]; [congruence|].
  destruct rest as [|s' rest].
  - cbn [DetectorSpec.join_colons].
    rewrite <- (string_app_nil_r s) at 1.
    now rewrite split_colons_aux_segment.
  - change (DetectorSpec.join_colons (s :: s' :: rest))
      with (s ++ "::" ++ DetectorSpec.join_colons (s' :: rest))%string.
    rewrite split_colons_aux_segment by assumption.
    cbn [append PyStr.split_colons_aux]. f_equal.
    apply IH. discriminate.
Qed.

(** X5: for an identifier made of colon-free segments joined by ["::"]
    (file, optional classes, function), the aggregate's [test_file] is the
    first segment and its [test_function] the last. *)
Theorem X5_file_and_function reports segs t :
  segs <> [] -> Forall DetectorSpec.no_colon segs ->
  PyDict.get (DetectorSpec.join_colons segs) (Detector.run_detection reports)
  = Some t ->
  PyStr.split_colons (DetectorSpec.join_colons segs) = segs
  /\ Detector.test_file t = hd "unknown" segs
  /\ Detector.test_function t = last segs "unknown".
Proof.
  intros Hne Hall H.
  pose proof (run_detection_details reports _ t H) as (Hf & Hg & _).
  rewrite (split_colons_join segs Hne Hall) in Hf, Hg.
  now rewrite (split_colons_join segs Hne Hall).
Qed.

Lemma X5_file_and_function_witness :
  exists t,
    PyDict.get "tests/test_app.py::TestApi::test_bad"
      (Detector.run_detection_on [Some DetectorSpec.sample_report]) = Some t
    /\ Detector.test_file t = "tests/test_app.py"
    /\ Detector.test_function t = "test_bad".
Proof.
  eexists. split; [reflexivity|].
  refine (proj2 (X5_file_and_function
            (map Detector._execute_single_run [Some DetectorSpec.sample_report])
            ["tests/test_app.py"; "TestApi"; "test_bad"] _ _ _ _)).
  - discriminate.
  - repeat constructor.
  - reflexivity.
Defined.

(* ------------------------------------------------------------------ *)
(** ** The two queries of the detector *)

Lemma filter_partition_perm {A} (p : A -> bool) l :
  Permutation (filter p l ++ filter (fun x => negb (p x)) l) l.
Proof.
  induction l as [|x l IH]; simpl; [reflexivity|].
  destruct (p x); simpl.
  - now constructor.
  - rewrite <- Permutation_middle. now constructor.
Qed.

(** X6: [get_flaky_tests] and [get_stable_tests] split the aggregates: each
    aggregate is returned by exactly one of them, the stable ones in
    dictionary order. *)
Theorem X6_flaky_stable_partition :
  forall results,
    Permutation (Detector.get_flaky_tests results
                 ++ Detector.get_stable_tests results)
                (PyDict.values results)
    /\ (forall t, In t (Detector.get_flaky_tests results) <->
                  In t (PyDict.values results)
                  /\ Detector.is_flaky t = true)
    /\ (forall t, In t (Detector.get_stable_tests results) <->
                  In t (PyDict.values results)
                  /\ Detector.is_flaky t = false)
    /\ (length (Detector.get_flaky_tests results)
        + length (Detector.get_stable_tests results)
        = length results)%nat.
Proof.
  intros results.
  assert (Hperm : Permutation (Detector.get_flaky_tests results
                               ++ Detector.get_stable_tests results)
                              (PyDict.values results)).
  { unfold Detector.get_flaky_tests, Detector.get_stable_tests.
    cbv zeta. unfold PySort.sort_by_float_key_reverse.
    rewrite stable_sort_perm. apply filter_partition_perm. }
  split; [exact Hperm|]. split; [|split].
  - intros t. unfold Detector.get_flaky_tests. cbv zeta.
    unfold PySort.sort_by_float_key_reverse.
    now rewrite stable_sort_In, filter_In.
  - intros t. unfold Detector.get_stable_tests.
    now rewrite filter_In, negb_true_iff.
  - apply Permutation_length in Hperm. rewrite length_app in Hperm.
    unfold PyDict.values in Hperm. now rewrite length_map in Hperm.
Qed.

(** X7: [get_flaky_tests] returns the flaky aggregates in descending order
    of [flakiness_score]; aggregates with equal scores keep their dictionary
    order. *)
Theorem X7_local_flaky_sorted :
  forall results,
    StronglySorted
      (fun a b => (Detector.flakiness_score b <= Detector.flakiness_score a)%Q)
      (Detector.get_flaky_tests results)
    /\ forall q,
        let tie t := Qeq_bool (Detector.flakiness_score t) q in
        filter tie (Detector.get_flaky_tests results)
        = filter tie (filter Detector.is_flaky (PyDict.values results)).
Proof.
  intros results. unfold Detector.get_flaky_tests. cbv zeta. split.
  - apply (sort_by_float_key_reverse_sorted Detector.flakiness_score).
  - intros q. apply stable_sort_filter. intros x y _ _ Hx Hy.
    apply Qeq_bool_iff in Hx, Hy. apply Qle_bool_iff.
    rewrite Hx, Hy. apply Qle_refl.
Qed.

(* ------------------------------------------------------------------ *)
(** ** Tags and scores the code can and cannot produce *)

(** X8: [failure_pattern] only ever returns [stable], [initially_failing]
    or [initially_passing]: whenever the rules are reached the pattern string
    holds both letters, so [rarely_failing], [rarely_passing] and
    [intermittent] are never returned. *)
Theorem X8_failure_pattern_range :
  forall t,
    (Detector.failure_pattern t = "stable"
     \/ Detector.failure_pattern t = "initially_failing"
     \/ Detector.failure_pattern t = "initially_passing")
    /\ Detector.failure_pattern t <> "rarely_failing"
    /\ Detector.failure_pattern t <> "rarely_passing"
    /\ Detector.failure_pattern t <> "intermittent".
Proof.
  intros t.
  assert (H : Detector.failure_pattern t = "stable"
              \/ Detector.failure_pattern t = "initially_failing"
              \/ Detector.failure_pattern t = "initially_passing").
  { destruct (Detector.is_flaky t) eqn:Ef.
    - right. now apply failure_pattern_flaky_tags.
    - left. unfold Detector.failure_pattern. now rewrite Ef. }
  split; [exact H|].
  repeat split; intros E; rewrite E in H;
    destruct H as [H|[H|H]]; discriminate H.
Qed.

Lemma score_formula_zero_iff p f T :
  0 < T -> 0 <= p -> 0 <= f ->
  ((Qmin (inject_Z p / inject_Z T) (inject_Z f / inject_Z T) * 2 == 0)%Q
   <-> p = 0 \/ f = 0).
Proof.
  intros HT Hp Hf.
  destruct (score_formula_cases p f T HT) as [[H E]|[H E]]; rewrite E;
    destruct T as [|n|n]; try lia; rewrite <- Qmake_Qdiv;
    unfold Qeq; cbn [Qnum Qden]; lia.
Qed.

(** X9: for an aggregate the detector holds, the score is 0 exactly when
    [pass_count] or [fail_count] is 0; a positive score implies [is_flaky],
    but not conversely: a test that passes and otherwise only errors is
    flaky with score 0. *)
Theorem X9_score_zero reports k t :
  PyDict.get k (Detector.run_detection reports) = Some t ->
  ((Detector.flakiness_score t == 0)%Q
   <-> Detector.pass_count t = 0 \/ Detector.fail_count t = 0)
  /\ ((0 < Detector.flakiness_score t)%Q -> Detector.is_flaky t = true)
  /\ (Detector.is_flaky t = true -> Detector.fail_count t = 0 ->
      (Detector.flakiness_score t == 0)%Q /\ 0 < Detector.error_count t).
Proof.
  intros H. apply run_detection_aggregate in H.
  destruct H as (_ & Hne & _ & Hc).
  pose proof (total_pos t Hne) as HT.
  pose proof (counted_bounds t Hc) as (Hp & Hf & He & Hs & Hsum).
  assert (Hz : (Detector.flakiness_score t == 0)%Q
               <-> Detector.pass_count t = 0 \/ Detector.fail_count t = 0).
  { rewrite (flakiness_score_unfold t HT).
    now apply score_formula_zero_iff. }
  assert (Hfl : Detector.is_flaky t = true <->
                0 < Detector.pass_count t
                /\ (0 < Detector.fail_count t \/ 0 < Detector.error_count t)).
  { destruct Hc as (Ep & Ef & Ee & _).
    rewrite is_flaky_iff, Ep, Ef, Ee, !occurrences_pos_In. reflexivity. }
  split; [exact Hz|]. split.
  - intros Hpos. apply Hfl.
    assert (Hnz : ~ (Detector.flakiness_score t == 0)%Q).
    { intros E. rewrite E in Hpos. now apply Qlt_irrefl in Hpos. }
    rewrite Hz in Hnz. lia.
  - intros Hflaky H0. apply Hfl in Hflaky. split; [apply Hz; auto | lia].
Qed.

Lemma X9_score_zero_witness :
  exists t,
    Samples.local_aggregate ["passed"; "error"; "passed"; "error"] = Some t
    /\ Detector.is_flaky t = true
    /\ (Detector.flakiness_score t == 0)%Q.
Proof.
  eexists. split; [reflexivity|]. split; [reflexivity|].
  refine (proj1 (proj2 (proj2 (X9_score_zero
            (Samples.runs_of ["passed"; "error"; "passed"; "error"])
            Samples.sample_id _ eq_refl)) eq_refl eq_refl)).
Defined.

(* ------------------------------------------------------------------ *)
(** ** Decoding a report *)

Lemma substring_prefix_length m : forall s,
  String.length (String.substring 0 m s) = Nat.min m (String.length s).
Proof.
  induction m as [|m IH]; intros s.
  - destruct s; reflexivity.
  - destruct s as [|a s]; [reflexivity|]. simpl. now rewrite IH.
Qed.

Lemma substring_prefix_is_prefix m : forall s,
  String.prefix (String.substring 0 m s) s = true.
Proof.
  induction m as [|m IH]; intros s.
  - destruct s; reflexivity.
  - destruct s as [|a s]; [reflexivity|]. simpl.
    destruct (ascii_dec a a); [apply IH | congruence].
Qed.

Lemma substring_prefix_short m s :
  (String.length s <= m)%nat -> String.substring 0 m s = s.
Proof.
  revert s. induction m as [|m IH]; intros s H.
  - destruct s; [reflexivity | simpl in H; lia].
  - destruct s as [|a s]; [reflexivity|]. simpl in *. f_equal. apply IH. lia.
Qed.

Lemma extract_message_bound report :
  Forall (fun r => (String.length (Detector.r_error_message r) <= 200)%nat
                   /\ (Detector.r_outcome r <> "failed" ->
                       Detector.r_outcome r <> "error" ->
                       Detector.r_error_message r = EmptyString))
         (Detector.extract_test_results report).
Proof.
  unfold Detector.extract_test_results.
  apply Forall_forall. intros r Hr. apply in_map_iff in Hr.
  destruct Hr as (test & <- & _).
  cbn [Detector.r_error_message Detector.r_outcome existsb].
  assert (Hcut : (String.length (Detector.longrepr_prefix test) <= 200)%nat).
  { unfold Detector.longrepr_prefix. cbv zeta.
    rewrite substring_prefix_length. apply Nat.le_min_l. }
  destruct (String.eqb_spec (Detector.outcome test) "failed") as [E|E];
    cbn [orb].
  - split; [exact Hcut | intros H; now destruct H].
  - destruct (String.eqb_spec (Detector.outcome test) "error") as [E'|E'];
      cbn [orb].
    + split; [exact Hcut | intros _ H; now destruct H].
    + split; [cbn; lia | reflexivity].
Qed.

(** X10: decoding a report keeps the entries in order with their identifier
    and outcome; the error text of a [failed] or [error] entry is its
    [call.longrepr] cut to at most 200 characters (whole if shorter, empty if
    absent), and every other entry has the empty error text. *)
Theorem X10_decoded_results :
  forall report,
    let ts := match Detector.tests report with Some ts => ts | None => [] end in
    let rs := Detector._execute_single_run (Some report) in
    map Detector.r_test_id rs = map Detector.nodeid ts
    /\ map Detector.r_outcome rs = map Detector.outcome ts
    /\ Forall (fun r => (String.length (Detector.r_error_message r) <= 200)%nat
                        /\ (Detector.r_outcome r <> "failed" ->
                            Detector.r_outcome r <> "error" ->
                            Detector.r_error_message r = EmptyString)) rs
    /\ Forall2 (fun test r =>
                  forall text,
                    Detector.call test
                    = Some (Detector.mkReportCall (Some text)) ->
                    Detector.outcome test = "failed"
                    \/ Detector.outcome test = "error" ->
                    String.prefix (Detector.r_error_message r) text = true
                    /\ ((String.length text <= 200)%nat ->
                        Detector.r_error_message r = text)) ts rs.
Proof.
  intros report ts rs. subst rs. unfold Detector._execute_single_run.
  split; [|split; [|split]];
    try apply (extract_message_bound report);
    unfold Detector.extract_test_results; fold ts; clearbody ts.
  - rewrite map_map. reflexivity.
  - rewrite map_map. reflexivity.
  - induction ts as [|test ts IH]; constructor; [|exact IH].
    intros text Hc Ho. cbn [Detector.r_error_message].
    replace (existsb (String.eqb (Detector.outcome test)) ["failed"; "error"])
      with true.
    + unfold Detector.longrepr_prefix. rewrite Hc. cbn [Detector.longrepr].
      split; [apply substring_prefix_is_prefix | apply substring_prefix_short].
    + symmetry. apply mem_string_iff. simpl. destruct Ho; auto.
Qed.

(** X11: however long the failure texts in the reports, every error text
    stored in an aggregate has at most 200 characters, and a missing or
    malformed report file yields no results at all. *)
Theorem X11_stored_messages_bounded :
  Detector._execute_single_run None = []
  /\ forall report_files k t,
      PyDict.get k (Detector.run_detection_on report_files) = Some t ->
      Forall (fun m => (String.length m <= 200)%nat)
             (Detector.error_messages t).
Proof.
  split; [reflexivity|].
  intros files k t H. unfold Detector.run_detection_on in H.
  apply run_detection_details in H. destruct H as (_ & _ & H). rewrite H.
  unfold DetectorSpec.messages_of. apply Forall_forall. intros m Hm.
  apply in_map_iff in Hm. destruct Hm as (r & <- & Hr).
  apply filter_In in Hr. destruct Hr as [Hr _].
  apply in_concat in Hr. destruct Hr as (rs & Hrs & Hr).
  apply in_map_iff in Hrs. destruct Hrs as ([report|] & <- & _);
    [|destruct Hr].
  pose proof (extract_message_bound report) as Hall.
  rewrite Forall_forall in Hall. now apply Hall.
Qed.

Lemma X11_stored_messages_bounded_witness :
  exists t,
    PyDict.get "tests/test_app.py::TestApi::test_bad"
      (Detector.run_detection_on
         [Some DetectorSpec.sample_report; None;
          Some DetectorSpec.sample_report]) = Some t
    /\ Forall (fun m => (String.length m <= 200)%nat)
              (Detector.error_messages t)
    /\ map String.length (Detector.error_messages t) = [200; 200]%nat
    /\ String.length DetectorSpec.long_text = 320%nat.
Proof.
  eexists. split; [vm_compute; reflexivity|].
  split; [|split; vm_compute; reflexivity].
  refine (proj2 X11_stored_messages_bounded
            [Some DetectorSpec.sample_report; None;
             Some DetectorSpec.sample_report]
            "tests/test_app.py::TestApi::test_bad" _ _).
  vm_compute. reflexivity.
Defined.

(* ------------------------------------------------------------------ *)
(** ** Parsing CI logs *)

Lemma split_lines_aux_app a b : forall cur,
  PyStr.split_lines_aux cur (a ++ String (ascii_of_nat 10) b)
  = (PyStr.split_lines_aux cur a ++ PyStr.split_lines b)%list.
Proof.
  unfold PyStr.split_lines.
  induction a as [|c a IH]; intros cur.
  - reflexivity.
  - cbn [append PyStr.split_lines_aux].
    destruct (Ascii.eqb c (ascii_of_nat 10)).
    + cbn [app]. now rewrite IH.
    + apply IH.
Qed.

(** X12: logs are parsed line by line: the entries of two logs joined by a
    newline are the entries of the first followed by those of the second. *)
Theorem X12_parse_concatenation :
  forall logs1 logs2,
    CIAnalyzer.parse_pytest_output
      (logs1 ++ String (ascii_of_nat 10) logs2)
    = (CIAnalyzer.parse_pytest_output logs1
       ++ CIAnalyzer.parse_pytest_output logs2)%list.
Proof.
  intros logs1 logs2. unfold CIAnalyzer.parse_pytest_output, PyStr.split_lines.
  rewrite split_lines_aux_app. apply flat_map_app.
Qed.

Lemma lower_char_idem a :
  CIAnalyzer.lower_char (CIAnalyzer.lower_char a) = CIAnalyzer.lower_char a.
Proof. destruct a as [[] [] [] [] [] [] [] []]; reflexivity. Qed.

Lemma lower_idem s : CIAnalyzer.lower (CIAnalyzer.lower s) = CIAnalyzer.lower s.
Proof.
  induction s as [|a s IH]; simpl; [reflexivity|].
  now rewrite lower_char_idem, IH.
Qed.

Lemma isspace_lower_char a :
  PyStr.isspace (CIAnalyzer.lower_char a) = PyStr.isspace a.
Proof. destruct a as [[] [] [] [] [] [] [] []]; reflexivity. Qed.

Lemma no_space_lower s :
  CIParseSpec.no_space (CIAnalyzer.lower s) = CIParseSpec.no_space s.
Proof.
  induction s as [|a s IH]; simpl; [reflexivity|].
  now rewrite isspace_lower_char, IH.
Qed.

Lemma no_space_app a b :
  CIParseSpec.no_space (a ++ b)
  = CIParseSpec.no_space a && CIParseSpec.no_space b.
Proof.
  induction a as [|x a IH]; simpl; [reflexivity|].
  now rewrite IH, andb_assoc.
Qed.

Lemma split_ws_aux_tokens s : forall cur,
  CIParseSpec.no_space cur = true ->
  Forall CIParseSpec.token (CIAnalyzer.split_ws_aux cur s).
Proof.
  induction s as [|a s IH]; intros cur Hc; cbn [CIAnalyzer.split_ws_aux].
  - destruct cur; constructor; [|constructor]. split; [discriminate | exact Hc].
  - destruct (PyStr.isspace a) eqn:Ea.
    + destruct cur; [now apply IH|].
      constructor; [split; [discriminate | exact Hc] | now apply IH].
    + apply IH. rewrite no_space_app, Hc. simpl. now rewrite Ea.
Qed.

(** X13: every entry parsed from a log is well formed: its [test_id] is a
    whitespace-free token containing ["::"], its [test_name] is the last
    ["::"]-segment of the [test_id], and its [status] is a non-empty,
    whitespace-free, lower-case token. *)
Theorem X13_parsed_entries_well_formed :
  forall logs,
    Forall (fun d =>
              CIParseSpec.token (CIAnalyzer.d_test_id d)
              /\ CIAnalyzer.str_in "::" (CIAnalyzer.d_test_id d) = true
              /\ CIAnalyzer.d_test_name d
                 = last (PyStr.split_colons (CIAnalyzer.d_test_id d))
                        (CIAnalyzer.d_test_id d)
              /\ CIParseSpec.token (CIAnalyzer.d_status d)
              /\ CIAnalyzer.lower (CIAnalyzer.d_status d)
                 = CIAnalyzer.d_status d)
           (CIAnalyzer.parse_pytest_output logs).
Proof.
  intros logs. apply Forall_forall. intros d Hd.
  unfold CIAnalyzer.parse_pytest_output in Hd. apply in_flat_map in Hd.
  destruct Hd as (line & _ & Hd). unfold CIAnalyzer.parse_line in Hd.
  destruct (_ && _)%bool; [|destruct Hd].
  pose proof (split_ws_aux_tokens line EmptyString eq_refl) as Htok.
  fold (CIAnalyzer.split_ws line) in Htok.
  destruct (CIAnalyzer.split_ws line) as [|test_id [|p1 rest]];
    try destruct Hd.
  apply Forall_cons_iff in Htok. destruct Htok as [Hid Htok].
  apply Forall_cons_iff in Htok. destruct Htok as [[Hp1 Hns] _].
  destruct (CIAnalyzer.str_in "::" test_id) eqn:Ein; [|destruct Hd].
  destruct Hd as [<-|[]]. cbn. destruct Hid as [Hid1 Hid2].
  repeat split; auto.
  - destruct p1; [congruence | discriminate].
  - now rewrite no_space_lower.
  - apply lower_idem.
Qed.











(* ------------------------------------------------------------------ *)
(** ** What the CI analyzers record *)

Section DictItems.
Context {V : Type}.
Implicit Types (d : PyDict.dict V) (k : string) (v : V).

Lemma set_set k v v0 d : PyDict.set k v (PyDict.set k v0 d) = PyDict.set k v d.
Proof.
  induction d as [|[k0 w] d IH]; simpl.
  - now rewrite String.eqb_refl.
  - destruct (String.eqb k0 k) eqn:E; simpl; rewrite E; [reflexivity|].
    now rewrite IH.
Qed.

Lemma set_items_In k v d kv :
  In kv (PyDict.set k v d) -> kv = (k, v) \/ In kv d.
Proof.
  induction d as [|[k0 w] d IH]; simpl.
  - intros [<-|[]]. now left.
  - destruct (String.eqb_spec k0 k) as [->|Hne]; simpl.
    + intros [<-|H]; auto.
    + intros [<-|H]; auto. destruct (IH H); auto.
Qed.

Lemma get_In_items k v d : PyDict.get k d = Some v -> In (k, v) d.
Proof.
  induction d as [|[k0 w] d IH]; simpl; [discriminate|].
  destruct (String.eqb_spec k0 k) as [->|Hne]; intros H.
  - left. congruence.
  - right. auto.
Qed.

End DictItems.

Lemma record_ci_test_eq prov d td :
  let name := CIAnalyzer.d_test_name td in
  let base := match PyDict.get name d with
              | Some c => c
              | None => CIAnalyzer.new_CIFlakyTest name
              end in
  CIAnalyzer.record_ci_test prov d td
  = PyDict.set name
      (CIAnalyzer.update_ci_test prov base name (CIAnalyzer.d_status td)) d.
Proof.
  intros name base. unfold CIAnalyzer.record_ci_test. cbv zeta. fold name.
  unfold PyDict.contains. subst base.
  destruct (PyDict.get name d) as [c|] eqn:Eg; cbn [negb].
  - now rewrite Eg.
  - now rewrite get_set_same, set_set.
Qed.

Lemma set_add_In x s b :
  In b (CIAnalyzer.set_add x s) <-> b = x \/ In b s.
Proof.
  unfold CIAnalyzer.set_add. destruct (existsb (String.eqb x) s) eqn:E.
  - apply mem_string_iff in E. split; [auto | intros [->|H]; auto].
  - rewrite in_app_iff. simpl. intuition.
Qed.

Lemma set_add_NoDup x s : NoDup s -> NoDup (CIAnalyzer.set_add x s).
Proof.
  intros H. unfold CIAnalyzer.set_add.
  destruct (existsb (String.eqb x) s) eqn:E; [exact H|].
  apply mem_keys_false in E.
  apply NoDup_app; auto.
  - repeat constructor. intros [].
  - intros a Ha [<-|[]]. auto.
Qed.

Lemma update_ci_test_fields prov c name status :
  let c' := CIAnalyzer.update_ci_test prov c name status in
  CIAnalyzer.test_name c' = CIAnalyzer.test_name c
  /\ CIAnalyzer.runs c'
     = (CIAnalyzer.runs c ++ [CIParseSpec.run_record prov name status])%list
  /\ CIAnalyzer.branches c'
     = CIAnalyzer.set_add (CIAnalyzer.p_branch prov) (CIAnalyzer.branches c).
Proof.
  unfold CIAnalyzer.update_ci_test. cbv zeta.
  destruct (String.eqb status "passed"); [cbn; auto|].
  destruct (existsb _ _); [cbn; auto|].
  destruct (String.eqb status "skipped"); cbn; auto.
Qed.

Section WellRecorded.
Variable P : CIAnalyzer.Provenance -> Prop.

Lemma update_well_recorded prov c name status :
  c = CIAnalyzer.new_CIFlakyTest name \/ CIParseSpec.well_recorded P name c ->
  P prov ->
  CIParseSpec.well_recorded P name
    (CIAnalyzer.update_ci_test prov c name status).
Proof.
  intros Hc HP.
  assert (H : CIAnalyzer.test_name c = name
              /\ Forall (fun r => exists prov,
                           P prov
                           /\ r = CIParseSpec.run_record prov name
                                    (CIAnalyzer.r_status r))
                        (CIAnalyzer.runs c)
              /\ NoDup (CIAnalyzer.branches c)
              /\ (forall b, In b (CIAnalyzer.branches c)
                            <-> In b (map CIAnalyzer.r_branch
                                          (CIAnalyzer.runs c)))
              /\ CISpec.counted c).
  { destruct Hc as [->|(H1 & H2 & H3 & H4 & H5 & _)]; [|tauto].
    cbn. repeat split; try constructor; auto; tauto. }
  destruct H as (H1 & H2 & H3 & H4 & H5).
  destruct (update_ci_test_fields prov c name status) as (F1 & F2 & F3).
  destruct (update_ci_test_counted prov c name status H5) as (Hcnt & _).
  unfold CIParseSpec.well_recorded. rewrite F1, F2, F3.
  split; [exact H1|]. split; [|split; [|split; [|split]]].
  - apply Forall_app. split; [exact H2|]. constructor; [|constructor].
    exists prov. split; [exact HP | reflexivity].
  - now apply set_add_NoDup.
  - intros b. rewrite set_add_In, map_app, in_app_iff, H4. simpl. intuition.
  - exact Hcnt.
  - intros E. now apply app_eq_nil in E.
Qed.

Lemma record_ci_test_well_recorded prov d td :
  P prov ->
  CIParseSpec.all_items (CIParseSpec.well_recorded P) d ->
  CIParseSpec.all_items (CIParseSpec.well_recorded P)
                        (CIAnalyzer.record_ci_test prov d td).
Proof.
  intros HP Hd. rewrite record_ci_test_eq. cbv zeta.
  unfold CIParseSpec.all_items in *. rewrite Forall_forall in *.
  intros kv Hkv. apply set_items_In in Hkv. destruct Hkv as [->|Hkv]; auto.
  cbn [fst snd]. apply update_well_recorded; [|exact HP].
  destruct (PyDict.get _ d) as [c|] eqn:Eg; [right | now left].
  apply get_In_items in Eg. apply (Hd _ Eg).
Qed.

Lemma record_ci_tests_well_recorded prov tests : forall d,
  P prov ->
  CIParseSpec.all_items (CIParseSpec.well_recorded P) d ->
  CIParseSpec.all_items (CIParseSpec.well_recorded P)
                        (fold_left (CIAnalyzer.record_ci_test prov) tests d).
Proof.
  induction tests as [|td tests IH]; intros d HP Hd; simpl; auto.
  apply IH; auto. now apply record_ci_test_well_recorded.
Qed.

End WellRecorded.

Lemma github_step_skip fetch_job_logs d run :
  CIParseSpec.has_logs fetch_job_logs run = false ->
  CIAnalyzer.github_step fetch_job_logs d run = d.
Proof.
  unfold CIParseSpec.has_logs, CIAnalyzer.github_step. cbv zeta.
  intros H. apply negb_false_iff in H. now rewrite H.
Qed.

Lemma github_fold_well_recorded fetch_job_logs P rs : forall d,
  (forall run, In run rs -> CIParseSpec.has_logs fetch_job_logs run = true ->
               P (CIParseSpec.github_provenance run)) ->
  CIParseSpec.all_items (CIParseSpec.well_recorded P) d ->
  CIParseSpec.all_items (CIParseSpec.well_recorded P)
    (fold_left (CIAnalyzer.github_step fetch_job_logs) rs d).
Proof.
  induction rs as [|run rs IH]; intros d HP Hd; simpl; auto.
  apply IH; [intros; apply HP; simpl; auto|].
  destruct (CIParseSpec.has_logs fetch_job_logs run) eqn:E.
  - unfold CIAnalyzer.github_step. cbv zeta.
    unfold CIParseSpec.has_logs in E. apply negb_true_iff in E. rewrite E.
    apply record_ci_tests_well_recorded; auto.
    apply (HP run); [now left|].
    unfold CIParseSpec.has_logs. now rewrite E.
  - now rewrite github_step_skip.
Qed.

Lemma github_analyze_well_recorded fetch_job_logs workflow_runs :
  CIParseSpec.all_items
    (CIParseSpec.well_recorded
       (fun prov => exists run,
            In run (firstn 20 workflow_runs)
            /\ CIParseSpec.has_logs fetch_job_logs run = true
            /\ prov = CIParseSpec.github_provenance run))
    (CIAnalyzer.github_analyze fetch_job_logs workflow_runs).
Proof.
  unfold CIAnalyzer.github_analyze. apply github_fold_well_recorded.
  - intros run Hin Hl. now exists run.
  - constructor.
Qed.

Lemma gitlab_analyze_well_recorded fetch_pipeline_jobs fetch_job_log pipelines :
  CIParseSpec.all_items
    (CIParseSpec.well_recorded (fun _ => True))
    (CIAnalyzer.gitlab_analyze fetch_pipeline_jobs fetch_job_log pipelines).
Proof.
  unfold CIAnalyzer.gitlab_analyze.
  generalize (firstn 20 pipelines) as ps.
  assert (H : forall ps d,
            CIParseSpec.all_items (CIParseSpec.well_recorded (fun _ => True)) d ->
            CIParseSpec.all_items (CIParseSpec.well_recorded (fun _ => True))
              (fold_left (CIAnalyzer.gitlab_step fetch_pipeline_jobs
                                                 fetch_job_log) ps d)).
  { induction ps as [|p ps IH]; intros d Hd; simpl; auto.
    apply IH. unfold CIAnalyzer.gitlab_step. cbv zeta.
    destruct (find _ _); auto.
    destruct (CIAnalyzer.no_logs _); auto.
    now apply record_ci_tests_well_recorded. }
  intros ps. apply H. constructor.
Qed.

(** X15: provenance.  Every run record in an aggregate of
    [GitHubActionsAnalyzer.analyze] carries the aggregate's test name and the
    id, number, commit, branch and timestamp of one of the first twenty
    workflow runs that had logs; the aggregate is filed under its own
    [test_name]. *)
Theorem X15_github_provenance fetch_job_logs workflow_runs n c :
  PyDict.get n (CIAnalyzer.github_analyze fetch_job_logs workflow_runs)
  = Some c ->
  CIAnalyzer.test_name c = n
  /\ Forall (fun r =>
               CIAnalyzer.r_test_name r = n
               /\ exists run,
                   In run (firstn 20 workflow_runs)
                   /\ CIAnalyzer.no_logs (fetch_job_logs (CIAnalyzer.id run))
                      = false
                   /\ CIAnalyzer.r_run_id r
                      = CIAnalyzer.py_str_int (CIAnalyzer.id run)
                   /\ CIAnalyzer.r_run_number r = CIAnalyzer.run_number run
                   /\ CIAnalyzer.r_commit_sha r = CIAnalyzer.head_sha run
                   /\ CIAnalyzer.r_branch r = CIAnalyzer.head_branch run
                   /\ CIAnalyzer.r_timestamp r
                      = CIAnalyzer.replace_Z (CIAnalyzer.created_at run))
            (CIAnalyzer.runs c).
Proof.
  intros H. apply get_In_items in H.
  pose proof (github_analyze_well_recorded fetch_job_logs workflow_runs) as Hall.
  unfold CIParseSpec.all_items in Hall. rewrite Forall_forall in Hall.
  destruct (Hall _ H) as (H1 & H2 & _). cbn [fst snd] in *.
  split; [exact H1|]. eapply Forall_impl; [|exact H2].
  intros r (prov & (run & Hin & Hl & ->) & Hr). rewrite Hr. cbn.
  split; [reflexivity|]. exists run.
  unfold CIParseSpec.has_logs in Hl. apply negb_true_iff in Hl.
  repeat split; auto.
Qed.

Lemma X15_github_provenance_witness :
  exists c,
    CISamples.ci_aggregate CISamples.log_mixed = Some c
    /\ CIAnalyzer.test_name c = "test_sample"
    /\ map CIAnalyzer.r_run_id (CIAnalyzer.runs c) = ["7001"; "7001"; "7001"].
Proof.
  eexists. split; [vm_compute; reflexivity|].
  split; [|vm_compute; reflexivity].
  refine (proj1 (X15_github_provenance (fun _ => Some CISamples.log_mixed)
                   CISamples.one_run "test_sample" _ _)).
  vm_compute. reflexivity.
Defined.

(** X16: in every aggregate of either CI analyzer, [total_runs] is the
    number of run records, and [branches] holds, each once, exactly the
    branches of these records. *)
Theorem X16_runs_and_branches :
  forall d,
    (exists fetch_job_logs workflow_runs,
        d = CIAnalyzer.github_analyze fetch_job_logs workflow_runs)
    \/ (exists fetch_pipeline_jobs fetch_job_log pipelines,
           d = CIAnalyzer.gitlab_analyze fetch_pipeline_jobs fetch_job_log
                                         pipelines) ->
    forall n c,
      PyDict.get n d = Some c ->
      CIAnalyzer.total_runs c = Z.of_nat (length (CIAnalyzer.runs c))
      /\ 1 <= CIAnalyzer.total_runs c
      /\ NoDup (CIAnalyzer.branches c)
      /\ (forall b, In b (CIAnalyzer.branches c)
                    <-> exists r, In r (CIAnalyzer.runs c)
                                  /\ CIAnalyzer.r_branch r = b).
Proof.
  intros d Hd n c H. apply get_In_items in H.
  assert (Hwr : exists P, CIParseSpec.well_recorded P n c).
  { destruct Hd as [(f & rs & ->)|(fj & fl & ps & ->)].
    - pose proof (github_analyze_well_recorded f rs) as Hall.
      unfold CIParseSpec.all_items in Hall. rewrite Forall_forall in Hall.
      eexists. apply (Hall _ H).
    - pose proof (gitlab_analyze_well_recorded fj fl ps) as Hall.
      unfold CIParseSpec.all_items in Hall. rewrite Forall_forall in Hall.
      eexists. apply (Hall _ H). }
  destruct Hwr as (P & _ & _ & Hnd & Hb & (Ht & _) & Hne).
  unfold CISpec.statuses in Ht. rewrite length_map in Ht.
  split; [exact Ht|]. split; [|split; [exact Hnd|]].
  - rewrite Ht. destruct (CIAnalyzer.runs c); [congruence | simpl length; lia].
  - intros b. rewrite Hb, in_map_iff.
    split; intros (r & H1 & H2); exists r; auto.
Qed.

Lemma X16_runs_and_branches_witness :
  exists c,
    CISamples.ci_aggregate CISamples.log_mixed = Some c
    /\ CIAnalyzer.total_runs c = 3
    /\ CIAnalyzer.branches c = ["main"].
Proof.
  eexists. split; [vm_compute; reflexivity|].
  split; [|vm_compute; reflexivity].
  refine (proj1 (X16_runs_and_branches _
            (or_introl (ex_intro _ (fun _ => Some CISamples.log_mixed)
                          (ex_intro _ CISamples.one_run eq_refl)))
            "test_sample" _ _)).
  vm_compute. reflexivity.
Defined.

(* ------------------------------------------------------------------ *)
(** ** Which runs the GitHub analyzer reads *)

Lemma fold_left_filter_skip {A B} (step : A -> B -> A) (p : B -> bool) l :
  (forall d x, p x = false -> step d x = d) ->
  forall d, fold_left step (filter p l) d = fold_left step l d.
Proof.
  intros Hskip. induction l as [|x l IH]; intros d; simpl; [reflexivity|].
  destruct (p x) eqn:E; simpl; [apply IH|].
  now rewrite (Hskip d x E).
Qed.

(** X17: the GitHub analysis reads the first twenty workflow runs only, and
    among them skips the runs without logs; such a run still takes one of the
    twenty places, so the result can differ from analysing the runs that do
    have logs. *)
Theorem X17_github_cap_and_skips :
  (forall fetch_job_logs workflow_runs,
      CIAnalyzer.github_analyze fetch_job_logs workflow_runs
      = CIAnalyzer.github_analyze fetch_job_logs (firstn 20 workflow_runs)
      /\ CIAnalyzer.github_analyze fetch_job_logs workflow_runs
         = fold_left (CIAnalyzer.github_step fetch_job_logs)
             (filter (CIParseSpec.has_logs fetch_job_logs)
                     (firstn 20 workflow_runs))
             PyDict.empty)
  /\ (forall fetch_job_logs workflow_runs more,
         (20 <= length workflow_runs)%nat ->
         CIAnalyzer.github_analyze fetch_job_logs (workflow_runs ++ more)
         = CIAnalyzer.github_analyze fetch_job_logs workflow_runs)
  /\ (CIAnalyzer.get_flaky_tests
        (CIAnalyzer.github_analyze CIHistory.long_history_logs
                                   CIHistory.long_history) 3 = []
      /\ CIAnalyzer.get_flaky_tests
           (CIAnalyzer.github_analyze CIHistory.long_history_logs
              (filter (CIParseSpec.has_logs CIHistory.long_history_logs)
                      CIHistory.long_history)) 3 <> []).
Proof.
  split; [|split].
  - intros f rs. unfold CIAnalyzer.github_analyze. split.
    + now rewrite firstn_firstn, Nat.min_id.
    + symmetry. apply fold_left_filter_skip.
      intros d x H. now apply github_step_skip.
  - intros f rs more H. unfold CIAnalyzer.github_analyze.
    rewrite firstn_app.
    replace (20 - length rs)%nat with 0%nat by lia.
    cbn [firstn]. now rewrite app_nil_r.
  - split; [vm_compute; reflexivity|]. vm_compute. discriminate.
Qed.

Lemma X17_github_cap_and_skips_witness :
  CIAnalyzer.github_analyze CIHistory.long_history_logs
    (firstn 20 CIHistory.long_history ++ skipn 20 CIHistory.long_history)
  = CIAnalyzer.github_analyze CIHistory.long_history_logs
      (firstn 20 CIHistory.long_history).
Proof.
  apply (proj1 (proj2 X17_github_cap_and_skips)).
  vm_compute. lia.
Defined.

(* ------------------------------------------------------------------ *)
(** ** Scores and rates of CI aggregates *)

Lemma analysis_result_well_recorded d :
  CIHistory.analysis_result d ->
  exists P, CIParseSpec.all_items (CIParseSpec.well_recorded P) d.
Proof.
  intros [(f & rs & ->)|(fj & fl & ps & ->)]; eexists.
  - apply github_analyze_well_recorded.
  - apply gitlab_analyze_well_recorded.
Qed.

Lemma analysis_result_counted d t :
  CIHistory.analysis_result d -> In t (PyDict.values d) ->
  CISpec.counted t /\ 0 < CIAnalyzer.total_runs t.
Proof.
  intros Hd Hin. apply analysis_result_well_recorded in Hd.
  destruct Hd as (P & Hall). unfold CIParseSpec.all_items in Hall.
  rewrite Forall_forall in Hall. unfold PyDict.values in Hin.
  apply in_map_iff in Hin. destruct Hin as ([k c] & <- & Hin).
  destruct (Hall _ Hin) as (_ & _ & _ & _ & Hc & Hne). cbn [fst snd] in *.
  split; [exact Hc|]. destruct Hc as (Ht & _). rewrite Ht.
  unfold CISpec.statuses. rewrite length_map.
  destruct (CIAnalyzer.runs c); [congruence | simpl length; lia].
Qed.

Lemma ci_counted_bounds c :
  CISpec.counted c ->
  0 <= CIAnalyzer.pass_count c /\ 0 <= CIAnalyzer.fail_count c
  /\ 0 <= CIAnalyzer.skip_count c
  /\ CIAnalyzer.pass_count c + CIAnalyzer.fail_count c
     + CIAnalyzer.skip_count c <= CIAnalyzer.total_runs c.
Proof.
  intros (Ht & Hp & Hf & Hs). rewrite Ht, Hp, Hf, Hs.
  pose proof (four_counts_le (CISpec.statuses c)).
  pose proof (occurrences_nonneg "passed" (CISpec.statuses c)).
  pose proof (occurrences_nonneg "failed" (CISpec.statuses c)).
  pose proof (occurrences_nonneg "error" (CISpec.statuses c)).
  pose proof (occurrences_nonneg "skipped" (CISpec.statuses c)).
  lia.
Qed.

Lemma ci_flakiness_score_unfold c :
  0 < CIAnalyzer.total_runs c ->
  CIAnalyzer.flakiness_score c =
  (Qmin (inject_Z (CIAnalyzer.pass_count c)
         / inject_Z (CIAnalyzer.total_runs c))
        (inject_Z (CIAnalyzer.fail_count c)
         / inject_Z (CIAnalyzer.total_runs c)) * 2)%Q.
Proof.
  intros H. unfold CIAnalyzer.flakiness_score.
  destruct (Z.eqb_spec (CIAnalyzer.total_runs c) 0); [lia | reflexivity].
Qed.

(** X18: a flaky CI aggregate has at least two runs, so on the result of
    either analyzer every [min_runs] up to 2 selects the same tests. *)
Theorem X18_flaky_needs_two_runs d :
  CIHistory.analysis_result d ->
  (forall t, In t (PyDict.values d) -> CIAnalyzer.is_flaky t = true ->
             2 <= CIAnalyzer.total_runs t)
  /\ (forall min_runs, min_runs <= 2 ->
        CIAnalyzer.get_flaky_tests d min_runs = CIAnalyzer.get_flaky_tests d 2).
Proof.
  intros Hd.
  assert (H2 : forall t, In t (PyDict.values d) ->
                         CIAnalyzer.is_flaky t = true ->
                         2 <= CIAnalyzer.total_runs t).
  { intros t Hin Hf. destruct (analysis_result_counted d t Hd Hin) as [Hc _].
    pose proof (ci_counted_bounds t Hc). unfold CIAnalyzer.is_flaky in Hf.
    apply andb_true_iff in Hf. rewrite !Z.ltb_lt in Hf. lia. }
  split; [exact H2|]. intros m Hm. rewrite !get_flaky_tests_unfold. f_equal.
  apply filter_ext_in. intros t Hin. unfold CISpec.selected.
  destruct (CIAnalyzer.is_flaky t) eqn:Ef; [|now rewrite !andb_false_r].
  specialize (H2 t Hin Ef). rewrite !andb_true_r.
  destruct (Z.leb_spec m (CIAnalyzer.total_runs t)),
    (Z.leb_spec 2 (CIAnalyzer.total_runs t)); auto; lia.
Qed.

Lemma X18_flaky_needs_two_runs_witness :
  CIAnalyzer.get_flaky_tests
    (CIAnalyzer.github_analyze (fun _ => Some CISamples.log_mixed)
                               CISamples.one_run) 0
  = CIAnalyzer.get_flaky_tests
      (CIAnalyzer.github_analyze (fun _ => Some CISamples.log_mixed)
                                 CISamples.one_run) 2.
Proof.
  apply (proj2 (X18_flaky_needs_two_runs _
           (or_introl (ex_intro _ (fun _ => Some CISamples.log_mixed)
                         (ex_intro _ CISamples.one_run eq_refl))))).
  lia.
Defined.

(* ------------------------------------------------------------------ *)
(** ** Sorting and filtering commute *)

Section SortFilter.
Context {A : Type} (before : A -> A -> bool) (p : A -> bool).
Hypothesis before_total : forall x y, before x y = false -> before y x = true.
Hypothesis before_trans :
  forall x y z, before x y = true -> before y z = true -> before x z = true.

Lemma insert_head x s :
  (forall z, In z s -> before x z = true) -> PySort.insert before x s = x :: s.
Proof.
  destruct s as [|z s]; intros H; [reflexivity|].
  simpl. now rewrite (H z (or_introl eq_refl)).
Qed.

Lemma insert_filter_commute x l :
  StronglySorted (fun a b => before a b = true) l ->
  filter p (PySort.insert before x l)
  = if p x then PySort.insert before x (filter p l) else filter p l.
Proof.
  induction 1 as [|y l Hs IH Hall].
  - simpl. now destruct (p x).
  - cbn [PySort.insert]. destruct (before x y) eqn:E.
    + cbn [filter]. destruct (p x); [|reflexivity].
      symmetry. apply insert_head. intros z Hz.
      assert (Hin : In z (y :: l)).
      { revert Hz. destruct (p y); [intros [<-|Hz]|intros Hz];
          simpl; auto; right; now apply filter_In in Hz. }
      destruct Hin as [<-|Hin]; [exact E|].
      rewrite Forall_forall in Hall. apply (before_trans x y z E), Hall, Hin.
    + cbn [filter]. rewrite IH.
      destruct (p x), (p y); cbn [PySort.insert]; rewrite ?E; reflexivity.
Qed.

Lemma stable_sort_filter_commute l :
  filter p (PySort.stable_sort before l)
  = PySort.stable_sort before (filter p l).
Proof.
  induction l as [|x l IH]; [reflexivity|].
  cbn [PySort.stable_sort fold_right].
  change (fold_right (PySort.insert before) [] l)
    with (PySort.stable_sort before l).
  rewrite insert_filter_commute by now apply stable_sort_sorted.
  rewrite IH. cbn [filter]. destruct (p x); reflexivity.
Qed.

End SortFilter.

(** X19: raising [min_runs] only removes tests: the result for a larger
    threshold is the result for a smaller one with the aggregates below the
    larger threshold taken out, the order of the others unchanged. *)
Theorem X19_min_runs_monotone test_results m m' :
  m <= m' ->
  CIAnalyzer.get_flaky_tests test_results m'
  = filter (fun t => m' <=? CIAnalyzer.total_runs t)
           (CIAnalyzer.get_flaky_tests test_results m)
  /\ (forall t, In t (CIAnalyzer.get_flaky_tests test_results m') ->
                In t (CIAnalyzer.get_flaky_tests test_results m)).
Proof.
  intros Hm.
  assert (E : CIAnalyzer.get_flaky_tests test_results m'
              = filter (fun t => m' <=? CIAnalyzer.total_runs t)
                       (CIAnalyzer.get_flaky_tests test_results m)).
  { rewrite !get_flaky_tests_unfold.
    unfold PySort.sort_by_float_key_reverse.
    rewrite stable_sort_filter_commute.
    - f_equal. rewrite filter_filter. apply filter_ext. intros t.
      unfold CISpec.selected.
      destruct (Z.leb_spec m (CIAnalyzer.total_runs t)),
        (Z.leb_spec m' (CIAnalyzer.total_runs t)),
        (CIAnalyzer.is_flaky t); cbn; auto; lia.
    - intros x y H. now apply Qle_bool_total.
    - intros x y z H1 H2.
      now apply (Qle_bool_trans _ (CIAnalyzer.flakiness_score y)). }
  split; [exact E|]. intros t. rewrite E, filter_In. tauto.
Qed.

Lemma X19_min_runs_monotone_witness :
  CIAnalyzer.get_flaky_tests CISamples.three_results 3
  = filter (fun t => 3 <=? CIAnalyzer.total_runs t)
           (CIAnalyzer.get_flaky_tests CISamples.three_results 1).
Proof.
  apply (proj1 (X19_min_runs_monotone CISamples.three_results 1 3 ltac:(lia))).
Defined.

Lemma score_formula_pos_iff p f T :
  0 < T -> 0 <= p -> 0 <= f ->
  ((0 < Qmin (inject_Z p / inject_Z T) (inject_Z f / inject_Z T) * 2)%Q
   <-> 0 < p /\ 0 < f).
Proof.
  intros HT Hp Hf.
  destruct (score_formula_cases p f T HT) as [[H E]|[H E]]; rewrite E;
    destruct T as [|n|n]; try lia; rewrite <- Qmake_Qdiv;
    unfold Qlt; cbn [Qnum Qden]; lia.
Qed.

(** X20: on the result of either CI analyzer, the score lies in [0, 1] and
    [is_flaky] holds exactly when the score is positive (the local aggregate
    differs: there a flaky test can score 0). *)
Theorem X20_ci_flaky_iff_positive_score d n c :
  CIHistory.analysis_result d ->
  PyDict.get n d = Some c ->
  (CIAnalyzer.is_flaky c = true <-> (0 < CIAnalyzer.flakiness_score c)%Q)
  /\ (0 <= CIAnalyzer.flakiness_score c /\ CIAnalyzer.flakiness_score c <= 1)%Q.
Proof.
  intros Hd H. apply get_In in H.
  destruct (analysis_result_counted d c Hd H) as [Hc HT].
  pose proof (ci_counted_bounds c Hc) as (Hp & Hf & Hs & Hsum).
  rewrite (ci_flakiness_score_unfold c HT). split.
  - rewrite score_formula_pos_iff by assumption.
    unfold CIAnalyzer.is_flaky. now rewrite andb_true_iff, !Z.ltb_lt.
  - apply score_formula_range; lia.
Qed.

Lemma X20_ci_flaky_iff_positive_score_witness :
  exists c,
    CISamples.ci_aggregate CISamples.log_passed_error = Some c
    /\ (CIAnalyzer.is_flaky c = true <-> (0 < CIAnalyzer.flakiness_score c)%Q).
Proof.
  eexists. split; [vm_compute; reflexivity|].
  refine (proj1 (X20_ci_flaky_iff_positive_score _ "test_sample" _
            (or_introl (ex_intro _ (fun _ => Some CISamples.log_passed_error)
                          (ex_intro _ CISamples.one_run eq_refl))) _)).
  vm_compute. reflexivity.
Defined.



(* ------------------------------------------------------------------ *)
(** ** The evidence the analyzer reports *)

Section EvidenceFacts.
Variable re_search : string -> string -> bool.

Let matches (patterns : list string) (line : string) : bool :=
  existsb (fun pattern => re_search pattern line) patterns.

Lemma check_pattern_from_In patterns start lines : forall i n snippet,
  In (n, snippet)
     (Analyzer._check_pattern_from re_search i patterns lines start)
  <-> exists j line,
        nth_error lines j = Some line
        /\ n = start + (i + Z.of_nat j)
        /\ snippet = PyStr.strip line
        /\ matches patterns line = true.
Proof.
  subst matches.
  induction lines as [|l lines IH]; intros i n snippet;
    cbn [Analyzer._check_pattern_from].
  - split; [intros [] | intros (j & line & H & _)]. now destruct j.
  - rewrite in_app_iff, IH. split.
    + intros [H|(j & line & Hj & Hn & Hs & Hm)].
      * destruct (existsb _ patterns) eqn:E; [|destruct H].
        destruct H as [H|[]]. injection H as <- <-.
        exists 0%nat, l. repeat split; auto. lia.
      * exists (S j), line. repeat split; auto. lia.
    + intros ([|j] & line & Hj & Hn & Hs & Hm).
      * injection Hj as <-. left. rewrite Hm. left. subst.
        f_equal. lia.
      * right. exists j, line. repeat split; auto. lia.
Qed.

Lemma check_pattern_from_sorted patterns start lines : forall i,
  StronglySorted Z.lt
    (map fst (Analyzer._check_pattern_from re_search i patterns lines start))
  /\ Forall (fun n => start + i <= n)
       (map fst (Analyzer._check_pattern_from re_search i patterns lines start)).
Proof.
  induction lines as [|l lines IH]; intros i;
    cbn [Analyzer._check_pattern_from].
  - split; constructor.
  - destruct (IH (i + 1)) as [Hs Hb].
    assert (Hb' : Forall (fun n => start + i < n)
                    (map fst (Analyzer._check_pattern_from re_search (i + 1)
                                patterns lines start))).
    { eapply Forall_impl; [|exact Hb]. intros; cbn in *; lia. }
    destruct (existsb _ patterns); cbn [app map fst].
    + split.
      * constructor; assumption.
      * constructor; [lia|]. eapply Forall_impl; [|exact Hb'].
        intros; cbn in *; lia.
    + split; [exact Hs|]. eapply Forall_impl; [|exact Hb'].
      intros; cbn in *; lia.
Qed.

Lemma check_pattern_from_length patterns start lines : forall i,
  (length (Analyzer._check_pattern_from re_search i patterns lines start)
   <= length lines)%nat.
Proof.
  induction lines as [|l lines IH]; intros i;
    cbn [Analyzer._check_pattern_from]; [auto|].
  rewrite length_app. specialize (IH (i + 1)).
  destruct (existsb _ patterns); simpl; lia.
Qed.

(** X22: [_check_pattern] reports a line exactly when some pattern of the
    table matches it, once even if several patterns match; the report carries
    the line's number counted from [start_line] and its stripped text, and the
    reports come in increasing line order. *)
Theorem X22_check_pattern_evidence :
  forall source patterns lines start_line,
    let found :=
      Analyzer._check_pattern re_search source patterns lines start_line in
    (forall n snippet,
        In (n, snippet) found <->
        exists j line,
          nth_error lines j = Some line
          /\ n = start_line + Z.of_nat j
          /\ snippet = PyStr.strip line
          /\ existsb (fun pattern => re_search pattern line) patterns = true)
    /\ StronglySorted Z.lt (map fst found)
    /\ (length found <= length lines)%nat.
Proof.
  intros source patterns lines start found. subst found.
  unfold Analyzer._check_pattern. split; [|split].
  - intros n snippet. rewrite check_pattern_from_In. subst matches.
    split; intros (j & line & H1 & H2 & H3 & H4); exists j, line;
      repeat split; auto; lia.
  - apply check_pattern_from_sorted.
  - apply check_pattern_from_length.
Qed.

End EvidenceFacts.

Section AnalyzeShape.
Context {ast_module function_def : Type}.
Variable walk_function_defs : ast_module -> list function_def.
Variable fd_name : function_def -> string.
Variable fd_lineno : function_def -> Z.
Variable get_source_segment : string -> function_def -> option string.
Variable re_search : string -> string -> bool.

Let analyze :=
  Analyzer.analyze walk_function_defs fd_name fd_lineno get_source_segment
                   re_search.
Let find_function := Analyzer._find_function walk_function_defs fd_name.

Lemma check_category_In patterns ty descr conf source lines start c :
  In c (Analyzer.check_category re_search patterns ty descr conf
                                source lines start) ->
  let found := Analyzer._check_pattern re_search source patterns lines start in
  found <> []
  /\ c = Analyzer.mkRootCause ty descr (map fst found) (map snd found) conf.
Proof.
  unfold Analyzer.check_category. cbv zeta.
  destruct (Analyzer._check_pattern _ _ _ _ _) as [|m ms]; [intros []|].
  intros [<-|[]]. split; [discriminate | reflexivity].
Qed.

Lemma run_checks_In source lines start c :
  In c (Analyzer.run_checks re_search source lines start) ->
  exists patterns,
    let found := Analyzer._check_pattern re_search source patterns lines start in
    found <> []
    /\ Analyzer.line_numbers c = map fst found
    /\ Analyzer.code_snippets c = map snd found.
Proof.
  unfold Analyzer.run_checks, Analyzer._check_time_dependency,
    Analyzer._check_random_dependency, Analyzer._check_concurrency,
    Analyzer._check_order_dependency, Analyzer._check_external_dependency,
    Analyzer._check_floating_point, Analyzer._check_global_state.
  rewrite !in_app_iff.
  intros [H|[H|[H|[H|[H|[H|H]]]]]]; apply check_category_In in H;
    destruct H as (Hne & ->); eexists; cbv zeta;
    (split; [exact Hne | split; reflexivity]).
Qed.

Lemma analyze_In self name c :
  In c (analyze self name) ->
  Analyzer.line_numbers c = [] /\ Analyzer.code_snippets c = []
  \/ exists t f src,
       Analyzer.tree self = Some t
       /\ find_function t name = Some f
       /\ get_source_segment (Analyzer.source_code self) f = Some src
       /\ In c (Analyzer.run_checks re_search src (PyStr.split_lines src)
                                    (fd_lineno f)).
Proof.
  subst analyze find_function. unfold Analyzer.analyze.
  destruct (Analyzer.tree self) as [t|]; [|intros [<-|[]]; now left].
  destruct (Analyzer._find_function _ _ t name) as [f|] eqn:Ef; [|intros []].
  destruct (get_source_segment _ f) as [[|a src]|] eqn:Es; try (intros []).
  cbv zeta.
  destruct (Analyzer.run_checks re_search (String a src) _ _) eqn:E.
  - intros [<-|[]]. now left.
  - intros H. right. exists t, f, (String a src). rewrite E. auto.
Qed.

(** X23: every cause [analyze] returns has as many snippets as line numbers,
    its line numbers increase strictly, and they all lie within the span of
    the analysed function: from its first line up to, not including, its
    first line plus the number of lines of its source text. *)
Theorem X23_evidence_within_span self name c :
  In c (analyze self name) ->
  length (Analyzer.line_numbers c) = length (Analyzer.code_snippets c)
  /\ StronglySorted Z.lt (Analyzer.line_numbers c)
  /\ (forall t f src,
         Analyzer.tree self = Some t ->
         find_function t name = Some f ->
         get_source_segment (Analyzer.source_code self) f = Some src ->
         Forall (fun n =>
                   fd_lineno f <= n
                   < fd_lineno f + Z.of_nat (length (PyStr.split_lines src)))
                (Analyzer.line_numbers c)).
Proof.
  intros H. apply analyze_In in H.
  destruct H as [[-> ->]|(t & f & src & Ht & Hf & Hs & Hin)].
  - repeat split; constructor.
  - apply run_checks_In in Hin. destruct Hin as (patterns & _ & Hl & Hc).
    cbv zeta in *. rewrite Hl, Hc, !length_map.
    split; [reflexivity|]. split.
    + apply (check_pattern_from_sorted re_search).
    + intros t' f' src' Ht' Hf' Hs'.
      rewrite Ht in Ht'. injection Ht' as <-.
      rewrite Hf in Hf'. injection Hf' as <-.
      rewrite Hs in Hs'. injection Hs' as <-.
      apply Forall_forall. intros n Hn. apply in_map_iff in Hn.
      destruct Hn as ([n' snippet] & <- & Hn). cbn [fst].
      unfold Analyzer._check_pattern in Hn.
      apply check_pattern_from_In in Hn.
      destruct Hn as (j & line & Hj & -> & _).
      assert (j < length (PyStr.split_lines src))%nat
        by (apply nth_error_Some; congruence).
      lia.
Qed.

End AnalyzeShape.

Lemma X23_evidence_within_span_witness :
  exists c,
    nth_error (AnalyzerSamples.toy_analyze AnalyzerSpec.race_file "test_race") 0
    = Some c
    /\ Analyzer.line_numbers c = [31; 33]
    /\ Forall (fun n => 30 <= n < 30 + 4) (Analyzer.line_numbers c).
Proof.
  eexists. split; [vm_compute; reflexivity|].
  split; [vm_compute; reflexivity|].
  refine (proj2 (proj2 (X23_evidence_within_span (fun m => m)
            AnalyzerSamples.toy_name AnalyzerSamples.toy_lineno
            AnalyzerSamples.toy_segment AnalyzerSamples.toy_search
            AnalyzerSpec.race_file "test_race" _ _))
          _ AnalyzerSpec.clock_and_thread_test _ eq_refl eq_refl eq_refl).
  vm_compute. left. reflexivity.
Defined.

Section AnalyzeResult.
Context {ast_module function_def : Type}.
Variable walk_function_defs : ast_module -> list function_def.
Variable fd_name : function_def -> string.
Variable fd_lineno : function_def -> Z.
Variable get_source_segment : string -> function_def -> option string.
Variable re_search : string -> string -> bool.

Let analyze :=
  Analyzer.analyze walk_function_defs fd_name fd_lineno get_source_segment
                   re_search.

(** What the seven checks return, taken together. *)
Lemma run_checks_shape source lines start :
  let res := Analyzer.run_checks re_search source lines start in
  map Analyzer.type res
  = filter (fun ty => existsb (Analyzer.FlakinessType_eqb ty)
                              (map Analyzer.type res))
           AnalyzerSpec.category_order
  /\ Forall (fun c =>
               Analyzer.confidence c
               = AnalyzerSpec.confidence_of (Analyzer.type c)
               /\ Analyzer.line_numbers c <> []
               /\ Analyzer.type c <> Analyzer.UNKNOWN) res.
Proof.
  unfold Analyzer.run_checks, Analyzer._check_time_dependency,
    Analyzer._check_random_dependency, Analyzer._check_concurrency,
    Analyzer._check_order_dependency, Analyzer._check_external_dependency,
    Analyzer._check_floating_point, Analyzer._check_global_state,
    Analyzer.check_category.
  destruct (Analyzer._check_pattern re_search source Analyzer.TIME_PATTERNS
                                    lines start) as [|m1 l1];
  destruct (Analyzer._check_pattern re_search source Analyzer.RANDOM_PATTERNS
                                    lines start) as [|m2 l2];
  destruct (Analyzer._check_pattern re_search source
              Analyzer.CONCURRENCY_PATTERNS lines start) as [|m3 l3];
  destruct (Analyzer._check_pattern re_search source Analyzer.ORDER_PATTERNS
                                    lines start) as [|m4 l4];
  destruct (Analyzer._check_pattern re_search source
              Analyzer.EXTERNAL_PATTERNS lines start) as [|m5 l5];
  destruct (Analyzer._check_pattern re_search source Analyzer.FLOAT_PATTERNS
                                    lines start) as [|m6 l6];
  destruct (Analyzer._check_pattern re_search source
              Analyzer.GLOBAL_STATE_PATTERNS lines start) as [|m7 l7];
  cbv zeta;
  (split;
   [ reflexivity
   | cbn [app]; repeat constructor; cbn; discriminate ]).
Qed.

(** X24: the shape of every result of [analyze].  It is empty, or the
    single cause "could not parse", or the single cause "no obvious pattern",
    or a non-empty list of category causes: these come in the order the
    categories are checked (time, random, concurrency, unordered collection,
    external, floating point, global state), each with the fixed confidence of
    its category and with non-empty evidence, [unknown] never among them.  So
    no result holds two causes of one type, more than seven causes, or an
    [order_dependent] cause. *)
Theorem X24_analyze_result_shape :
  forall self name,
    let res := analyze self name in
    (res = []
     \/ res = [Analyzer.could_not_parse]
     \/ res = [Analyzer.no_obvious_pattern]
     \/ (res <> []
         /\ map Analyzer.type res
            = filter (fun ty => existsb (Analyzer.FlakinessType_eqb ty)
                                        (map Analyzer.type res))
                     AnalyzerSpec.category_order
         /\ Forall (fun c =>
                      Analyzer.confidence c
                      = AnalyzerSpec.confidence_of (Analyzer.type c)
                      /\ Analyzer.line_numbers c <> []
                      /\ Analyzer.type c <> Analyzer.UNKNOWN) res))
    /\ NoDup (map Analyzer.type res)
    /\ (length res <= 7)%nat
    /\ Forall (fun c => Analyzer.type c <> Analyzer.ORDER_DEPENDENT) res.
Proof.
  intros self name res.
  assert (H : res = []
              \/ res = [Analyzer.could_not_parse]
              \/ res = [Analyzer.no_obvious_pattern]
              \/ (res <> []
                  /\ map Analyzer.type res
                     = filter (fun ty => existsb (Analyzer.FlakinessType_eqb ty)
                                                 (map Analyzer.type res))
                              AnalyzerSpec.category_order
                  /\ Forall (fun c =>
                               Analyzer.confidence c
                               = AnalyzerSpec.confidence_of (Analyzer.type c)
                               /\ Analyzer.line_numbers c <> []
                               /\ Analyzer.type c <> Analyzer.UNKNOWN) res)).
  { subst res analyze. unfold Analyzer.analyze.
    destruct (Analyzer.tree self) as [t|]; [|auto].
    destruct (Analyzer._find_function _ _ t name) as [f|]; [|auto].
    destruct (get_source_segment _ f) as [[|a src]|]; auto.
    cbv zeta.
    pose proof (run_checks_shape (String a src)
                  (PyStr.split_lines (String a src)) (fd_lineno f)) as Hs.
    cbv zeta in Hs.
    destruct (Analyzer.run_checks re_search (String a src) _ _) as [|c cs];
      [auto|].
    right. right. right. split; [discriminate | exact Hs]. }
  split; [exact H|]. clearbody res.
  assert (Hord : NoDup AnalyzerSpec.category_order)
    by (repeat constructor; simpl; intuition discriminate).
  destruct H as [->|[->|[->|(Hne & Hty & Hall)]]].
  - split; [constructor | split; [simpl; lia | constructor]].
  - split; [|split; [simpl; lia|]].
    + constructor; [intros [] | constructor].
    + constructor; [discriminate | constructor].
  - split; [|split; [simpl; lia|]].
    + constructor; [intros [] | constructor].
    + constructor; [discriminate | constructor].
  - split; [|split].
    + rewrite Hty. now apply NoDup_filter_keep.
    + rewrite <- (length_map Analyzer.type), Hty.
      etransitivity; [apply filter_length_le|]. simpl. lia.
    + apply Forall_forall. intros c Hc Ho.
      assert (Hin : In (Analyzer.type c) (map Analyzer.type res))
        by now apply in_map.
      rewrite Hty in Hin. apply filter_In in Hin. destruct Hin as [Hin _].
      rewrite Ho in Hin. simpl in Hin. intuition discriminate.
Qed.

End AnalyzeResult.

(* ------------------------------------------------------------------ *)
(** ** What the suggester returns *)

Lemma collect_flat_map causes :
  Suggester.collect causes
  = flat_map (fun c => Suggester.fixes_for (Analyzer.type c)) causes.
Proof.
  unfold Suggester.collect.
  assert (H : forall acc,
            fold_left (fun (suggestions : list Suggester.RepairSuggestion) cause =>
                         (suggestions
                          ++ Suggester.fixes_for (Analyzer.type cause))%list)
                      causes acc
            = (acc ++ flat_map (fun c => Suggester.fixes_for (Analyzer.type c))
                               causes)%list).
  { induction causes as [|c causes IH]; intros acc; simpl.
    - now rewrite app_nil_r.
    - now rewrite IH, app_assoc. }
  apply (H []).
Qed.

Lemma fixes_for_catalog ty s :
  In s (Suggester.fixes_for ty) -> In s AnalyzerSpec.catalog.
Proof.
  unfold AnalyzerSpec.catalog. rewrite !in_app_iff.
  destruct ty; cbn [Suggester.fixes_for]; intros H; try (now destruct H); tauto.
Qed.

Lemma fixes_for_nil ty :
  Suggester.fixes_for ty = [] <-> AnalyzerSpec.no_fix ty.
Proof.
  unfold AnalyzerSpec.no_fix.
  destruct ty; split; intros H; try reflexivity; try discriminate H;
    try tauto; destruct H as [H|H]; discriminate H.
Qed.

Lemma catalog_titles_NoDup : NoDup (map Suggester.title AnalyzerSpec.catalog).
Proof.
  assert (E : nodup string_dec (map Suggester.title AnalyzerSpec.catalog)
              = map Suggester.title AnalyzerSpec.catalog)
    by (vm_compute; reflexivity).
  rewrite <- E. apply NoDup_nodup.
Qed.

Lemma collect_catalog causes s :
  In s (Suggester.collect causes) -> In s AnalyzerSpec.catalog.
Proof.
  rewrite collect_flat_map, in_flat_map. intros (c & _ & H).
  now apply fixes_for_catalog in H.
Qed.

Lemma find_exists {A} (p : A -> bool) l x :
  In x l -> p x = true -> exists y, find p l = Some y.
Proof.
  induction l as [|a l IH]; simpl; [tauto|].
  intros [<-|Hin] Hp.
  - rewrite Hp. eauto.
  - destruct (p a); eauto.
Qed.

(** Deduplication by title loses no catalog entry: entries with one title
    are one entry. *)
Lemma first_occurrences_keeps l s :
  (forall x, In x l -> In x AnalyzerSpec.catalog) ->
  In s (SuggestSpec.first_occurrences [] l) <-> In s l.
Proof.
  intros Hcat. split.
  - intros H. now apply first_occurrences_fresh in H.
  - intros Hin.
    pose proof (first_occurrences_find (Suggester.title s) l []) as Hf.
    cbn [existsb] in Hf.
    destruct (find_exists (SuggestSpec.has_title (Suggester.title s)) l s Hin)
      as (y & Hy); [apply String.eqb_refl|].
    rewrite Hy in Hf. apply find_some in Hy. destruct Hy as [Hyin Hyt].
    apply String.eqb_eq in Hyt.
    assert (y = s).
    { apply (NoDup_map_inj Suggester.title AnalyzerSpec.catalog);
        auto using catalog_titles_NoDup. }
    subst y. apply find_some in Hf. tauto.
Qed.

Lemma suggest_repairs_In causes s :
  In s (Suggester.suggest_repairs causes)
  <-> exists c, In c causes /\ In s (Suggester.fixes_for (Analyzer.type c)).
Proof.
  unfold Suggester.suggest_repairs. cbv zeta.
  unfold PySort.sorted_by_int_key.
  rewrite stable_sort_In, remove_duplicates_first_occurrences.
  rewrite first_occurrences_keeps by apply collect_catalog.
  now rewrite collect_flat_map, in_flat_map.
Qed.

(** X25: [suggest_repairs] returns nothing exactly when every cause is of a
    type without fixes ([unknown] or [order_dependent]); so both fallback
    results of the analyzer, and the empty list, get no suggestion. *)
Theorem X25_no_suggestions :
  (forall causes,
      Suggester.suggest_repairs causes = []
      <-> Forall (fun c => AnalyzerSpec.no_fix (Analyzer.type c)) causes)
  /\ Suggester.suggest_repairs [] = []
  /\ Suggester.suggest_repairs [Analyzer.could_not_parse] = []
  /\ Suggester.suggest_repairs [Analyzer.no_obvious_pattern] = [].
Proof.
  split; [|repeat split].
  intros causes. rewrite Forall_forall. split.
  - intros E c Hc. apply fixes_for_nil.
    destruct (Suggester.fixes_for (Analyzer.type c)) as [|s l] eqn:Ef;
      [reflexivity|].
    assert (Hin : In s (Suggester.suggest_repairs causes)).
    { apply suggest_repairs_In. exists c. rewrite Ef. simpl. auto. }
    rewrite E in Hin. destruct Hin.
  - intros H.
    destruct (Suggester.suggest_repairs causes) as [|s l] eqn:E;
      [reflexivity|].
    assert (Hin : In s (Suggester.suggest_repairs causes))
      by (rewrite E; now left).
    apply suggest_repairs_In in Hin. destruct Hin as (c & Hc & Hs).
    apply H, fixes_for_nil in Hc. rewrite Hc in Hs. destruct Hs.
Qed.

(** X26: deduplication loses nothing: a suggestion is returned exactly when
    it is in the fix list of the type of some cause (two catalog entries
    never share a title, so only repeats of one entry are dropped). *)
Theorem X26_suggestions_are_the_fixes :
  forall causes s,
    In s (Suggester.suggest_repairs causes)
    <-> exists c, In c causes /\ In s (Suggester.fixes_for (Analyzer.type c)).
Proof.
  intros causes s. split.
  - intros H. apply suggest_repairs_In in H.
    destruct H as (c & Hc & Hs). now exists c.
  - intros (c & Hc & Hs). apply suggest_repairs_In. now exists c.
Qed.

Lemma first_occurrences_all_seen l : forall seen,
  (forall s, In s l -> In (Suggester.title s) seen) ->
  SuggestSpec.first_occurrences seen l = [].
Proof.
  induction l as [|x l IH]; intros seen H; simpl; [reflexivity|].
  replace (existsb (String.eqb (Suggester.title x)) seen) with true.
  - apply IH. intros s Hs. apply H. now right.
  - symmetry. apply mem_string_iff. apply H. now left.
Qed.

Lemma first_occurrences_absorb l l' : forall seen,
  (forall s, In s l' ->
             In (Suggester.title s) seen
             \/ In (Suggester.title s) (map Suggester.title l)) ->
  SuggestSpec.first_occurrences seen (l ++ l')
  = SuggestSpec.first_occurrences seen l.
Proof.
  induction l as [|x l IH]; intros seen H.
  - cbn [app]. rewrite first_occurrences_all_seen; [reflexivity|].
    intros s Hs. destruct (H s Hs) as [|[]]; assumption.
  - cbn [app SuggestSpec.first_occurrences].
    destruct (existsb (String.eqb (Suggester.title x)) seen) eqn:E.
    + apply IH. intros s Hs. destruct (H s Hs) as [H1|[H1|H1]]; auto.
      left. rewrite <- H1. now apply mem_string_iff.
    + f_equal. apply IH. intros s Hs.
      destruct (H s Hs) as [H1|[H1|H1]]; simpl; auto.
Qed.

(** X27: only the types of the causes matter, and only their first
    occurrences: causes appended after a list change nothing when each is of
    a type without fixes or of a type the list already holds. *)
Theorem X27_repeated_causes_absorbed causes more :
  Forall (fun c' => AnalyzerSpec.no_fix (Analyzer.type c')
                    \/ exists c, In c causes
                                 /\ Analyzer.type c = Analyzer.type c') more ->
  Suggester.suggest_repairs (causes ++ more) = Suggester.suggest_repairs causes.
Proof.
  intros H. rewrite Forall_forall in H.
  unfold Suggester.suggest_repairs. cbv zeta. f_equal.
  rewrite !remove_duplicates_first_occurrences, !collect_flat_map, flat_map_app.
  apply first_occurrences_absorb. intros s Hs. right.
  apply in_flat_map in Hs. destruct Hs as (c' & Hc' & Hs).
  apply in_map. apply in_flat_map.
  destruct (H c' Hc') as [Hn|(c & Hc & Et)].
  - apply fixes_for_nil in Hn. rewrite Hn in Hs. destruct Hs.
  - exists c. rewrite Et. auto.
Qed.

Lemma X27_repeated_causes_absorbed_witness :
  Suggester.suggest_repairs
    (map SuggestSpec.cause
         [Analyzer.RANDOM_DEPENDENT; Analyzer.TIME_DEPENDENT;
          Analyzer.RANDOM_DEPENDENT; Analyzer.UNKNOWN])
  = Suggester.suggest_repairs
      (map SuggestSpec.cause
           [Analyzer.RANDOM_DEPENDENT; Analyzer.TIME_DEPENDENT]).
Proof.
  apply (X27_repeated_causes_absorbed
           (map SuggestSpec.cause
                [Analyzer.RANDOM_DEPENDENT; Analyzer.TIME_DEPENDENT])
           (map SuggestSpec.cause
                [Analyzer.RANDOM_DEPENDENT; Analyzer.UNKNOWN])).
  constructor; [|constructor; [|constructor]].
  - right. exists (SuggestSpec.cause Analyzer.RANDOM_DEPENDENT).
    split; [now left | reflexivity].
  - left. now left.
Defined.

(** X28: however many causes are given, at most eighteen suggestions come
    back, all of them catalog entries, each of priority 1 or 2. *)
Theorem X28_suggestions_bounded :
  forall causes,
    (length (Suggester.suggest_repairs causes) <= 18)%nat
    /\ Forall (fun s => In s AnalyzerSpec.catalog
                        /\ (Suggester.priority s = 1
                            \/ Suggester.priority s = 2))
              (Suggester.suggest_repairs causes).
Proof.
  intros causes.
  assert (Hcat : forall s, In s (Suggester.suggest_repairs causes) ->
                           In s AnalyzerSpec.catalog).
  { intros s Hs. apply suggest_repairs_In in Hs.
    destruct Hs as (c & _ & Hs). now apply fixes_for_catalog in Hs. }
  split.
  - assert (Hnd : NoDup (map Suggester.title (Suggester.suggest_repairs causes))).
    { unfold Suggester.suggest_repairs. cbv zeta.
      rewrite remove_duplicates_first_occurrences.
      eapply Permutation_NoDup;
        [|apply (first_occurrences_NoDup (Suggester.collect causes) [])].
      apply Permutation_map. symmetry. apply stable_sort_perm. }
    rewrite <- (length_map Suggester.title).
    change 18%nat with (length (map Suggester.title AnalyzerSpec.catalog)).
    apply NoDup_incl_length; [exact Hnd|].
    intros ti Hti. apply in_map_iff in Hti. destruct Hti as (s & <- & Hs).
    apply in_map. now apply Hcat.
  - apply Forall_forall. intros s Hs. split; [now apply Hcat|].
    assert (Hall : Forall (fun s => Suggester.priority s = 1
                                    \/ Suggester.priority s = 2)
                          AnalyzerSpec.catalog)
      by (repeat constructor; cbn; auto).
    rewrite Forall_forall in Hall. now apply Hall, Hcat.
Qed.

(* ------------------------------------------------------------------ *)
(** ** Which logs the GitLab analyzer reads *)

Lemma fold_left_ext_in {A B} (f g : A -> B -> A) l :
  (forall x, In x l -> forall d, f d x = g d x) ->
  forall d, fold_left f l d = fold_left g l d.
Proof.
  induction l as [|x l IH]; intros H d; simpl; [reflexivity|].
  rewrite (H x (or_introl eq_refl)). apply IH.
  intros y Hy. apply H. now right.
Qed.

(** X29: the GitLab analysis reads the first twenty pipelines only, and of
    each pipeline only the log of its first job whose lower-cased name
    contains "test": a pipeline without such a job changes nothing, and two
    log sources that agree on these jobs give the same result. *)
Theorem X29_gitlab_reads_first_test_job :
  forall fetch_pipeline_jobs,
    let test_job p :=
      find (fun j => CIAnalyzer.str_in "test"
                       (CIAnalyzer.lower (CIAnalyzer.job_name j)))
           (fetch_pipeline_jobs (CIAnalyzer.pl_id p)) in
    (forall fetch_job_log d p,
        test_job p = None ->
        CIAnalyzer.gitlab_step fetch_pipeline_jobs fetch_job_log d p = d)
    /\ (forall fetch_job_log fetch_job_log' pipelines,
           (forall p j, In p (firstn 20 pipelines) -> test_job p = Some j ->
                        fetch_job_log (CIAnalyzer.job_id j)
                        = fetch_job_log' (CIAnalyzer.job_id j)) ->
           CIAnalyzer.gitlab_analyze fetch_pipeline_jobs fetch_job_log pipelines
           = CIAnalyzer.gitlab_analyze fetch_pipeline_jobs fetch_job_log'
                                       pipelines)
    /\ (forall fetch_job_log pipelines more,
           (20 <= length pipelines)%nat ->
           CIAnalyzer.gitlab_analyze fetch_pipeline_jobs fetch_job_log
                                     (pipelines ++ more)
           = CIAnalyzer.gitlab_analyze fetch_pipeline_jobs fetch_job_log
                                       pipelines).
Proof.
  intros fj test_job. subst test_job. cbv beta. split; [|split].
  - intros fl d p H. unfold CIAnalyzer.gitlab_step. cbv zeta. now rewrite H.
  - intros fl fl' ps H. unfold CIAnalyzer.gitlab_analyze.
    apply fold_left_ext_in. intros p Hp d.
    unfold CIAnalyzer.gitlab_step. cbv zeta.
    destruct (find _ (fj (CIAnalyzer.pl_id p))) as [j|] eqn:Ej; [|reflexivity].
    now rewrite (H p j Hp Ej).
  - intros fl ps more H. unfold CIAnalyzer.gitlab_analyze.
    rewrite firstn_app.
    replace (20 - length ps)%nat with 0%nat by lia.
    cbn [firstn]. now rewrite app_nil_r.
Qed.

(* ------------------------------------------------------------------ *)
(** ** Runs and totals *)

(** X30: a test that every decoded report lists exactly once has as many
    outcomes as there were readable reports: each missing or malformed report
    lowers the total by one and leaves the rest as it is. *)
Theorem X30_total_is_number_of_readable_reports report_files k t :
  Forall (fun file =>
            match file with
            | None => True
            | Some report =>
                length (filter (fun r => String.eqb (Detector.r_test_id r) k)
                               (Detector.extract_test_results report))
                = 1%nat
            end) report_files ->
  PyDict.get k (Detector.run_detection_on report_files) = Some t ->
  length (Detector.outcomes t)
  = length (filter (fun file => match file with Some _ => true | None => false end)
                   report_files).
Proof.
  intros Hall H. unfold Detector.run_detection_on in H.
  apply run_detection_aggregate in H. destruct H as (Ho & _).
  rewrite Ho. clear Ho t.
  induction Hall as [|file files Hfile Hall IH]; [reflexivity|].
  cbn [map concat filter]. rewrite outcomes_of_app, length_app, IH.
  destruct file as [report|]; cbn [Detector._execute_single_run length].
  - unfold Spec.outcomes_of. rewrite length_map, Hfile. reflexivity.
  - reflexivity.
Qed.

Lemma X30_total_is_number_of_readable_reports_witness :
  exists t,
    PyDict.get "tests/test_app.py::test_ok"
      (Detector.run_detection_on
         [Some DetectorSpec.sample_report; None;
          Some DetectorSpec.sample_report]) = Some t
    /\ length (Detector.outcomes t) = 2%nat.
Proof.
  eexists. split; [vm_compute; reflexivity|].
  refine (X30_total_is_number_of_readable_reports
            [Some DetectorSpec.sample_report; None;
             Some DetectorSpec.sample_report]
            "tests/test_app.py::test_ok" _ _ _).
  - repeat constructor.
  - vm_compute. reflexivity.
Defined.
